(** * StreakForge analytics: streak walk, trend buckets, category statistics

    A shallow embedding of the analytics computations of the StreakForge
    frontend:

    - [StreakChart], [CompletionChart], [CategoryChart] and
      [ProgressSummary], the components under
      frontend/src/features/analytics/components that the Analytics page
      renders from the habits, completions and streaks of the store.

    Conventions of the embedding.

    - A JavaScript [Date] is the integer it wraps: milliseconds since the
      epoch ([getTime()]), a [Z].
    - Local calendar arithmetic (date-fns [format], [startOfDay], [subDays],
      [startOfWeek], ...) works in a time zone with a fixed offset [tz]
      (milliseconds east of UTC); daylight-saving shifts are not modelled, so
      every local day lasts [MS_PER_DAY] milliseconds.
    - A calendar day is its index: the number of days since 1970-01-01.  The
      string that [format d 'yyyy-MM-dd'] prints and the string stored in
      [completion_date] name a calendar day one-to-one, so string equality of
      the two is equality of day indices.
    - The label that [format date 'MMM dd'] prints is represented by the day
      it names.
    - JavaScript numbers that hold counts (array lengths, loop counters,
      differences of timestamps) are [Z]: they stay far below 2^53, where
      binary64 arithmetic on integers is exact.  [Math.floor] of a span of
      milliseconds divided by the milliseconds of a day is the integer
      quotient ([floor_day_quotient]).
    - Any other JavaScript number is the rational [Q] that the binary64
      value denotes.  The rates [(a / b) * 100] are computed as the code
      computes them: [/] and [*] return the exact result rounded to the
      nearest binary64 value, ties to the even significand, and
      [Math.round x] is [floor (x + 1/2)] of that value.  The average
      streak, which the code rounds to one decimal, is kept as the decimal
      itself. *)

From Stdlib Require Import ZArith QArith Qround Qabs Lia Lqa List Bool.
From Stdlib Require Import SpecFloat.
From Stdlib Require Import Permutation Sorted.
From stdpp Require Import gmap strings list sorting.

Local Open Scope Z_scope.

(** ** Data model (types/api.ts) *)

Record HabitResponse := mkHabit {
  id : Z;
  name : string;
  category : option string;      (* category?: string *)
  created_at : Z                 (* new Date(created_at).getTime() *)
}.

Record CompletionResponse := mkCompletion {
  completion_id : Z;
  habit_id : Z;
  completion_date : Z;           (* the day the 'YYYY-MM-DD' string names *)
  value : Z
}.

Record StreakResponse := mkStreak {
  current_streak : Z;
  longest_streak : Z
}.

(** [completions[habit.id] || []] *)
Definition completionsOf (completions : gmap Z (list CompletionResponse))
    (habit : HabitResponse) : list CompletionResponse :=
  default [] (completions !! id habit).

(** [habitCompletions.some(c => c.completion_date === dayStr)] *)
Definition hasCompletion (habitCompletions : list CompletionResponse)
    (dayStr : Z) : bool :=
  existsb (fun c => completion_date c =? dayStr) habitCompletions.

(** ** Dates (date-fns) *)

Definition MS_PER_DAY : Z := 1000 * 60 * 60 * 24.

Section LocalTime.

(** Offset of local time from UTC, in milliseconds. *)
Variable tz : Z.

(** The calendar day that [format date 'yyyy-MM-dd'] prints. *)
Definition format_day (date : Z) : Z := (date + tz) / MS_PER_DAY.

(** Local midnight of the calendar day with index [d]. *)
Definition dayStart (d : Z) : Z := d * MS_PER_DAY - tz.

Definition startOfDay (date : Z) : Z := date - (date + tz) mod MS_PER_DAY.

(** [subDays] and [addDays] move the calendar day and keep the local time
    of day ([setDate]); with a fixed offset that is [amount] times 24
    hours. *)
Definition subDays (date amount : Z) : Z := date - amount * MS_PER_DAY.

Definition addDays (date amount : Z) : Z := date + amount * MS_PER_DAY.

(** [getDay()]: 0 is Sunday; day 0 (1970-01-01) was a Thursday. *)
Definition getDay (date : Z) : Z := (format_day date + 4) mod 7.

(** [startOfWeek] and [endOfWeek] with the default [weekStartsOn: 0]. *)
Definition startOfWeek (date : Z) : Z :=
  subDays (startOfDay date) (getDay date).

Definition endOfWeek (date : Z) : Z :=
  addDays (startOfDay date) (6 - getDay date) + (MS_PER_DAY - 1).

(** [new Date('YYYY-MM-DD')]: a date-only ISO string is UTC midnight. *)
Definition parseDateOnly (d : Z) : Z := d * MS_PER_DAY.

(** [isToday date]: same local calendar day as the clock reading [now]. *)
Definition isToday (now date : Z) : bool :=
  startOfDay date =? startOfDay now.

(** ** StreakChart: the backward walk *)

(** The [while] loop of StreakChart, lines 230-242.  Loop state: [streak]
    and [currentDate].  [fuel] bounds the number of iterations. *)
Fixpoint streakLoop (fuel : nat) (habit : HabitResponse)
    (habitCompletions : list CompletionResponse)
    (streak currentDate : Z) : Z :=
  match fuel with
  | O => streak
  | S fuel' =>
      if created_at habit <=? currentDate then
        if hasCompletion habitCompletions (format_day currentDate) then
          streakLoop fuel' habit habitCompletions
            (streak + 1) (subDays currentDate 1)
        else streak
      else streak
  end.

(** Iterations the walk can make from [date] before it passes
    [created_at]. *)
Definition streakFuel (habit : HabitResponse) (date : Z) : nat :=
  Z.to_nat ((date - created_at habit) / MS_PER_DAY + 1).

(** [let streak = 0; let currentDate = new Date(date); while ...] *)
Definition streakUpTo (habit : HabitResponse)
    (habitCompletions : list CompletionResponse) (date : Z) : Z :=
  streakLoop (streakFuel habit date) habit habitCompletions 0 date.

(** [selectedHabitIds ? habits.filter(...) : habits.slice(0, 5)] *)
Definition habitsToShow (habits : list HabitResponse)
    (selectedHabitIds : option (list Z)) : list HabitResponse :=
  match selectedHabitIds with
  | Some ids => List.filter (fun h => bool_decide (id h ∈ ids)) habits
  | None => take 5 habits
  end.

(** ** Intervals (date-fns) *)

(** The loop of [eachDayOfInterval]: push [currentDate], add one day, while
    [currentDate <= endTime]. *)
Fixpoint eachDayLoop (fuel : nat) (currentDate endTime : Z) : list Z :=
  match fuel with
  | O => []
  | S fuel' =>
      if currentDate <=? endTime then
        currentDate :: eachDayLoop fuel' (addDays currentDate 1) endTime
      else []
  end.

(** [eachDayOfInterval({start, end})]: the local midnights of the days from
    [start] to [end].  An interval whose start lies after its end is outside
    the documented domain ([None]). *)
Definition eachDayOfInterval (start end_ : Z) : option (list Z) :=
  if start <=? end_ then
    Some (eachDayLoop (Z.to_nat ((end_ - startOfDay start) / MS_PER_DAY + 1))
            (startOfDay start) end_)
  else None.

(** The loop of [eachWeekOfInterval]: push [currentWeek], add one week,
    while [currentWeek <= endTime]. *)
Fixpoint eachWeekLoop (fuel : nat) (currentWeek endTime : Z) : list Z :=
  match fuel with
  | O => []
  | S fuel' =>
      if currentWeek <=? endTime then
        currentWeek :: eachWeekLoop fuel' (addDays currentWeek 7) endTime
      else []
  end.

(** [eachWeekOfInterval({start, end})]: the starts of the weeks from the week
    of [start] to the week of [end]. *)
Definition eachWeekOfInterval (start end_ : Z) : option (list Z) :=
  if start <=? end_ then
    Some (eachWeekLoop
            (Z.to_nat ((startOfWeek end_ - startOfWeek start)
                         / (7 * MS_PER_DAY) + 1))
            (startOfWeek start) (startOfWeek end_))
  else None.

End LocalTime.

(** ** Numbers (IEEE 754 binary64) *)

(** [2 ^ e], for an exponent of either sign. *)
Definition pow2 (e : Z) : Q :=
  if 0 <=? e then inject_Z (2 ^ e) else 1 # Z.to_pos (2 ^ (- e)).

(** [floor (log2 |x|)], for [x] other than 0. *)
Definition binade (x : Q) : Z :=
  let k := Z.log2 (Z.abs (Qnum x)) - Z.log2 (Zpos (Qden x)) in
  if Qle_bool (pow2 k) (Qabs x) then k else k - 1.

(** The nearest integer, a half going to the even neighbour. *)
Definition roundHalfEven (x : Q) : Z :=
  let f := Qfloor x in
  match (x - inject_Z f ?= 1 # 2)%Q with
  | Lt => f
  | Gt => f + 1
  | Eq => if Z.even f then f else f + 1
  end.

(** The binary64 value nearest to [x] (roundTiesToEven): a significand of
    53 bits, fewer below [2 ^ -1022].  Results of magnitude [2 ^ 1024] and
    more, which would be [Infinity], do not arise from counts. *)
Definition binary64 (x : Q) : Q :=
  if Qeq_bool x 0 then 0%Q
  else
    let e := Z.max (binade x - 52) (-1074) in
    Qred (inject_Z (roundHalfEven (x * pow2 (- e))) * pow2 e).

(** [x / y] for [y] other than 0, and [x * y]. *)
Definition Number_div (x y : Q) : Q := binary64 (x / y).

Definition Number_mul (x y : Q) : Q := binary64 (x * y).

(** [Math.round]: nearest integer, halves rounded up. *)
Definition Math_round (x : Q) : Z := Qfloor (x + (1 # 2))%Q.

(** [den > 0 ? (num / den) * 100 : 0] *)
Definition ratePercent (num den : Z) : Q :=
  if 0 <? den
  then Number_mul (Number_div (inject_Z num) (inject_Z den)) 100
  else 0%Q.

(** The same rate computed by the reference implementation of IEEE 754
    arithmetic of the Standard Library ([SpecFloat], precision 53, maximal
    exponent 1024), and the rational a finite value of it denotes. *)
Definition SF2Q (f : spec_float) : Q :=
  match f with
  | S754_finite s m e =>
      ((if s then -1 else 1) * inject_Z (Zpos m) * pow2 e)%Q
  | _ => 0%Q
  end.

Definition SFofZ (n : Z) : spec_float := binary_normalize 53 1024 n 0 false.

Definition referenceRate (num den : Z) : Q :=
  SF2Q (SFmul 53 1024 (SFdiv 53 1024 (SFofZ num) (SFofZ den)) (SFofZ 100)).

(** ** CompletionChart *)

Module CompletionChart.

Inductive Period := daily | weekly.

Record ChartDataPoint := mkPoint {
  period : Z;               (* the day whose 'MMM dd' label is shown *)
  completions : Z;
  totalHabits : Z;
  completionRate : Z
}.

Section ChartData.

Variable tz : Z.
Variable habits : list HabitResponse.
Variable completions_ : gmap Z (list CompletionResponse).

(** [habits.forEach(habit => { if (hasCompletion) periodCompletions++ })]
    for the day [dayStr], starting from the counter [periodCompletions]. *)
Definition countDay (periodCompletions : Z) (dayStr : Z) : Z :=
  fold_left
    (fun acc habit =>
       if hasCompletion (completionsOf completions_ habit) dayStr
       then acc + 1 else acc)
    habits periodCompletions.

(** [weekDays.forEach(day => habits.forEach(...))] *)
Definition countWeek (weekDays : list Z) : Z :=
  fold_left (fun acc day => countDay acc (format_day tz day)) weekDays 0.

(** [periodCompletions] of one bucket. *)
Definition periodCompletionsOf (p : Period) (date : Z) : option Z :=
  match p with
  | weekly =>
      weekDays ← eachDayOfInterval tz (startOfWeek tz date) (endOfWeek tz date);
      Some (countWeek weekDays)
  | daily => Some (countDay 0 (format_day tz date))
  end.

(** The callback of [intervals.map]. *)
Definition chartPoint (p : Period) (date : Z) : option ChartDataPoint :=
  periodCompletions ← periodCompletionsOf p date;
  let totalHabits := Z.of_nat (length habits) in
  Some {| period := format_day tz date;
          completions := periodCompletions;
          totalHabits := totalHabits;
          completionRate :=
            Math_round (ratePercent periodCompletions totalHabits) |}.

(** [intervals] for the window of [days] days that ends at [endDate]. *)
Definition chartIntervals (p : Period) (days endDate : Z) : option (list Z) :=
  let startDate := subDays endDate (days - 1) in
  match p with
  | weekly =>
      eachWeekOfInterval tz (startOfWeek tz startDate) (endOfWeek tz endDate)
  | daily => eachDayOfInterval tz startDate endDate
  end.

(** [chartData], with [endDate] the reading of [new Date()]. *)
Definition chartData (p : Period) (days endDate : Z)
    : option (list ChartDataPoint) :=
  intervals ← chartIntervals p days endDate;
  mapM (chartPoint p) intervals.

End ChartData.

End CompletionChart.

(** ** StreakChart: the chart data *)

Module StreakChart.

(** A value stored in a [ChartDataPoint] of StreakChart: the display date
    under the key [date], a streak under a habit's name. *)
Inductive PointValue :=
| DisplayDate (day : Z)
| StreakValue (streak : Z).

Section ChartData.

Variable tz : Z.
Variable habits : list HabitResponse.
Variable completions_ : gmap Z (list CompletionResponse).
Variable selectedHabitIds : option (list Z).

(** The body of [habitsToShow.forEach]: [dataPoint[habit.name] = streak].
    [dataPoint] is a plain object, here the map of its own properties.  The
    assignment creates or replaces the own property, except under the key
    [__proto__]: that key reaches the setter inherited from
    [Object.prototype], which ignores a number and stores nothing. *)
Definition writeStreak (date : Z) (dataPoint : gmap string PointValue)
    (habit : HabitResponse) : gmap string PointValue :=
  if String.eqb (name habit) "__proto__" then dataPoint
  else
    <[name habit :=
        StreakValue
          (streakUpTo tz habit (completionsOf completions_ habit) date)]>
      dataPoint.

(** The callback of [dateRange.map]: the object starts as
    [{ date: displayDate }] and receives a streak for every habit shown. *)
Definition dataPoint (date : Z) : gmap string PointValue :=
  fold_left (writeStreak date) (habitsToShow habits selectedHabitIds)
    {["date" := DisplayDate (format_day tz date)]}.

(** [chartData], with [endDate] the reading of [new Date()]. *)
Definition chartData (days endDate : Z)
    : option (list (gmap string PointValue)) :=
  dateRange ← eachDayOfInterval tz (subDays endDate (days - 1)) endDate;
  Some (map dataPoint dateRange).

End ChartData.

End StreakChart.

(** ** JavaScript containers *)

(** [habit.category || 'Uncategorized']: an absent and an empty category
    both fall back. *)
Definition categoryOf (habit : HabitResponse) : string :=
  match category habit with
  | Some c => if String.eqb c "" then "Uncategorized" else c
  | None => "Uncategorized"
  end.

(** A JavaScript [Map<string, V>]: entries in insertion order. *)
Fixpoint Map_has {V} (m : list (string * V)) (k : string) : bool :=
  match m with
  | [] => false
  | (k', _) :: m' => if String.eqb k k' then true else Map_has m' k
  end.

(** [m.set(k, v)]: replaces the value in place, or appends a new entry. *)
Fixpoint Map_set {V} (m : list (string * V)) (k : string) (v : V)
    : list (string * V) :=
  match m with
  | [] => [(k, v)]
  | (k', v') :: m' =>
      if String.eqb k k' then (k, v) :: m' else (k', v') :: Map_set m' k v
  end.

(** [m.get(k)!.push(x)]: the array stored under [k] grows in place. *)
Fixpoint Map_push {V} (m : list (string * list V)) (k : string) (x : V)
    : list (string * list V) :=
  match m with
  | [] => []
  | (k', vs) :: m' =>
      if String.eqb k k' then (k', vs ++ [x]) :: m'
      else (k', vs) :: Map_push m' k x
  end.

(** [Array.prototype.sort(compareFn)]: a stable sort; [a] stays in front of
    [b] unless [compareFn(a, b) > 0].  Insertion from the right. *)
Fixpoint sortInsert {A} (compareFn : A -> A -> Q) (a : A) (l : list A)
    : list A :=
  match l with
  | [] => [a]
  | b :: l' =>
      if Qle_bool (compareFn a b) 0 then a :: b :: l'
      else b :: sortInsert compareFn a l'
  end.

Definition Array_sort {A} (compareFn : A -> A -> Q) (l : list A) : list A :=
  foldr (sortInsert compareFn) [] l.

(** ** CategoryChart *)

Module CategoryChart.

Inductive Metric := count | completion_rate | average_streak.

Record CategoryData := mkCategoryData {
  category : string;
  value : Q;
  count_ : Z;                    (* the field [count] *)
  completionRate : Z;
  averageStreak : Q
}.

(** The body of [habits.forEach] that fills [categoryMap]. *)
Definition groupStep (categoryMap : list (string * list HabitResponse))
    (habit : HabitResponse) : list (string * list HabitResponse) :=
  let category := categoryOf habit in
  let categoryMap :=
    if negb (Map_has categoryMap category)
    then Map_set categoryMap category []
    else categoryMap in
  Map_push categoryMap category habit.

Definition groupByCategory (habits : list HabitResponse)
    : list (string * list HabitResponse) :=
  fold_left groupStep habits [].

Section CategoryData.

Variable completions_ : gmap Z (list CompletionResponse).
Variable streaks : gmap Z StreakResponse.
Variable metric : Metric.

(** [Math.floor((Date.now() - new Date(habit.created_at).getTime())
    / (1000 * 60 * 60 * 24)) + 1]; [now] is the reading of [Date.now()]. *)
Definition daysSinceCreation (now : Z) (habit : HabitResponse) : Z :=
  (now - created_at habit) / MS_PER_DAY + 1.

(** The body of [categoryHabits.forEach]: state [(totalCompletions,
    totalPossibleCompletions)]. *)
Definition rateStep (now : Z) (acc : Z * Z) (habit : HabitResponse) : Z * Z :=
  let habitCompletions := completionsOf completions_ habit in
  (fst acc + Z.of_nat (length habitCompletions),
   snd acc + daysSinceCreation now habit).

(** The loop, when every reading of the clock returns [now]. *)
Definition rateTotals (now : Z) (categoryHabits : list HabitResponse)
    : Z * Z :=
  fold_left (rateStep now) categoryHabits (0, 0).

(** [streaks[habit.id]?.current_streak || 0] *)
Definition currentStreakOf (habit : HabitResponse) : Z :=
  match streaks !! id habit with
  | Some s => current_streak s
  | None => 0
  end.

Definition totalStreakOf (categoryHabits : list HabitResponse) : Z :=
  fold_left (fun sum habit => sum + currentStreakOf habit) categoryHabits 0.

(** [Math.round(averageStreak * 10) / 10] *)
Definition roundTenth (x : Q) : Q :=
  (inject_Z (Math_round (x * 10)) / 10)%Q.

(** The callback of [Array.from(categoryMap.entries()).map], after the
    [categoryHabits.forEach] loop has left its two totals in [totals]. *)
Definition categoryEntryFrom (entry : string * list HabitResponse)
    (totals : Z * Z) : CategoryData :=
  let '(category, categoryHabits) := entry in
  let count := Z.of_nat (length categoryHabits) in
  let '(totalCompletions, totalPossibleCompletions) := totals in
  let completionRate := ratePercent totalCompletions totalPossibleCompletions in
  let totalStreak := totalStreakOf categoryHabits in
  let averageStreak :=
    if 0 <? count then (inject_Z totalStreak / inject_Z count)%Q else 0%Q in
  let value :=
    match metric with
    | completion_rate => inject_Z (Math_round completionRate)
    | average_streak => roundTenth averageStreak
    | count => inject_Z count
    end in
  {| category := category;
     value := value;
     count_ := count;
     completionRate := Math_round completionRate;
     averageStreak := roundTenth averageStreak |}.

(** [(a, b) => b.value - a.value] *)
Definition byValueDesc (a b : CategoryData) : Q :=
  (value b - value a)%Q.

Definition categoryEntry (now : Z) (entry : string * list HabitResponse)
    : CategoryData :=
  categoryEntryFrom entry (rateTotals now (snd entry)).

(** [categoryData], when every reading of the clock returns [now]. *)
Definition categoryData (habits : list HabitResponse) (now : Z)
    : list CategoryData :=
  Array_sort byValueDesc (map (categoryEntry now) (groupByCategory habits)).

End CategoryData.

End CategoryChart.

(** ** ProgressSummary *)

Module ProgressSummary.

Record SummaryStats := mkStats {
  totalHabits : Z;
  activeHabits : Z;
  todayCompletions : Z;
  yesterdayCompletions : Z;
  weekCompletions : Z;
  totalCompletions : Z;
  longestStreak : Z;
  averageStreak : Q;
  completionRate : Z;
  weeklyCompletionRate : Z
}.

(** The four [let] counters that the [habits.forEach] loop updates. *)
Record Counters := mkCounters {
  c_today : Z;
  c_yesterday : Z;
  c_week : Z;
  c_total : Z
}.

Section Stats.

Variable tz : Z.
Variable completions_ : gmap Z (list CompletionResponse).
Variable streaks : gmap Z StreakResponse.

(** [streak && streak.current_streak > 0] *)
Definition isActive (habit : HabitResponse) : bool :=
  match streaks !! id habit with
  | Some streak => 0 <? current_streak streak
  | None => false
  end.

(** The body of [habitCompletions.forEach]; [nowRead] is what the
    [Date.now()] inside [isToday] returns. *)
Definition completionStep (weekAgo nowRead : Z) (c : Counters)
    (completion : CompletionResponse) : Counters :=
  let completionDate := parseDateOnly (completion_date completion) in
  let c :=
    if isToday tz nowRead completionDate
    then mkCounters (c_today c + 1) (c_yesterday c) (c_week c) (c_total c)
    else c in
  if weekAgo <=? completionDate
  then mkCounters (c_today c) (c_yesterday c) (c_week c + 1) (c_total c)
  else c.

(** [totalCompletions += habitCompletions.length] *)
Definition addTotal (c : Counters) (n : Z) : Counters :=
  mkCounters (c_today c) (c_yesterday c) (c_week c) (c_total c + n).

(** The body of [habits.forEach]. *)
Definition habitStep (weekAgo now : Z) (c : Counters)
    (habit : HabitResponse) : Counters :=
  let habitCompletions := completionsOf completions_ habit in
  fold_left (completionStep weekAgo now) habitCompletions
    (addTotal c (Z.of_nat (length habitCompletions))).

(** [Object.values(streaks)] *)
Definition streakValues : list StreakResponse := (map_to_list streaks).*2.

(** [Math.min(...habits.map(h => new Date(h.created_at).getTime()))], for a
    list that is not empty. *)
Definition minCreated (first : HabitResponse) (rest : list HabitResponse)
    : Z :=
  fold_left Z.min (map created_at rest) (created_at first).

(** [daysSinceOldestHabit]; [nowRead] is the reading of [Date.now()]. *)
Definition daysSinceOldestHabit (habits : list HabitResponse) (nowRead : Z)
    : Z :=
  match habits with
  | [] => 1
  | first :: rest =>
      Z.max 1 ((nowRead - minCreated first rest) / MS_PER_DAY)
  end.

(** Everything after the counting loop, from the final counters. *)
Definition statsOf (habits : list HabitResponse) (c : Counters)
    (daysSinceOldest : Z) : SummaryStats :=
  let totalHabits := Z.of_nat (length habits) in
  let activeHabits := Z.of_nat (length (List.filter isActive habits)) in
  let longestStreak :=
    fold_left (fun max streak => Z.max max (longest_streak streak))
      streakValues 0 in
  let totalCurrentStreak :=
    fold_left (fun sum streak => sum + current_streak streak)
      streakValues 0 in
  let averageStreak :=
    if 0 <? totalHabits
    then (inject_Z totalCurrentStreak / inject_Z totalHabits)%Q else 0%Q in
  let totalPossibleCompletions := totalHabits * daysSinceOldest in
  let completionRate := ratePercent (c_total c) totalPossibleCompletions in
  let weeklyPossibleCompletions := totalHabits * 7 in
  let weeklyCompletionRate :=
    ratePercent (c_week c) weeklyPossibleCompletions in
  {| totalHabits := totalHabits;
     activeHabits := activeHabits;
     todayCompletions := c_today c;
     yesterdayCompletions := c_yesterday c;
     weekCompletions := c_week c;
     totalCompletions := c_total c;
     longestStreak := longestStreak;
     averageStreak := CategoryChart.roundTenth averageStreak;
     completionRate := Math_round completionRate;
     weeklyCompletionRate := Math_round weeklyCompletionRate |}.

(** [stats], when every reading of the clock returns [now]. *)
Definition stats (habits : list HabitResponse) (now : Z) : SummaryStats :=
  let today := now in
  let weekAgo := subDays today 7 in
  let c := fold_left (habitStep weekAgo now) habits (mkCounters 0 0 0 0) in
  statsOf habits c (daysSinceOldestHabit habits now).

End Stats.

(** The text above "vs Yesterday": the sign prefix and the difference. *)
Definition vsYesterday (s : SummaryStats) : string * Z :=
  (if yesterdayCompletions s <? todayCompletions s then "+" else "",
   todayCompletions s - yesterdayCompletions s).

(** [getTodayProgress] *)
Definition getTodayProgress (s : SummaryStats) : Z :=
  if totalHabits s =? 0 then 0
  else Math_round
         (Number_mul
            (Number_div (inject_Z (todayCompletions s))
               (inject_Z (totalHabits s)))
            100).

End ProgressSummary.

(** ** The system clock

    [new Date()] and [Date.now()] read the system clock.  A computation that
    reads it is a function of the clock ([clock k] is what the reading
    number [k] returns) and of the number of readings made so far. *)

Module Clocked.

Definition Run (A : Type) : Type := (nat -> Z) -> nat -> A * nat.

#[global] Instance Run_ret : MRet Run := fun A a _ k => (a, k).

#[global] Instance Run_bind : MBind Run :=
  fun A B f m clock k => let '(a, k') := m clock k in f a clock k'.

Definition Date_now : Run Z := fun clock k => (clock k, S k).

(** A [forEach] loop whose body reads the clock. *)
Fixpoint forEach {A B} (body : A -> B -> Run A) (l : list B) (a : A)
    : Run A :=
  match l with
  | [] => mret a
  | x :: l' => a' ← body a x; forEach body l' a'
  end.

(** An [Array.prototype.map] whose callback reads the clock. *)
Fixpoint arrayMap {A B} (f : A -> Run B) (l : list A) : Run (list B) :=
  match l with
  | [] => mret []
  | x :: l' => y ← f x; ys ← arrayMap f l'; mret (y :: ys)
  end.

(** The result of a computation started with a fresh count of readings. *)
Definition run {A} (m : Run A) (clock : nat -> Z) : A := fst (m clock 0%nat).

Section Components.

Variable tz : Z.
Variable habits : list HabitResponse.
Variable completions_ : gmap Z (list CompletionResponse).
Variable streaks : gmap Z StreakResponse.

Definition completionChartData (p : CompletionChart.Period) (days : Z)
    : Run (option (list CompletionChart.ChartDataPoint)) :=
  endDate ← Date_now;
  mret (CompletionChart.chartData tz habits completions_ p days endDate).

Definition streakChartData (selectedHabitIds : option (list Z)) (days : Z)
    : Run (option (list (gmap string StreakChart.PointValue))) :=
  endDate ← Date_now;
  mret (StreakChart.chartData tz habits completions_ selectedHabitIds
          days endDate).

(** CategoryChart calls [Date.now()] once for every habit. *)
Definition categoryEntry (metric : CategoryChart.Metric)
    (entry : string * list HabitResponse) : Run CategoryChart.CategoryData :=
  totals ← forEach
    (fun acc habit =>
       now ← Date_now; mret (CategoryChart.rateStep completions_ now acc habit))
    (snd entry) (0, 0);
  mret (CategoryChart.categoryEntryFrom streaks metric entry totals).

Definition categoryData (metric : CategoryChart.Metric)
    : Run (list CategoryChart.CategoryData) :=
  data ← arrayMap (categoryEntry metric) (CategoryChart.groupByCategory habits);
  mret (Array_sort CategoryChart.byValueDesc data).

(** ProgressSummary reads the clock for [today], inside every [isToday], and
    for [daysSinceOldestHabit] when there is a habit. *)
Definition habitStep (weekAgo : Z) (c : ProgressSummary.Counters)
    (habit : HabitResponse) : Run ProgressSummary.Counters :=
  let habitCompletions := completionsOf completions_ habit in
  forEach
    (fun c completion =>
       now ← Date_now;
       mret (ProgressSummary.completionStep tz weekAgo now c completion))
    habitCompletions
    (ProgressSummary.addTotal c (Z.of_nat (length habitCompletions))).

Definition stats : Run ProgressSummary.SummaryStats :=
  today ← Date_now;
  let weekAgo := subDays today 7 in
  c ← forEach (habitStep weekAgo) habits (ProgressSummary.mkCounters 0 0 0 0);
  daysSinceOldest ←
    match habits with
    | [] => mret 1
    | _ :: _ =>
        now ← Date_now; mret (ProgressSummary.daysSinceOldestHabit habits now)
    end;
  mret (ProgressSummary.statsOf streaks habits c daysSinceOldest).

(** The Analytics page renders the four components in turn. *)
Definition analytics (selectedHabitIds : option (list Z)) (days : Z)
    (p : CompletionChart.Period) (metric : CategoryChart.Metric)
    : Run (ProgressSummary.SummaryStats
           * option (list (gmap string StreakChart.PointValue))
           * option (list CompletionChart.ChartDataPoint)
           * list CategoryChart.CategoryData) :=
  summary ← stats;
  streakSeries ← streakChartData selectedHabitIds days;
  trend ← completionChartData p days;
  categories ← categoryData metric;
  mret (summary, streakSeries, trend, categories).

End Components.

End Clocked.

(** ** Sums *)

Definition sumZ {A} (f : A -> Z) (l : list A) : Z :=
  foldr (fun x acc => f x + acc) 0 l.

(** ** The specification's wording

    Definitions that follow the text of the specification, to be compared
    with the definitions taken from the code. *)

Module Spec.

(** Modelled from the spec: the Completion Index of section 4.1 and the
    longest-streak scan of section 4.2.  The service that computes
    [longest_streak] runs in the backend; the frontend sources only read
    its result from [StreakResponse].  The index is the set of completion
    dates; the scan walks the dates in ascending order, a run continues
    while the next date is the previous one plus one day, and the longest
    run wins; an empty index gives 0. *)
Definition completionIndex (habitCompletions : list CompletionResponse)
    : gset Z :=
  list_to_set (map completion_date habitCompletions).

(** Modelled from the spec: the dates of the index in ascending order
    (section 4.2, step 1). *)
Definition indexDates (index : gset Z) : list Z :=
  merge_sort Z.le (elements index).

(** Modelled from the spec: the scan of section 4.2, step 1, after the date
    [previous]; [run] is the length of the run that ends at [previous] and
    [best] the longest run before it. *)
Fixpoint longestRun (previous run best : Z) (dates : list Z) : Z :=
  match dates with
  | [] => Z.max best run
  | d :: dates' =>
      if d =? previous + 1 then longestRun d (run + 1) best dates'
      else longestRun d 1 (Z.max best run) dates'
  end.

(** Modelled from the spec: [longest_streak] of section 4.2; an empty index
    gives 0. *)
Definition longestStreak (habitCompletions : list CompletionResponse) : Z :=
  match indexDates (completionIndex habitCompletions) with
  | [] => 0
  | d :: dates => longestRun d 1 0 dates
  end.

(** Section 8: with a completion on every day from the creation date through
    the as-of date, the current streak is [asOf - created + 1] days. *)
Definition completeThrough (habitCompletions : list CompletionResponse)
    (createdDay asOfDay : Z) : Prop :=
  forall d, createdDay <= d <= asOfDay -> hasCompletion habitCompletions d = true.

Definition fullHistoryStreak (createdDay asOfDay : Z) : Z :=
  asOfDay - createdDay + 1.

(** Section 4.2, the grace day: when the as-of date has no completion and the
    day before has one, the streak is the one that ends on the day before. *)
Definition graceDay (tz : Z) (habit : HabitResponse)
    (habitCompletions : list CompletionResponse) (asOf : Z) : Prop :=
  hasCompletion habitCompletions (format_day tz asOf) = false ->
  hasCompletion habitCompletions (format_day tz asOf - 1) = true ->
  streakUpTo tz habit habitCompletions asOf
  = streakUpTo tz habit habitCompletions (subDays asOf 1).

(** Section 4.3: [ceil(window / bucket_size)] buckets. *)
Definition bucketCount (windowDays bucketSize : Z) : Z :=
  (windowDays + bucketSize - 1) / bucketSize.

Definition bucketSize (p : CompletionChart.Period) : Z :=
  match p with
  | CompletionChart.daily => 1
  | CompletionChart.weekly => 7
  end.

(** Section 4.3: a habit is completed in a week if it has a completion on
    any day of the week; a bucket counts the distinct habits completed. *)
Definition completedInWeek (tz : Z)
    (completions_ : gmap Z (list CompletionResponse))
    (weekDays : list Z) (habit : HabitResponse) : bool :=
  existsb
    (fun day =>
       hasCompletion (completionsOf completions_ habit) (format_day tz day))
    weekDays.

Definition distinctHabitsCompleted (tz : Z) (habits : list HabitResponse)
    (completions_ : gmap Z (list CompletionResponse))
    (weekDays : list Z) : Z :=
  Z.of_nat (length (List.filter (completedInWeek tz completions_ weekDays)
                      habits)).



(** Section 4.4: among entries of equal value, names ascend. *)
Definition tiesByName (data : list CategoryChart.CategoryData) : Prop :=
  forall i j a b,
    data !! i = Some a -> data !! j = Some b -> (i < j)%nat ->
    (CategoryChart.value a == CategoryChart.value b)%Q ->
    String.ltb (CategoryChart.category a) (CategoryChart.category b) = true.

End Spec.

(** The habits of one category, in the order of [habits]. *)
Definition habitsIn (c : string) (habits : list HabitResponse)
    : list HabitResponse :=
  List.filter (fun h => String.eqb (categoryOf h) c) habits.

(** The distinct elements of a list, in the order of first appearance. *)
Definition firstSeen (l : list string) : list string :=
  reverse (remove_dups (reverse l)).

(** The entries with value [v]. *)
Definition withValue (v : Q) (data : list CategoryChart.CategoryData)
    : list CategoryChart.CategoryData :=
  List.filter (fun e => Qeq_bool (CategoryChart.value e) v) data.

(** A week of midnights, from the week start [weekStart]. *)
Definition weekOf (weekStart : Z) : list Z :=
  map (fun i => addDays weekStart i) (seqZ 0 7).

(** The index of the week (Sunday to Saturday) that holds the day [d], and
    the day on which the week with index [w] starts. *)
Definition weekIndex (d : Z) : Z := (d + 4) / 7.

Definition weekStartDay (w : Z) : Z := 7 * w - 4.

(** The count of one bucket, with the days of the week written out. *)
Definition bucketCompletions (tz : Z) (habits : list HabitResponse)
    (completions_ : gmap Z (list CompletionResponse))
    (p : CompletionChart.Period) (date : Z) : Z :=
  match p with
  | CompletionChart.weekly =>
      CompletionChart.countWeek tz habits completions_
        (weekOf (startOfWeek tz date))
  | CompletionChart.daily =>
      CompletionChart.countDay habits completions_ 0 (format_day tz date)
  end.

(** The habits that have a completion on the day [dayStr]. *)
Definition habitsDoneOn (completions_ : gmap Z (list CompletionResponse))
    (dayStr : Z) (habits : list HabitResponse) : list HabitResponse :=
  List.filter (fun h => hasCompletion (completionsOf completions_ h) dayStr)
    habits.

(** On how many of the days [weekDays] the habit has a completion. *)
Definition completedDays (tz : Z)
    (completions_ : gmap Z (list CompletionResponse))
    (weekDays : list Z) (habit : HabitResponse) : Z :=
  Z.of_nat
    (length
       (List.filter
          (fun day =>
             hasCompletion (completionsOf completions_ habit)
               (format_day tz day))
          weekDays)).

(** Descending by value: [a] may stand in front of [b]. *)
Definition descending (a b : CategoryChart.CategoryData) : Prop :=
  (CategoryChart.value b <= CategoryChart.value a)%Q.

(** The value that the metric selects, read from the fields of an entry. *)
Definition metricOf (metric : CategoryChart.Metric)
    (e : CategoryChart.CategoryData) : Q :=
  match metric with
  | CategoryChart.count => inject_Z (CategoryChart.count_ e)
  | CategoryChart.completion_rate => inject_Z (CategoryChart.completionRate e)
  | CategoryChart.average_streak => CategoryChart.averageStreak e
  end.

(** A computation returns [v] under every clock whose readings all equal
    [now]. *)
Definition FrozenAt {A} (now : Z) (m : Clocked.Run A) (v : A) : Prop :=
  forall clock, (forall k, clock k = now) ->
  forall k, exists k', m clock k = (v, k').

(** The four outputs as functions of a single reading [now]. *)
Definition analyticsAt (tz : Z) (habits : list HabitResponse)
    (completions_ : gmap Z (list CompletionResponse))
    (streaks : gmap Z StreakResponse)
    (selectedHabitIds : option (list Z)) (days : Z)
    (p : CompletionChart.Period) (metric : CategoryChart.Metric) (now : Z) :=
  (ProgressSummary.stats tz completions_ streaks habits now,
   StreakChart.chartData tz habits completions_ selectedHabitIds days now,
   CompletionChart.chartData tz habits completions_ p days now,
   CategoryChart.categoryData completions_ streaks metric habits now).

(** ** Concrete inputs *)

Module Examples.

(** 2025-01-01, a Wednesday. *)
Definition jan01 : Z := 20089.

Definition completionOn (habit day : Z) : CompletionResponse :=
  {| completion_id := day; habit_id := habit; completion_date := day;
     value := 1 |}.

(** A habit created on 2025-01-01 at 10:30 local time (UTC). *)
Definition run : HabitResponse :=
  {| id := 1; name := "Run"; category := Some "Health";
     created_at := jan01 * MS_PER_DAY + 37800000 |}.

(** Completions on 01-01, 01-02 and 01-03. *)
Definition threeDays : list CompletionResponse :=
  [completionOn 1 jan01; completionOn 1 (jan01 + 1); completionOn 1 (jan01 + 2)].

(** A habit created long before, completed yesterday but not today. *)
Definition read : HabitResponse :=
  {| id := 2; name := "Read"; category := Some "Learning";
     created_at := (jan01 - 30) * MS_PER_DAY |}.

Definition yesterdayOnly : list CompletionResponse :=
  [completionOn 2 (jan01 - 1)].

(** One habit with its three completions, all in the week from Sunday
    2024-12-29 to Saturday 2025-01-04. *)
Definition runCompletions : gmap Z (list CompletionResponse) :=
  {[ 1 := threeDays ]}.

(** Noon of Wednesday 2025-01-01 and of Saturday 2025-01-04. *)
Definition wednesdayNoon : Z := jan01 * MS_PER_DAY + 43200000.
Definition saturdayNoon : Z := (jan01 + 3) * MS_PER_DAY + 43200000.

(** A habit created on 2024-12-31 at 23:00, looked at on 2025-01-01 at
    01:00, with one completion. *)
Definition lateHabit : HabitResponse :=
  {| id := 3; name := "Stretch"; category := None;
     created_at := (jan01 - 1) * MS_PER_DAY + 82800000 |}.

Definition lateCompletions : gmap Z (list CompletionResponse) :=
  {[ 3 := [completionOn 3 jan01] ]}.

Definition oneAM : Z := jan01 * MS_PER_DAY + 3600000.

(** Two habits whose categories appear in the order "Mind", "Body". *)
Definition meditate : HabitResponse :=
  {| id := 4; name := "Meditate"; category := Some "Mind";
     created_at := (jan01 - 30) * MS_PER_DAY |}.

Definition walk : HabitResponse :=
  {| id := 5; name := "Walk"; category := Some "Body";
     created_at := (jan01 - 30) * MS_PER_DAY |}.

(** The late habit with completions on both of its calendar days. *)
Definition lateTwo : gmap Z (list CompletionResponse) :=
  {[ 3 := [completionOn 3 (jan01 - 1); completionOn 3 jan01] ]}.

(** In a zone two hours east of UTC, at 00:30 local time on 2025-01-02
    (22:30 UTC on 01-01): a habit completed on each of the eight local days
    from 2024-12-26 to 2025-01-02. *)
Definition eastOffset : Z := 7200000.
Definition halfPastMidnight : Z := jan01 * MS_PER_DAY + 81000000.

Definition swim : HabitResponse :=
  {| id := 6; name := "Swim"; category := Some "Health";
     created_at := (jan01 - 30) * MS_PER_DAY |}.

Definition eightDays : gmap Z (list CompletionResponse) :=
  {[ 6 := map (completionOn 6) (seqZ (jan01 - 6) 8) ]}.

(** The scenarios of section 8 of the specification. *)
Definition gapCompletions : list CompletionResponse :=
  map (completionOn 1) [jan01; jan01 + 1; jan01 + 2; jan01 + 4; jan01 + 5].

Definition firstAndLast : gmap Z (list CompletionResponse) :=
  {[ 1 := [completionOn 1 (jan01 - 6); completionOn 1 jan01] ]}.

Definition yoga : HabitResponse :=
  {| id := 7; name := "Yoga"; category := Some "Health";
     created_at := (jan01 - 30) * MS_PER_DAY |}.

Definition healthStreaks : gmap Z StreakResponse :=
  {[ 6 := {| current_streak := 5; longest_streak := 9 |};
     7 := {| current_streak := 3; longest_streak := 4 |} ]}.

(** A clock that stands still. *)
Definition stoppedClock (now : Z) : nat -> Z := fun _ => now.

End Examples.

(** ** The habit store (stores/habitStore.ts)

    The state of the store and the state each action leaves once it has run
    to its end.  An API call either resolves with a value or throws an
    [Error]; the thrown error is its message. *)

Module HabitStore.

Record State := mkState {
  habits : list HabitResponse;
  completions : gmap Z (list CompletionResponse);
  streaks : gmap Z StreakResponse;
  loading : bool;
  error : option string
}.

Definition initialState : State :=
  {| habits := []; completions := ∅; streaks := ∅;
     loading := false; error := None |}.

(** The body of a request to create a completion. *)
Record CompletionCreate := mkCompletionCreate {
  cc_habit_id : Z;
  cc_completion_date : Z;
  cc_value : Z
}.

(** What the backend answers to each call. *)
Record Api := mkApi {
  api_createCompletion : CompletionCreate -> string + CompletionResponse;
  api_deleteCompletion : Z -> string + unit;
  api_getStreak : Z -> string + StreakResponse;
  api_deleteHabit : Z -> string + unit
}.

(** [set({ error: error.message, loading: false })] in a [catch]. *)
Definition failed (s : State) (message : string) : State :=
  {| habits := habits s; completions := completions s; streaks := streaks s;
     loading := false; error := Some message |}.

(** [fetchStreak]: a failure is logged and changes nothing. *)
Definition fetchStreak (api : Api) (habitId : Z) (s : State) : State :=
  match api_getStreak api habitId with
  | inr streak =>
      {| habits := habits s; completions := completions s;
         streaks := <[habitId := streak]> (streaks s);
         loading := loading s; error := error s |}
  | inl _ => s
  end.

(** [createCompletion]; the second component is the error it rethrows. *)
Definition createCompletion (api : Api) (data : CompletionCreate) (s : State)
    : State * option string :=
  match api_createCompletion api data with
  | inr newCompletion =>
      let habitCompletions :=
        default [] (completions s !! cc_habit_id data) in
      let s' :=
        {| habits := habits s;
           completions :=
             <[cc_habit_id data := habitCompletions ++ [newCompletion]]>
               (completions s);
           streaks := streaks s; loading := false; error := None |} in
      (fetchStreak api (cc_habit_id data) s', None)
  | inl message => (failed s message, Some message)
  end.

(** [deleteCompletion] *)
Definition deleteCompletion (api : Api) (id_ habitId : Z) (s : State)
    : State * option string :=
  match api_deleteCompletion api id_ with
  | inr _ =>
      let habitCompletions := default [] (completions s !! habitId) in
      let s' :=
        {| habits := habits s;
           completions :=
             <[habitId :=
                 List.filter (fun c => negb (completion_id c =? id_))
                   habitCompletions]>
               (completions s);
           streaks := streaks s; loading := false; error := None |} in
      (fetchStreak api habitId s', None)
  | inl message => (failed s message, Some message)
  end.

(** [deleteHabit]: the habit goes, with its completions and its streak. *)
Definition deleteHabit (api : Api) (id_ : Z) (s : State)
    : State * option string :=
  match api_deleteHabit api id_ with
  | inr _ =>
      ({| habits := List.filter (fun h => negb (id h =? id_)) (habits s);
          completions := delete id_ (completions s);
          streaks := delete id_ (streaks s);
          loading := false; error := None |}, None)
  | inl message => (failed s message, Some message)
  end.

End HabitStore.

(** ** HabitList and HabitCard *)

Module HabitList.

(** [isHabitCompletedToday]; [now] is what the clock reads inside
    [isToday]. *)
Definition isHabitCompletedToday (tz now : Z)
    (completions_ : gmap Z (list CompletionResponse)) (habitId : Z) : bool :=
  existsb (fun completion =>
             isToday tz now (parseDateOnly (completion_date completion)))
    (default [] (completions_ !! habitId)).

End HabitList.

Module HabitCard.

(** [handleToggleCompletion], for a card of [habit] whose [target_value] is
    [targetValue]; every reading of the clock returns [now].  An error of
    the store action is logged and swallowed. *)
Definition handleToggleCompletion (tz now : Z) (api : HabitStore.Api)
    (habit : HabitResponse) (targetValue : Z) (todayCompleted : bool)
    (s : HabitStore.State) : HabitStore.State :=
  if todayCompleted then
    let habitCompletions :=
      default [] (HabitStore.completions s !! id habit) in
    match List.find
            (fun c => isToday tz now (parseDateOnly (completion_date c)))
            habitCompletions with
    | Some todayCompletion =>
        fst (HabitStore.deleteCompletion api (completion_id todayCompletion)
               (id habit) s)
    | None => s
    end
  else
    let completionData :=
      {| HabitStore.cc_habit_id := id habit;
         HabitStore.cc_completion_date := format_day tz now;
         HabitStore.cc_value := targetValue |} in
    fst (HabitStore.createCompletion api completionData s).

End HabitCard.

(** ** The Analytics page and the Dashboard *)

Module Analytics.

(** [handleHabitSelection]: the updater passed to [setSelectedHabits]. *)
Definition handleHabitSelection (prev : list Z) (habitId : Z) : list Z :=
  if bool_decide (habitId ∈ prev)
  then List.filter (fun id_ => negb (id_ =? habitId)) prev
  else prev ++ [habitId].

(** [selectedHabits.length > 0 ? selectedHabits : undefined] *)
Definition selectedHabitIds (selectedHabits : list Z) : option (list Z) :=
  match selectedHabits with
  | [] => None
  | _ :: _ => Some selectedHabits
  end.

(** The figure of the Streak Status insight:
    [Object.values(streaks).filter(s => s.current_streak > 0).length]. *)
Definition activeStreaks (streaks : gmap Z StreakResponse) : Z :=
  Z.of_nat
    (length
       (List.filter (fun s => 0 <? current_streak s)
          (ProgressSummary.streakValues streaks))).

End Analytics.

Module Dashboard.

(** [(a, b) => new Date(b.created_at).getTime()
                - new Date(a.created_at).getTime()] *)
Definition newestFirst (a b : HabitResponse) : Q :=
  inject_Z (created_at b - created_at a).

(** [habits.sort(...).slice(0, 6)]: [sort] reorders the array of the store
    in place, so rendering leaves the store with the sorted array. *)
Definition render (s : HabitStore.State)
    : HabitStore.State * list HabitResponse :=
  let sorted := Array_sort newestFirst (HabitStore.habits s) in
  ({| HabitStore.habits := sorted;
      HabitStore.completions := HabitStore.completions s;
      HabitStore.streaks := HabitStore.streaks s;
      HabitStore.loading := HabitStore.loading s;
      HabitStore.error := HabitStore.error s |},
   take 6 sorted).

Definition recentHabits (s : HabitStore.State) : list HabitResponse :=
  snd (render s).

(** [new Date(c.completion_date).toDateString()
     === new Date().toDateString()] for some completion of the habit. *)
Definition todayCompleted (tz now : Z)
    (completions_ : gmap Z (list CompletionResponse))
    (habit : HabitResponse) : bool :=
  existsb (fun c =>
             format_day tz (parseDateOnly (completion_date c))
             =? format_day tz now)
    (completionsOf completions_ habit).

End Dashboard.

(** ** Counting helpers *)

(** How many elements of [l] satisfy [f]. *)
Definition countIf {A} (f : A -> bool) (l : list A) : Z :=
  Z.of_nat (length (List.filter f l)).

(** ** More concrete inputs *)

Module Cases.

(** A habit that is named like the key of the display date. *)
Definition dateHabit : HabitResponse :=
  {| id := 8; name := "date"; category := None;
     created_at := (Examples.jan01 - 30) * MS_PER_DAY |}.

(** A habit named like the accessor that every plain object inherits. *)
Definition protoHabit : HabitResponse :=
  {| id := 9; name := "__proto__"; category := None;
     created_at := (Examples.jan01 - 30) * MS_PER_DAY |}.

(** Thirty completions of the habit Swim, on the thirty days up to
    2025-01-01, and a clock that passes midnight (UTC) of that day between
    its first and its second reading. *)
Definition thirtyDays : gmap Z (list CompletionResponse) :=
  {[ 6 := map (Examples.completionOn 6) (seqZ (Examples.jan01 - 29) 30) ]}.

Definition overMidnight (k : nat) : Z :=
  Examples.jan01 * MS_PER_DAY - 1 + Z.of_nat k.

(** New York in winter: five hours west of UTC. *)
Definition westOffset : Z := -18000000.

(** Noon in New York on 2025-01-01 (17:00 UTC). *)
Definition westNoon : Z := Examples.jan01 * MS_PER_DAY + 61200000.

End Cases.

Module StoreCases.

(** A store with two habits, the older one first. *)
Definition twoHabits : HabitStore.State :=
  {| HabitStore.habits := [Examples.read; Examples.run];
     HabitStore.completions := Examples.runCompletions;
     HabitStore.streaks := ∅;
     HabitStore.loading := false;
     HabitStore.error := None |}.

(** A backend that accepts every call: a created completion gets the id
    [newId] and the date that was asked for. *)
Definition accepting (newId : Z) : HabitStore.Api :=
  {| HabitStore.api_createCompletion :=
       fun data =>
         inr {| completion_id := newId;
                habit_id := HabitStore.cc_habit_id data;
                completion_date := HabitStore.cc_completion_date data;
                value := HabitStore.cc_value data |};
     HabitStore.api_deleteCompletion := fun _ => inr tt;
     HabitStore.api_getStreak :=
       fun _ => inr {| current_streak := 1; longest_streak := 1 |};
     HabitStore.api_deleteHabit := fun _ => inr tt |}.

(** A backend that is down. *)
Definition refusing : HabitStore.Api :=
  {| HabitStore.api_createCompletion := fun _ => inl "Network Error";
     HabitStore.api_deleteCompletion := fun _ => inl "Network Error";
     HabitStore.api_getStreak := fun _ => inl "Network Error";
     HabitStore.api_deleteHabit := fun _ => inl "Network Error" |}.

End StoreCases.

(** * Properties *)

(** ** Calendar arithmetic *)

Lemma MS_PER_DAY_pos : 0 < MS_PER_DAY.
Proof. reflexivity. Qed.

Lemma format_day_dayStart tz d : format_day tz (dayStart tz d) = d.
Proof.
  unfold format_day, dayStart.
  replace (d * MS_PER_DAY - tz + tz) with (d * MS_PER_DAY) by lia.
  apply Z.div_mul. pose proof MS_PER_DAY_pos. lia.
Qed.

Lemma subDays_dayStart tz d n : subDays (dayStart tz d) n = dayStart tz (d - n).
Proof. unfold subDays, dayStart. lia. Qed.

Lemma addDays_dayStart tz d n : addDays (dayStart tz d) n = dayStart tz (d + n).
Proof. unfold addDays, dayStart. lia. Qed.

Lemma startOfDay_dayStart tz t : startOfDay tz t = dayStart tz (format_day tz t).
Proof.
  unfold startOfDay, dayStart, format_day.
  pose proof (Z.div_mod (t + tz) MS_PER_DAY) as H.
  pose proof MS_PER_DAY_pos. lia.
Qed.

(** A date lies in its own local day. *)
Lemma dayStart_bounds tz t :
  dayStart tz (format_day tz t) <= t < dayStart tz (format_day tz t + 1).
Proof.
  unfold dayStart, format_day.
  pose proof MS_PER_DAY_pos as Hpos.
  pose proof (Z.div_mod (t + tz) MS_PER_DAY) as H.
  pose proof (Z.mod_pos_bound (t + tz) MS_PER_DAY Hpos). lia.
Qed.

Lemma dayStart_mono tz d e : d <= e -> dayStart tz d <= dayStart tz e.
Proof. unfold dayStart. pose proof MS_PER_DAY_pos. nia. Qed.

Lemma dayStart_lt tz d e : d < e -> dayStart tz d < dayStart tz e.
Proof. unfold dayStart. pose proof MS_PER_DAY_pos. nia. Qed.

Lemma format_day_mono tz s t : s <= t -> format_day tz s <= format_day tz t.
Proof.
  intros H. unfold format_day.
  apply Z.div_le_mono; [apply MS_PER_DAY_pos | lia].
Qed.

(** ** The streak walk *)

(** The walk adds to the streak it starts with. *)
Lemma streakLoop_acc tz habit cs fuel : forall streak date,
  streakLoop tz fuel habit cs streak date
  = streak + streakLoop tz fuel habit cs 0 date.
Proof.
  induction fuel as [|fuel IH]; intros streak date; simpl; [lia|].
  destruct (created_at habit <=? date); [|lia].
  destruct (hasCompletion cs (format_day tz date)); [|lia].
  rewrite (IH (streak + 1)), (IH (0 + 1)). lia.
Qed.

(** Once the fuel covers the distance to [created_at], more fuel changes
    nothing: the loop has left through its guard. *)
Lemma streakLoop_fuel tz habit cs fuel : forall fuel' streak date,
  date - Z.of_nat fuel * MS_PER_DAY < created_at habit ->
  (fuel <= fuel')%nat ->
  streakLoop tz fuel' habit cs streak date
  = streakLoop tz fuel habit cs streak date.
Proof.
  induction fuel as [|fuel IH]; intros fuel' streak date Hd Hle.
  - destruct fuel' as [|fuel']; simpl; [reflexivity|].
    destruct (Z.leb_spec (created_at habit) date); [lia|reflexivity].
  - destruct fuel' as [|fuel']; [lia|]. simpl.
    destruct (created_at habit <=? date); [|reflexivity].
    destruct (hasCompletion cs (format_day tz date)); [|reflexivity].
    apply IH; [unfold subDays; lia | lia].
Qed.

Lemma streakFuel_enough habit date :
  date - Z.of_nat (streakFuel habit date) * MS_PER_DAY < created_at habit.
Proof.
  unfold streakFuel.
  pose proof MS_PER_DAY_pos as Hpos.
  pose proof (Z.div_mod (date - created_at habit) MS_PER_DAY) as H.
  pose proof (Z.mod_pos_bound (date - created_at habit) MS_PER_DAY Hpos).
  destruct (Z.le_gt_cases 0 ((date - created_at habit) / MS_PER_DAY + 1)).
  - rewrite Z2Nat.id by lia. lia.
  - replace (Z.to_nat _) with 0%nat by lia. simpl. nia.
Qed.

(** The walk returns the same streak for every fuel that is at least
    [streakFuel]. *)
Lemma streakUpTo_any_fuel tz habit cs date fuel :
  (streakFuel habit date <= fuel)%nat ->
  streakUpTo tz habit cs date = streakLoop tz fuel habit cs 0 date.
Proof.
  intros H. unfold streakUpTo. symmetry.
  apply streakLoop_fuel; [apply streakFuel_enough | exact H].
Qed.

(** The walk sees the completions only through [hasCompletion]. *)
Lemma streakLoop_ext tz habit cs cs' fuel :
  (forall d, hasCompletion cs d = hasCompletion cs' d) ->
  forall streak date,
    streakLoop tz fuel habit cs streak date
    = streakLoop tz fuel habit cs' streak date.
Proof.
  intros Hext. induction fuel as [|fuel IH]; intros streak date; simpl.
  - reflexivity.
  - rewrite Hext, IH. reflexivity.
Qed.

(** A walk over a complete history, from the midnight of day [d]: it counts
    every day after the creation day, and the creation day only if the habit
    was created at its very midnight. *)
Lemma streakLoop_complete tz habit cs (k : nat) : forall d fuel streak,
  let createdDay := format_day tz (created_at habit) in
  d = createdDay + Z.of_nat k ->
  (k + 2 <= fuel)%nat ->
  Spec.completeThrough cs createdDay d ->
  streakLoop tz fuel habit cs streak (dayStart tz d)
  = streak + Z.of_nat k
    + (if created_at habit =? dayStart tz createdDay then 1 else 0).
Proof.
  pose proof (dayStart_bounds tz (created_at habit)) as Hb.
  induction k as [|k IH]; intros d fuel streak createdDay Hd Hfuel Hall;
    subst createdDay.
  - replace d with (format_day tz (created_at habit)) in * by lia.
    destruct fuel as [|fuel]; [lia|]. simpl.
    destruct (Z.leb_spec (created_at habit)
                (dayStart tz (format_day tz (created_at habit)))) as [Hle|Hgt].
    + rewrite format_day_dayStart, Hall by lia.
      replace (created_at habit =? _) with true by (symmetry; lia).
      rewrite subDays_dayStart.
      destruct fuel as [|fuel]; [lia|]. simpl.
      pose proof (dayStart_lt tz (format_day tz (created_at habit) - 1)
                    (format_day tz (created_at habit))).
      destruct (Z.leb_spec (created_at habit)
                  (dayStart tz (format_day tz (created_at habit) - 1))); lia.
    + replace (created_at habit =? _) with false by (symmetry; lia). lia.
  - destruct fuel as [|fuel]; [lia|]. simpl.
    pose proof (dayStart_mono tz (format_day tz (created_at habit) + 1) d).
    destruct (Z.leb_spec (created_at habit) (dayStart tz d)); [|lia].
    rewrite format_day_dayStart, Hall by lia.
    rewrite subDays_dayStart.
    rewrite (IH (d - 1) fuel (streak + 1)); [lia | lia | lia |].
    intros e He. apply Hall. lia.
Qed.

Lemma streakUpTo_complete tz habit cs asOfDay :
  let createdDay := format_day tz (created_at habit) in
  createdDay <= asOfDay ->
  Spec.completeThrough cs createdDay asOfDay ->
  streakUpTo tz habit cs (dayStart tz asOfDay)
  = asOfDay - createdDay
    + (if created_at habit =? dayStart tz createdDay then 1 else 0).
Proof.
  intros createdDay Hle Hall.
  set (k := Z.to_nat (asOfDay - createdDay)).
  rewrite (streakUpTo_any_fuel tz habit cs _
             (streakFuel habit (dayStart tz asOfDay) + (k + 2))) by lia.
  rewrite (streakLoop_complete tz habit cs k); subst k createdDay; try lia.
  exact Hall.
Qed.

(** ** Current streak *)

(** C1. In the code the walk compares the midnight of each day with the
    creation timestamp, so the creation day is left out when the habit was
    created after midnight: a habit created on 2025-01-01 at 10:30 and
    completed on 01-01, 01-02 and 01-03 has a streak of 2 on 01-03, where
    [asOf - created + 1] is 3. *)
Theorem C1_creation_day_not_counted :
  let habit := Examples.run in
  let asOfDay := Examples.jan01 + 2 in
  let createdDay := format_day 0 (created_at habit) in
  Spec.completeThrough Examples.threeDays createdDay asOfDay
  /\ streakUpTo 0 habit Examples.threeDays (dayStart 0 asOfDay) = 2
  /\ Spec.fullHistoryStreak createdDay asOfDay = 3.
Proof.
  cbv zeta. split; [|split]; [|reflexivity|reflexivity].
  intros d. change (format_day 0 (created_at Examples.run)) with 20089.
  change (Examples.jan01 + 2) with 20091. intros Hd.
  assert (d = 20089 \/ d = 20090 \/ d = 20091) as [->|[->| ->]] by lia;
    reflexivity.
Qed.

(** C2 (amended). When the as-of date has no completion the walk stops at
    once: the streak is 0 whatever the day before holds. *)
Theorem C2_no_completion_today_gives_zero tz habit cs asOf :
  hasCompletion cs (format_day tz asOf) = false ->
  streakUpTo tz habit cs asOf = 0.
Proof.
  intros Hnone. unfold streakUpTo.
  destruct (streakFuel habit asOf) as [|fuel]; simpl; [reflexivity|].
  rewrite Hnone. destruct (created_at habit <=? asOf); reflexivity.
Qed.

Lemma C2_no_completion_today_gives_zero_witness :
  hasCompletion Examples.yesterdayOnly
    (format_day 0 (dayStart 0 Examples.jan01)) = false
  /\ streakUpTo 0 Examples.read Examples.yesterdayOnly
       (dayStart 0 Examples.jan01) = 0.
Proof.
  split; [reflexivity|].
  apply (C2_no_completion_today_gives_zero 0 Examples.read
           Examples.yesterdayOnly (dayStart 0 Examples.jan01)).
  reflexivity.
Defined.

(** C2, as stated, fails: completed yesterday and not today, the streak on
    the as-of date is 0 while the streak that ends yesterday is 1. *)
Lemma C2_grace_day_counterexample :
  ~ Spec.graceDay 0 Examples.read Examples.yesterdayOnly
      (dayStart 0 Examples.jan01).
Proof.
  unfold Spec.graceDay. intros H.
  specialize (H eq_refl eq_refl). vm_compute in H. discriminate H.
Qed.

(** ** Duplicate completions *)

Lemma hasCompletion_app cs1 cs2 d :
  hasCompletion (cs1 ++ cs2) d = hasCompletion cs1 d || hasCompletion cs2 d.
Proof. unfold hasCompletion. apply existsb_app. Qed.

Lemma hasCompletion_In cs d :
  hasCompletion cs d = true <-> exists c, In c cs /\ completion_date c = d.
Proof.
  unfold hasCompletion. rewrite existsb_exists.
  split; intros [c [Hin Hc]]; exists c; split; auto; lia.
Qed.

Lemma hasCompletion_duplicate cs1 cs2 dup d :
  (exists c, In c (cs1 ++ cs2) /\ completion_date c = completion_date dup) ->
  hasCompletion (cs1 ++ dup :: cs2) d = hasCompletion (cs1 ++ cs2) d.
Proof.
  intros Hdup. rewrite !hasCompletion_app. simpl.
  destruct (Z.eqb_spec (completion_date dup) d) as [Heq|Hne]; simpl;
    [|reflexivity].
  assert (hasCompletion (cs1 ++ cs2) d = true) as Hhas.
  { apply hasCompletion_In. destruct Hdup as [c [Hin Hc]].
    exists c. split; [exact Hin | lia]. }
  rewrite hasCompletion_app in Hhas. rewrite Hhas.
  destruct (hasCompletion cs1 d); reflexivity.
Qed.

Lemma completionIndex_duplicate cs1 cs2 dup :
  (exists c, In c (cs1 ++ cs2) /\ completion_date c = completion_date dup) ->
  Spec.completionIndex (cs1 ++ dup :: cs2) = Spec.completionIndex (cs1 ++ cs2).
Proof.
  intros [c [Hin Hc]]. unfold Spec.completionIndex.
  apply set_eq. intros x.
  rewrite !elem_of_list_to_set, !list_elem_of_In, !in_map_iff.
  split; intros [c' [Hx Hin']]; rewrite in_app_iff in Hin'.
  - destruct Hin' as [Hin'|[->|Hin']].
    + exists c'. rewrite in_app_iff. auto.
    + exists c. split; [congruence|exact Hin].
    + exists c'. rewrite in_app_iff. auto.
  - exists c'. rewrite in_app_iff. simpl. tauto.
Qed.

(** C6. A second completion record on a date the habit already has leaves
    the streak of the walk unchanged at every as-of date, and leaves the
    longest streak of the specification unchanged. *)
Theorem C6_duplicate_completion_invariant tz habit cs1 cs2 dup asOf :
  (exists c, In c (cs1 ++ cs2) /\ completion_date c = completion_date dup) ->
  streakUpTo tz habit (cs1 ++ dup :: cs2) asOf
  = streakUpTo tz habit (cs1 ++ cs2) asOf
  /\ Spec.longestStreak (cs1 ++ dup :: cs2) = Spec.longestStreak (cs1 ++ cs2).
Proof.
  intros Hdup. split.
  - unfold streakUpTo. apply streakLoop_ext.
    intros d. apply hasCompletion_duplicate. exact Hdup.
  - unfold Spec.longestStreak.
    rewrite (completionIndex_duplicate cs1 cs2 dup Hdup). reflexivity.
Qed.

Lemma C6_duplicate_completion_invariant_witness :
  let dup := Examples.completionOn 1 (Examples.jan01 + 1) in
  streakUpTo 0 Examples.run (Examples.threeDays ++ dup :: [])
    (dayStart 0 (Examples.jan01 + 2))
  = streakUpTo 0 Examples.run (Examples.threeDays ++ [])
      (dayStart 0 (Examples.jan01 + 2))
  /\ Spec.longestStreak (Examples.threeDays ++ dup :: [])
     = Spec.longestStreak (Examples.threeDays ++ []).
Proof.
  apply (C6_duplicate_completion_invariant 0 Examples.run Examples.threeDays
           [] (Examples.completionOn 1 (Examples.jan01 + 1))).
  exists (Examples.completionOn 1 (Examples.jan01 + 1)).
  split; [|reflexivity]. simpl. tauto.
Defined.

(** ** Intervals *)

Lemma format_day_subDays tz t n :
  format_day tz (subDays t n) = format_day tz t - n.
Proof.
  unfold format_day, subDays.
  replace (t - n * MS_PER_DAY + tz) with (t + tz + (- n) * MS_PER_DAY) by lia.
  rewrite Z.div_add by (pose proof MS_PER_DAY_pos; lia). lia.
Qed.

Lemma dayStart_le_iff tz d t : dayStart tz d <= t <-> d <= format_day tz t.
Proof.
  pose proof (dayStart_bounds tz t) as [Hlo Hhi]. split; intros H.
  - destruct (Z.le_gt_cases d (format_day tz t)) as [|Hgt]; [assumption|].
    pose proof (dayStart_mono tz (format_day tz t + 1) d). lia.
  - pose proof (dayStart_mono tz d (format_day tz t) H). lia.
Qed.

Lemma eachDayLoop_seq tz endTime (n : nat) : forall fuel d,
  Z.of_nat n = format_day tz endTime - d + 1 ->
  (n <= fuel)%nat ->
  eachDayLoop fuel (dayStart tz d) endTime
  = map (dayStart tz) (seqZ d (Z.of_nat n)).
Proof.
  induction n as [|n IH]; intros fuel d Hn Hfuel.
  - rewrite seqZ_nil by lia. destruct fuel as [|fuel]; simpl; [reflexivity|].
    destruct (Z.leb_spec (dayStart tz d) endTime) as [Hle|]; [|reflexivity].
    apply dayStart_le_iff in Hle. lia.
  - destruct fuel as [|fuel]; [lia|]. simpl.
    destruct (Z.leb_spec (dayStart tz d) endTime) as [|Hgt].
    + rewrite seqZ_cons by lia. simpl. f_equal.
      rewrite addDays_dayStart.
      replace (Z.pred (Z.of_nat (S n))) with (Z.of_nat n) by lia.
      apply IH; lia.
    + exfalso. assert (d <= format_day tz endTime) as Hle by lia.
      apply dayStart_le_iff in Hle. lia.
Qed.

(** [eachDayOfInterval] returns the midnights of the days from the day of
    [start] to the day of [end]. *)
Lemma eachDayOfInterval_seq tz start end_ :
  start <= end_ ->
  eachDayOfInterval tz start end_
  = Some (map (dayStart tz)
            (seqZ (format_day tz start)
               (format_day tz end_ - format_day tz start + 1))).
Proof.
  intros Hle. unfold eachDayOfInterval.
  destruct (Z.leb_spec start end_); [|lia]. f_equal.
  rewrite startOfDay_dayStart.
  pose proof (format_day_mono tz start end_ Hle) as Hmono.
  set (n := Z.to_nat (format_day tz end_ - format_day tz start + 1)).
  replace (format_day tz end_ - format_day tz start + 1)
    with (Z.of_nat n) by lia.
  apply eachDayLoop_seq; [lia|].
  pose proof MS_PER_DAY_pos as Hpos.
  pose proof (dayStart_bounds tz end_) as [Hlo _].
  assert (format_day tz end_ - format_day tz start
          <= (end_ - dayStart tz (format_day tz start)) / MS_PER_DAY).
  { apply Z.div_le_lower_bound; [lia|]. unfold dayStart in *. lia. }
  lia.
Qed.

Lemma weekStartDay_weekIndex d : weekStartDay (weekIndex d) = d - (d + 4) mod 7.
Proof.
  unfold weekStartDay, weekIndex. pose proof (Z.div_mod (d + 4) 7). lia.
Qed.

Lemma weekIndex_weekStartDay w : weekIndex (weekStartDay w) = w.
Proof.
  unfold weekStartDay, weekIndex.
  replace (7 * w - 4 + 4) with (w * 7) by lia. apply Z.div_mul. lia.
Qed.

Lemma weekIndex_saturday w : weekIndex (weekStartDay w + 6) = w.
Proof.
  unfold weekStartDay, weekIndex.
  replace (7 * w - 4 + 6 + 4) with (w * 7 + 6) by lia.
  rewrite Z.div_add_l by lia. change (6 / 7) with 0. lia.
Qed.

Lemma startOfWeek_dayStart tz t :
  startOfWeek tz t = dayStart tz (weekStartDay (weekIndex (format_day tz t))).
Proof.
  unfold startOfWeek, getDay.
  rewrite startOfDay_dayStart, subDays_dayStart, weekStartDay_weekIndex.
  reflexivity.
Qed.

Lemma weekIndex_mono d e : d <= e -> weekIndex d <= weekIndex e.
Proof. intros H. unfold weekIndex. apply Z.div_le_mono; lia. Qed.

(** The last millisecond of the week lies on its Saturday. *)
Lemma format_day_endOfWeek tz t :
  format_day tz (endOfWeek tz t)
  = weekStartDay (weekIndex (format_day tz t)) + 6.
Proof.
  unfold endOfWeek, getDay.
  rewrite startOfDay_dayStart, addDays_dayStart, weekStartDay_weekIndex.
  unfold format_day at 1. unfold dayStart.
  pose proof MS_PER_DAY_pos as Hpos.
  set (d := format_day tz t + (6 - (format_day tz t + 4) mod 7)).
  replace (d * MS_PER_DAY - tz + (MS_PER_DAY - 1) + tz)
    with (d * MS_PER_DAY + (MS_PER_DAY - 1)) by lia.
  rewrite Z.div_add_l by lia.
  rewrite Z.div_small by lia. subst d. lia.
Qed.

Lemma endOfWeek_ge tz t : t <= endOfWeek tz t.
Proof.
  pose proof (dayStart_bounds tz t) as [_ Hhi].
  pose proof (dayStart_bounds tz (endOfWeek tz t)) as [Hlo _].
  rewrite format_day_endOfWeek, weekStartDay_weekIndex in Hlo.
  pose proof (Z.mod_pos_bound (format_day tz t + 4) 7).
  unfold endOfWeek, getDay in *.
  rewrite startOfDay_dayStart, addDays_dayStart in *.
  pose proof (dayStart_mono tz (format_day tz t + 1)
                (format_day tz t + (6 - (format_day tz t + 4) mod 7) + 1)).
  unfold dayStart in *. lia.
Qed.

Lemma startOfWeek_le tz t : startOfWeek tz t <= t.
Proof.
  rewrite startOfWeek_dayStart, weekStartDay_weekIndex.
  pose proof (dayStart_bounds tz t) as [Hlo _].
  pose proof (Z.mod_pos_bound (format_day tz t + 4) 7).
  pose proof (dayStart_mono tz (format_day tz t - (format_day tz t + 4) mod 7)
                (format_day tz t)).
  lia.
Qed.

Lemma eachWeekLoop_seq tz endWeek (n : nat) : forall fuel w,
  Z.of_nat n = endWeek - w + 1 ->
  (n <= fuel)%nat ->
  eachWeekLoop fuel (dayStart tz (weekStartDay w))
    (dayStart tz (weekStartDay endWeek))
  = map (fun w => dayStart tz (weekStartDay w)) (seqZ w (Z.of_nat n)).
Proof.
  assert (forall a b, dayStart tz (weekStartDay a) <= dayStart tz (weekStartDay b)
                      <-> a <= b) as Hcmp.
  { intros a b. rewrite dayStart_le_iff, format_day_dayStart.
    unfold weekStartDay. lia. }
  induction n as [|n IH]; intros fuel w Hn Hfuel.
  - rewrite seqZ_nil by lia. destruct fuel as [|fuel]; simpl; [reflexivity|].
    destruct (Z.leb_spec (dayStart tz (weekStartDay w))
                (dayStart tz (weekStartDay endWeek))) as [Hle|]; [|reflexivity].
    apply (proj1 (Hcmp _ _)) in Hle. lia.
  - destruct fuel as [|fuel]; [lia|]. simpl.
    destruct (Z.leb_spec (dayStart tz (weekStartDay w))
                (dayStart tz (weekStartDay endWeek))) as [|Hgt].
    + rewrite seqZ_cons by lia. simpl. f_equal.
      rewrite addDays_dayStart.
      replace (weekStartDay w + 7) with (weekStartDay (Z.succ w))
        by (unfold weekStartDay; lia).
      replace (Z.pred (Z.of_nat (S n))) with (Z.of_nat n) by lia.
      apply IH; lia.
    + exfalso. assert (w <= endWeek) as Hle by lia.
      apply (proj2 (Hcmp _ _)) in Hle. lia.
Qed.

(** [eachWeekOfInterval] returns the starts of the weeks from the week of
    [start] to the week of [end]. *)
Lemma eachWeekOfInterval_seq tz start end_ :
  start <= end_ ->
  let ws := weekIndex (format_day tz start) in
  let we := weekIndex (format_day tz end_) in
  eachWeekOfInterval tz start end_
  = Some (map (fun w => dayStart tz (weekStartDay w)) (seqZ ws (we - ws + 1))).
Proof.
  intros Hle ws we. unfold eachWeekOfInterval.
  destruct (Z.leb_spec start end_); [|lia]. f_equal.
  rewrite !startOfWeek_dayStart. fold ws we.
  assert (ws <= we) as Hw
    by (apply weekIndex_mono, format_day_mono; exact Hle).
  set (n := Z.to_nat (we - ws + 1)).
  replace (we - ws + 1) with (Z.of_nat n) by lia.
  apply eachWeekLoop_seq; [lia|].
  pose proof MS_PER_DAY_pos as Hpos.
  assert (we - ws <= (dayStart tz (weekStartDay we)
                      - dayStart tz (weekStartDay ws)) / (7 * MS_PER_DAY)).
  { apply Z.div_le_lower_bound; [lia|]. unfold dayStart, weekStartDay. lia. }
  lia.
Qed.

(** ** Rates *)

(** Powers of two. *)
Lemma pow2_pos e : (0 < pow2 e)%Q.
Proof.
  unfold pow2. destruct (0 <=? e) eqn:He.
  - apply Z.leb_le in He. change 0%Q with (inject_Z 0). rewrite <- Zlt_Qlt.
    apply Z.pow_pos_nonneg; lia.
  - reflexivity.
Qed.

Lemma pow2_opp e : (pow2 e * pow2 (- e) == 1)%Q.
Proof.
  assert (forall n, 0 < n ->
            (inject_Z (2 ^ n) * (1 # Z.to_pos (2 ^ n)) == 1)%Q) as H.
  { intros n Hn. unfold Qeq, Qmult, inject_Z. simpl.
    rewrite Pos.mul_1_l, Z2Pos.id by (apply Z.pow_pos_nonneg; lia). lia. }
  unfold pow2.
  destruct (Z.leb_spec 0 e) as [He|He];
    destruct (Z.leb_spec 0 (- e)) as [He'|He']; try lia.
  - replace e with 0 by lia. reflexivity.
  - rewrite Z.opp_involutive. apply H. lia.
  - rewrite Qmult_comm. apply H. lia.
Qed.

Lemma pow2_nonneg_exp v : 0 <= v -> pow2 v = inject_Z (2 ^ v).
Proof.
  intros Hv. unfold pow2. destruct (Z.leb_spec 0 v); [reflexivity|lia].
Qed.

Lemma pow2_shift u v : 0 <= v -> (pow2 (u + v) == pow2 u * inject_Z (2 ^ v))%Q.
Proof.
  intros Hv.
  assert (0 < 2 ^ v) as Hpv by (apply Z.pow_pos_nonneg; lia).
  unfold pow2.
  destruct (Z.leb_spec 0 u) as [Hu|Hu];
    destruct (Z.leb_spec 0 (u + v)) as [Huv|Huv]; try lia.
  - rewrite Z.pow_add_r by lia. rewrite inject_Z_mult. reflexivity.
  - assert (0 < 2 ^ (- u)) as Hpu by (apply Z.pow_pos_nonneg; lia).
    unfold Qeq, Qmult, inject_Z. cbn [Qnum Qden].
    rewrite Pos.mul_1_r, Z2Pos.id by exact Hpu.
    rewrite Z.mul_1_l, Z.mul_1_r, <- Z.pow_add_r by lia. f_equal. lia.
  - assert (0 < 2 ^ (- u)) as Hpu by (apply Z.pow_pos_nonneg; lia).
    assert (0 < 2 ^ (- (u + v))) as Hpuv by (apply Z.pow_pos_nonneg; lia).
    unfold Qeq, Qmult, inject_Z. cbn [Qnum Qden].
    rewrite Pos.mul_1_r, !Z2Pos.id by assumption.
    rewrite !Z.mul_1_l, <- Z.pow_add_r by lia. f_equal. lia.
Qed.

Lemma pow2_mono u v : u <= v -> (pow2 u <= pow2 v)%Q.
Proof.
  intros Huv. replace v with (u + (v - u)) by lia.
  rewrite pow2_shift by lia.
  pose proof (pow2_pos u) as Hu.
  assert (1 <= inject_Z (2 ^ (v - u)))%Q as H1.
  { change 1%Q with (inject_Z 1). rewrite <- Zle_Qle.
    assert (0 < 2 ^ (v - u)) by (apply Z.pow_pos_nonneg; lia). lia. }
  rewrite <- (Qmult_1_r (pow2 u)) at 1.
  apply Qmult_le_l; assumption.
Qed.

(** Integers among the rationals. *)
Lemma inject_Z_sub a b : (inject_Z (a - b) == inject_Z a - inject_Z b)%Q.
Proof. unfold Qeq, Qminus, Qplus, Qopp, inject_Z. simpl. lia. Qed.

Lemma Qfloor_between y q :
  (inject_Z q <= y)%Q -> (y < inject_Z (q + 1))%Q -> Qfloor y = q.
Proof.
  intros Hlo Hhi.
  assert (q <= Qfloor y)
    by (rewrite <- (Qfloor_Z q); apply Qfloor_resp_le; exact Hlo).
  assert (Qfloor y < q + 1); [|lia].
  rewrite Zlt_Qlt. pose proof (Qfloor_le y). lra.
Qed.

(** Rounding to an integer never crosses an integer. *)
Lemma roundHalfEven_nonneg x : (0 <= x)%Q -> 0 <= roundHalfEven x.
Proof.
  intros Hx. unfold roundHalfEven.
  assert (0 <= Qfloor x) as Hf
    by (change 0 with (Qfloor 0); apply Qfloor_resp_le; exact Hx).
  destruct (x - inject_Z (Qfloor x) ?= 1 # 2)%Q; [destruct (Z.even _)| |];
    lia.
Qed.

Lemma roundHalfEven_le x K : (x <= inject_Z K)%Q -> roundHalfEven x <= K.
Proof.
  intros Hx. unfold roundHalfEven.
  assert (Qfloor x <= K) as Hf
    by (rewrite <- (Qfloor_Z K); apply Qfloor_resp_le; exact Hx).
  destruct (Qcompare_spec (x - inject_Z (Qfloor x)) (1 # 2)) as [He|Hl|Hg];
    [destruct (Z.even _)| |]; try lia;
    (destruct (Z.eq_dec (Qfloor x) K) as [Heq|Hne]; [|lia]);
    rewrite Heq in *; lra.
Qed.

Lemma roundHalfEven_ge x K : (inject_Z K <= x)%Q -> K <= roundHalfEven x.
Proof.
  intros Hx. unfold roundHalfEven.
  assert (K <= Qfloor x) as Hf
    by (rewrite <- (Qfloor_Z K); apply Qfloor_resp_le; exact Hx).
  destruct (x - inject_Z (Qfloor x) ?= 1 # 2)%Q; [destruct (Z.even _)| |];
    lia.
Qed.

(** A value more than a half below an integer stays below it. *)
Lemma roundHalfEven_below x K :
  (x < inject_Z K - (1 # 2))%Q -> roundHalfEven x <= K - 1.
Proof.
  intros Hx. unfold roundHalfEven.
  assert (Qfloor x <= K - 1) as Hf.
  { assert (Qfloor x < K); [|lia]. rewrite Zlt_Qlt.
    pose proof (Qfloor_le x). lra. }
  destruct (Qcompare_spec (x - inject_Z (Qfloor x)) (1 # 2)) as [He|Hl|Hg];
    [destruct (Z.even _)| |]; try lia;
    (destruct (Z.eq_dec (Qfloor x) (K - 1)) as [Heq|Hne]; [|lia]);
    rewrite Heq in *;
    pose proof (inject_Z_sub K 1) as Hsub;
    change (inject_Z 1) with 1%Q in Hsub; lra.
Qed.

(** [roundHalfEven] returns a nearest integer, and the even one of two
    nearest. *)
Lemma roundHalfEven_nearest y n :
  (Qabs (inject_Z (roundHalfEven y) - y) <= Qabs (inject_Z n - y))%Q
  /\ (n <> roundHalfEven y ->
      (Qabs (inject_Z (roundHalfEven y) - y) == Qabs (inject_Z n - y))%Q ->
      Z.even (roundHalfEven y) = true).
Proof.
  pose proof (Qfloor_le y) as Hlo. pose proof (Qlt_floor y) as Hhi.
  rewrite inject_Z_plus in Hhi. change (inject_Z 1) with 1%Q in Hhi.
  pose proof (Qle_Qabs (inject_Z n - y)) as Hn1.
  pose proof (Qle_Qabs (- (inject_Z n - y))) as Hn2.
  rewrite Qabs_opp in Hn2.
  assert ((inject_Z n <= inject_Z (Qfloor y))%Q
          \/ (inject_Z (Qfloor y) + 1 <= inject_Z n)%Q) as Hcase.
  { destruct (Z_le_gt_dec n (Qfloor y)) as [Hle|Hgt].
    - left. rewrite <- Zle_Qle. exact Hle.
    - right. change 1%Q with (inject_Z 1).
      rewrite <- inject_Z_plus, <- Zle_Qle. lia. }
  assert (forall m, (inject_Z m - y <= Qabs (inject_Z n - y))%Q ->
                    (- Qabs (inject_Z n - y) <= inject_Z m - y)%Q ->
                    (Qabs (inject_Z m - y) <= Qabs (inject_Z n - y))%Q) as Habs
    by (intros m H1 H2; apply Qabs_Qle_condition; split; assumption).
  unfold roundHalfEven.
  destruct (Qcompare_spec (y - inject_Z (Qfloor y)) (1 # 2)) as [He|Hl|Hg].
  - assert (forall m, m = Qfloor y \/ m = Qfloor y + 1 ->
                      (Qabs (inject_Z m - y) <= Qabs (inject_Z n - y))%Q)
      as Hboth.
    { intros m [->| ->]; apply Habs;
        rewrite ?inject_Z_plus; change (inject_Z 1) with 1%Q;
        destruct Hcase; lra. }
    destruct (Z.even (Qfloor y)) eqn:Heven.
    + split; [apply Hboth; left; reflexivity | intros _ _; exact Heven].
    + split; [apply Hboth; right; reflexivity|]. intros _ _.
      rewrite Z.even_add, Heven. reflexivity.
  - split; [apply Habs; destruct Hcase; lra|].
    intros Hne Heq. exfalso.
    assert (Qabs (inject_Z (Qfloor y) - y) == y - inject_Z (Qfloor y))%Q
      as Hm.
    { rewrite <- Qabs_opp. rewrite Qabs_pos; lra. }
    rewrite Hm in Heq.
    destruct Hcase as [Hle|Hge].
    + assert (inject_Z n < inject_Z (Qfloor y))%Q as Hlt.
      { apply Qle_lt_or_eq in Hle as [Hlt|Heq']; [exact Hlt|].
        exfalso. apply Hne. apply inject_Z_injective. exact Heq'. }
      rewrite <- Zlt_Qlt in Hlt.
      assert (inject_Z n + 1 <= inject_Z (Qfloor y))%Q.
      { change 1%Q with (inject_Z 1).
        rewrite <- inject_Z_plus, <- Zle_Qle. lia. }
      lra.
    + lra.
  - split; [apply Habs; rewrite ?inject_Z_plus; change (inject_Z 1) with 1%Q;
            destruct Hcase; lra|].
    intros Hne Heq. exfalso.
    rewrite inject_Z_plus in Heq. change (inject_Z 1) with 1%Q in Heq.
    assert (Qabs (inject_Z (Qfloor y) + 1 - y)
            == inject_Z (Qfloor y) + 1 - y)%Q as Hm
      by (rewrite Qabs_pos; lra).
    rewrite Hm in Heq.
    destruct Hcase as [Hle|Hge].
    + lra.
    + assert (inject_Z (Qfloor y) + 1 < inject_Z n)%Q as Hlt.
      { apply Qle_lt_or_eq in Hge as [Hlt|Heq']; [exact Hlt|].
        exfalso. apply Hne. apply inject_Z_injective.
        rewrite inject_Z_plus. symmetry. exact Heq'. }
      change 1%Q with (inject_Z 1) in Hlt.
      rewrite <- inject_Z_plus, <- Zlt_Qlt in Hlt.
      assert (inject_Z (Qfloor y) + 2 <= inject_Z n)%Q.
      { change 2%Q with (inject_Z 2).
        rewrite <- inject_Z_plus, <- Zle_Qle. lia. }
      lra.
Qed.

(** A value of at most [2 ^ m] lies in a binade of at most [m]. *)
Lemma binade_le x c m :
  (0 < x)%Q -> (x <= inject_Z c)%Q -> 0 <= m -> c <= 2 ^ m -> binade x <= m.
Proof.
  intros Hpos Hle Hm Hc. unfold binade.
  destruct x as [p d]. unfold Qlt, Qle in *. cbn [Qnum Qden inject_Z] in *.
  assert (0 < p) as Hp by lia.
  assert (c * Z.pos d <= 2 ^ m * Z.pos d) as Hcd
    by (apply Z.mul_le_mono_nonneg_r; lia).
  rewrite Z.abs_eq by lia.
  assert (Z.log2 p <= m + Z.log2 (Z.pos d)).
  { rewrite <- Z.log2_mul_pow2 by lia.
    apply Z.log2_le_mono. lia. }
  destruct (Qle_bool _ _); lia.
Qed.

(** [binade x] is the exponent of the power of two at or below [|x|]. *)
Lemma binade_spec x :
  ~ (x == 0)%Q ->
  (pow2 (binade x) <= Qabs x)%Q /\ (Qabs x < pow2 (binade x + 1))%Q.
Proof.
  intros Hx. unfold binade.
  destruct x as [p d]. cbn [Qnum Qden].
  assert (p <> 0) as Hp by (intros ->; apply Hx; reflexivity).
  set (a := Z.abs p). assert (0 < a) as Ha by (unfold a; lia).
  change (Qabs (p # d)) with (a # d).
  destruct (Z.log2_spec a Ha) as [Hal Hau].
  destruct (Z.log2_spec (Z.pos d) ltac:(lia)) as [Hdl Hdu].
  pose proof (Z.log2_nonneg a) as Hla.
  pose proof (Z.log2_nonneg (Z.pos d)) as Hld.
  set (la := Z.log2 a) in *. set (ld := Z.log2 (Z.pos d)) in *.
  assert (forall u v, (pow2 u * inject_Z v <= inject_Z a)%Q ->
                      0 < v -> Z.pos d <= v -> (pow2 u <= a # d)%Q) as Hlow.
  { intros u v Huv Hv Hdv. pose proof (pow2_pos u) as Hpu.
    assert (pow2 u * inject_Z (Z.pos d) <= inject_Z a)%Q as H.
    { apply Qle_trans with (pow2 u * inject_Z v)%Q; [|exact Huv].
      apply Qmult_le_l; [exact Hpu|]. rewrite <- Zle_Qle. exact Hdv. }
    assert ((a # d) == inject_Z a / inject_Z (Z.pos d))%Q as ->
      by (rewrite Qmake_Qdiv; reflexivity).
    apply Qle_shift_div_l; [|exact H].
    change 0%Q with (inject_Z 0). rewrite <- Zlt_Qlt. lia. }
  assert (forall u v, (inject_Z a < pow2 u * inject_Z v)%Q ->
                      0 < v -> v <= Z.pos d -> (a # d < pow2 u)%Q) as Hup.
  { intros u v Huv Hv Hdv. pose proof (pow2_pos u) as Hpu.
    assert (inject_Z a < pow2 u * inject_Z (Z.pos d))%Q as H.
    { apply Qlt_le_trans with (pow2 u * inject_Z v)%Q; [exact Huv|].
      apply Qmult_le_l; [exact Hpu|]. rewrite <- Zle_Qle. exact Hdv. }
    assert ((a # d) == inject_Z a / inject_Z (Z.pos d))%Q as ->
      by (rewrite Qmake_Qdiv; reflexivity).
    apply Qlt_shift_div_r; [|exact H].
    change 0%Q with (inject_Z 0). rewrite <- Zlt_Qlt. lia. }
  destruct (Qle_bool (pow2 (la - ld)) (a # d)) eqn:Htest.
  - split; [apply Qle_bool_iff; exact Htest|].
    apply (Hup _ (2 ^ ld)); [|lia|lia].
    rewrite <- pow2_shift by lia.
    replace (la - ld + 1 + ld) with (Z.succ la) by lia.
    rewrite pow2_nonneg_exp by lia. rewrite <- Zlt_Qlt. exact Hau.
  - split.
    + apply (Hlow _ (2 ^ Z.succ ld)); [|lia|lia].
      rewrite <- pow2_shift by lia.
      replace (la - ld - 1 + Z.succ ld) with la by lia.
      rewrite pow2_nonneg_exp by lia. rewrite <- Zle_Qle. exact Hal.
    + replace (la - ld - 1 + 1) with (la - ld) by lia.
      apply Qnot_le_lt. intros Hle. apply Qle_bool_iff in Hle. congruence.
Qed.

(** [binary64 x] is a multiple of [2 ^ e] with a significand of at most 53
    bits, [e] being the exponent of the last bit in the binade of [x]; no
    multiple of [2 ^ e] is nearer to [x], and when another one is as near
    the significand chosen is even. *)
Lemma binary64_spec x :
  ~ (x == 0)%Q ->
  let e := Z.max (binade x - 52) (-1074) in
  exists m,
    (binary64 x == inject_Z m * pow2 e)%Q
    /\ Z.abs m <= 2 ^ 53
    /\ forall n,
         (Qabs (inject_Z m * pow2 e - x)
          <= Qabs (inject_Z n * pow2 e - x))%Q
         /\ (n <> m ->
             (Qabs (inject_Z m * pow2 e - x)
              == Qabs (inject_Z n * pow2 e - x))%Q ->
             Z.even m = true).
Proof.
  intros Hx e.
  pose proof (pow2_pos e) as He. pose proof (pow2_opp e) as Hinv.
  set (y := (x * pow2 (- e))%Q).
  assert (y * pow2 e == x)%Q as Hy.
  { unfold y. rewrite <- Qmult_assoc, (Qmult_comm (pow2 (- e))), Hinv.
    apply Qmult_1_r. }
  assert (forall k,
            (Qabs (inject_Z k * pow2 e - x)
             == Qabs (inject_Z k - y) * pow2 e)%Q) as Hdist.
  { intros k. rewrite <- (Qabs_pos (pow2 e)) at 2 by lra.
    rewrite <- Qabs_Qmult. apply Qabs_wd. rewrite <- Hy at 1. ring. }
  exists (roundHalfEven y). split; [|split].
  - unfold binary64.
    destruct (Qeq_bool x 0) eqn:Hzero;
      [apply Qeq_bool_iff in Hzero; contradiction|].
    rewrite Qred_correct. reflexivity.
  - destruct (binade_spec x Hx) as [_ Hup].
    assert (Qabs y < inject_Z (2 ^ 53))%Q as Hy53.
    { unfold y. rewrite Qabs_Qmult, (Qabs_pos (pow2 (- e)))
        by (apply Qlt_le_weak, pow2_pos).
      apply Qlt_le_trans
        with (pow2 (binade x + 1) * pow2 (- e))%Q.
      - apply Qmult_lt_compat_r; [apply pow2_pos | exact Hup].
      - apply Qle_trans
          with (pow2 (binade x + 1) * pow2 (52 - binade x))%Q.
        + apply Qmult_le_l; [apply pow2_pos|]. apply pow2_mono. lia.
        + pose proof (pow2_opp (52 - binade x)) as Hinv'.
          replace (binade x + 1) with (- (52 - binade x) + 53) by lia.
          rewrite pow2_shift by lia.
          rewrite (Qmult_comm (pow2 (- (52 - binade x)))).
          rewrite <- Qmult_assoc, (Qmult_comm (pow2 (- (52 - binade x)))).
          rewrite Hinv', Qmult_1_r. apply Qle_refl. }
    pose proof (Qle_Qabs y) as H1. pose proof (Qle_Qabs (- y)) as H2.
    rewrite Qabs_opp in H2.
    assert (roundHalfEven y <= 2 ^ 53) by (apply roundHalfEven_le; lra).
    assert (- 2 ^ 53 <= roundHalfEven y).
    { apply roundHalfEven_ge. rewrite inject_Z_opp. lra. }
    lia.
  - intros n. rewrite !Hdist.
    destruct (roundHalfEven_nearest y n) as [Hnear Heven]. split.
    + apply Qmult_le_compat_r; [exact Hnear | lra].
    + intros Hne Heq. apply Heven; [exact Hne|].
      apply Qmult_inj_r with (pow2 e); [lra | exact Heq].
Qed.

(** Rounding to binary64 keeps the sign and never crosses an integer of at
    most [2 ^ 52]. *)
Lemma binary64_nonneg x : (0 <= x)%Q -> (0 <= binary64 x)%Q.
Proof.
  intros Hx. unfold binary64.
  destruct (Qeq_bool x 0); [lra|].
  rewrite Qred_correct.
  apply Qmult_le_0_compat; [|apply Qlt_le_weak, pow2_pos].
  change 0%Q with (inject_Z 0). rewrite <- Zle_Qle.
  apply roundHalfEven_nonneg.
  apply Qmult_le_0_compat; [exact Hx | apply Qlt_le_weak, pow2_pos].
Qed.

Lemma binary64_le_Z x c :
  (0 <= x)%Q -> (x <= inject_Z c)%Q -> c <= 2 ^ 52 ->
  (binary64 x <= inject_Z c)%Q.
Proof.
  intros Hpos Hle Hc. unfold binary64.
  destruct (Qeq_bool x 0) eqn:Hzero.
  - apply Qeq_bool_iff in Hzero. lra.
  - assert (0 < x)%Q as Hx.
    { apply Qeq_bool_neq in Hzero. lra. }
    pose proof (binade_le x c 52 Hx Hle ltac:(lia) Hc) as Hb.
    set (e := Z.max (binade x - 52) (-1074)).
    assert (e <= 0) as He by lia.
    rewrite Qred_correct.
    assert (pow2 (- e) = inject_Z (2 ^ (- e))) as Hpow.
    { unfold pow2. destruct (Z.leb_spec 0 (- e)); [reflexivity|lia]. }
    assert (roundHalfEven (x * pow2 (- e)) <= c * 2 ^ (- e)) as Hm.
    { apply roundHalfEven_le. rewrite inject_Z_mult, Hpow.
      apply Qmult_le_compat_r; [exact Hle|].
      rewrite <- Hpow. apply Qlt_le_weak, pow2_pos. }
    rewrite Zle_Qle, inject_Z_mult, <- Hpow in Hm.
    pose proof (pow2_pos e) as He'. pose proof (pow2_opp e) as Hinv.
    assert (inject_Z (roundHalfEven (x * pow2 (- e))) * pow2 e
            <= inject_Z c * pow2 (- e) * pow2 e)%Q as H
      by (apply Qmult_le_compat_r; [exact Hm | lra]).
    rewrite <- Qmult_assoc, (Qmult_comm (pow2 (- e))), Hinv, Qmult_1_r in H.
    exact H.
Qed.

Lemma binary64_ge_Z x c :
  (inject_Z c <= x)%Q -> (0 < x)%Q -> (x <= inject_Z (2 ^ 52))%Q ->
  (inject_Z c <= binary64 x)%Q.
Proof.
  intros Hle Hx Hbig. unfold binary64.
  destruct (Qeq_bool x 0) eqn:Hzero;
    [apply Qeq_bool_iff in Hzero; lra|].
  pose proof (binade_le x (2 ^ 52) 52 Hx Hbig ltac:(lia) ltac:(lia)) as Hb.
  set (e := Z.max (binade x - 52) (-1074)).
  assert (e <= 0) as He by lia.
  rewrite Qred_correct.
  assert (pow2 (- e) = inject_Z (2 ^ (- e))) as Hpow.
  { unfold pow2. destruct (Z.leb_spec 0 (- e)); [reflexivity|lia]. }
  assert (c * 2 ^ (- e) <= roundHalfEven (x * pow2 (- e))) as Hm.
  { apply roundHalfEven_ge. rewrite inject_Z_mult, Hpow.
    apply Qmult_le_compat_r; [exact Hle|].
    rewrite <- Hpow. apply Qlt_le_weak, pow2_pos. }
  rewrite Zle_Qle, inject_Z_mult, <- Hpow in Hm.
  pose proof (pow2_pos e) as He'. pose proof (pow2_opp e) as Hinv.
  assert (inject_Z c * pow2 (- e) * pow2 e
          <= inject_Z (roundHalfEven (x * pow2 (- e))) * pow2 e)%Q as H
    by (apply Qmult_le_compat_r; [exact Hm | lra]).
  rewrite <- Qmult_assoc, (Qmult_comm (pow2 (- e))), Hinv, Qmult_1_r in H.
  exact H.
Qed.

(** [Math.round] *)
Lemma Math_round_nonneg x : (0 <= x)%Q -> 0 <= Math_round x.
Proof.
  intros Hx. unfold Math_round. change 0 with (Qfloor 0).
  apply Qfloor_resp_le. lra.
Qed.

Lemma Math_round_le x K : (x <= inject_Z K)%Q -> Math_round x <= K.
Proof.
  intros Hx. unfold Math_round.
  assert (Qfloor (inject_Z K + (1 # 2)) = K) as <-.
  { unfold Qfloor, Qplus, inject_Z. simpl.
    symmetry. apply Z.div_unique with (r := 1); lia. }
  apply Qfloor_resp_le. lra.
Qed.

(** A rate is never negative, and a count of at most one per unit possible
    keeps it at most 100. *)
Lemma rate_nonneg n d : 0 <= n -> 0 <= Math_round (ratePercent n d).
Proof.
  intros Hn. apply Math_round_nonneg. unfold ratePercent.
  destruct (Z.ltb_spec 0 d) as [Hd|Hd]; [|lra].
  apply binary64_nonneg. apply Qmult_le_0_compat; [|lra].
  apply binary64_nonneg. apply Qle_shift_div_l.
  - change 0%Q with (inject_Z 0). rewrite <- Zlt_Qlt. exact Hd.
  - rewrite Qmult_0_l. change 0%Q with (inject_Z 0). rewrite <- Zle_Qle.
    exact Hn.
Qed.

Lemma percent_le_100 x y :
  (0 <= x)%Q -> (x <= y)%Q -> (0 < y)%Q ->
  (Number_mul (Number_div x y) 100 <= 100)%Q.
Proof.
  intros Hx Hxy Hy.
  assert (0 <= x / y)%Q as Hq0.
  { apply Qle_shift_div_l; [exact Hy | lra]. }
  assert (x / y <= 1)%Q as Hq1.
  { apply Qle_shift_div_r; [exact Hy | lra]. }
  pose proof (binary64_nonneg _ Hq0) as H0.
  pose proof (binary64_le_Z (x / y) 1 Hq0 Hq1 ltac:(lia)) as H1.
  change (inject_Z 1) with 1%Q in H1.
  unfold Number_mul, Number_div.
  apply (binary64_le_Z _ 100); [lra | | lia].
  change (inject_Z 100) with 100%Q. lra.
Qed.

Lemma rate_le_100 n d : 0 <= n <= d -> Math_round (ratePercent n d) <= 100.
Proof.
  intros [Hn Hd]. apply Math_round_le. unfold ratePercent.
  destruct (Z.ltb_spec 0 d) as [Hpos|Hpos];
    [|change (inject_Z 100) with 100%Q; lra].
  apply percent_le_100.
  - change 0%Q with (inject_Z 0). rewrite <- Zle_Qle. exact Hn.
  - rewrite <- Zle_Qle. exact Hd.
  - change 0%Q with (inject_Z 0). rewrite <- Zlt_Qlt. exact Hpos.
Qed.

(** [Math.floor(ms / (1000 * 60 * 60 * 24))] is the integer quotient: the
    exact quotient is at least [1 / 86400000] below the next integer,
    further than binary64 rounding moves it. *)
Lemma floor_day_quotient a :
  0 <= a < 2 ^ 52 ->
  Qfloor (Number_div (inject_Z a) (inject_Z MS_PER_DAY)) = a / MS_PER_DAY.
Proof.
  intros Ha. unfold Number_div.
  change MS_PER_DAY with 86400000.
  set (q := a / 86400000).
  set (x := (inject_Z a / inject_Z 86400000)%Q).
  pose proof (Z.div_mod a 86400000 ltac:(lia)) as Hdiv.
  pose proof (Z.mod_pos_bound a 86400000 ltac:(lia)) as Hmod.
  fold q in Hdiv.
  assert (0 <= q) as Hq by (apply Z.div_pos; lia).
  assert (q + 1 <= 2 ^ 26) as Hq26.
  { assert (q < 2 ^ 26 - 1); [|lia]. apply Z.div_lt_upper_bound; lia. }
  assert (x * 86400000 == inject_Z a)%Q as Hx
    by (unfold x; change (inject_Z 86400000) with 86400000%Q; field).
  assert (inject_Z a == 86400000 * inject_Z q + inject_Z (a mod 86400000))%Q
    as Ha'.
  { change 86400000%Q with (inject_Z 86400000).
    rewrite <- inject_Z_mult, <- inject_Z_plus, <- Hdiv. reflexivity. }
  assert (0 <= inject_Z (a mod 86400000) <= 86400000 - 1)%Q as Hr.
  { change (86400000 - 1)%Q with (inject_Z 86399999).
    change 0%Q with (inject_Z 0). rewrite <- !Zle_Qle. lia. }
  assert (0 <= inject_Z q)%Q as Hq'
    by (change 0%Q with (inject_Z 0); rewrite <- Zle_Qle; exact Hq).
  assert (inject_Z (q + 1) == inject_Z q + 1)%Q as Hsucc
    by (rewrite inject_Z_plus; reflexivity).
  assert (inject_Z (q + 1) <= inject_Z (2 ^ 26))%Q as Hq26'
    by (rewrite <- Zle_Qle; exact Hq26).
  apply Qfloor_between.
  - destruct (Qeq_dec x 0) as [Hzero|Hnz].
    + unfold binary64. rewrite (proj2 (Qeq_bool_iff x 0) Hzero). lra.
    + apply binary64_ge_Z; [lra|lra|].
      apply Qle_trans with (inject_Z (2 ^ 26)); [lra|].
      rewrite <- Zle_Qle. lia.
  - unfold binary64.
    destruct (Qeq_bool x 0) eqn:Hzero; [lra|].
    assert (0 < x)%Q as Hpos by (apply Qeq_bool_neq in Hzero; lra).
    assert (x <= inject_Z (2 ^ 26))%Q as Hx26 by lra.
    pose proof (binade_le x (2 ^ 26) 26 Hpos Hx26 ltac:(lia) ltac:(lia))
      as Hb.
    set (e := Z.max (binade x - 52) (-1074)).
    assert (e <= -26) as He by lia.
    rewrite Qred_correct.
    assert (pow2 (- e) = inject_Z (2 ^ (- e))) as Hpow.
    { unfold pow2. destruct (Z.leb_spec 0 (- e)); [reflexivity|lia]. }
    assert (2 ^ 26 <= 2 ^ (- e)) as HP
      by (apply Z.pow_le_mono_r; lia).
    rewrite Zle_Qle in HP. change (inject_Z (2 ^ 26)) with 67108864%Q in HP.
    rewrite <- Hpow in HP.
    pose proof (pow2_pos e) as He'. pose proof (pow2_opp e) as Hinv.
    assert (roundHalfEven (x * pow2 (- e)) <= (q + 1) * 2 ^ (- e) - 1) as Hm.
    { apply roundHalfEven_below. rewrite inject_Z_mult, <- Hpow, Hsucc.
      set (P := pow2 (- e)) in *.
      assert (x * P * 86400000 == inject_Z a * P)%Q as HxP
        by (rewrite <- Hx; ring).
      assert (inject_Z (a mod 86400000) * P <= (86400000 - 1) * P)%Q as HrP
        by (apply Qmult_le_compat_r; lra).
      assert (x * P * 86400000
              <= (inject_Z q + 1) * P * 86400000 - P)%Q as Hy.
      { rewrite HxP, Ha'. lra. }
      lra. }
    rewrite Zle_Qle, inject_Z_sub, inject_Z_mult, <- Hpow, Hsucc in Hm.
    change (inject_Z 1) with 1%Q in Hm.
    assert (inject_Z (roundHalfEven (x * pow2 (- e))) * pow2 e
            <= ((inject_Z q + 1) * pow2 (- e) - 1) * pow2 e)%Q as H
      by (apply Qmult_le_compat_r; [exact Hm | lra]).
    assert (((inject_Z q + 1) * pow2 (- e) - 1) * pow2 e
            == inject_Z q + 1 - pow2 e)%Q as Heq.
    { transitivity ((inject_Z q + 1) * (pow2 e * pow2 (- e)) - pow2 e)%Q;
        [ring|]. rewrite Hinv. ring. }
    rewrite Heq in H. lra.
Qed.

(** The rounding above agrees with the reference implementation of
    binary64 division and multiplication on every pair of counts of a
    grid. *)
Lemma ratePercent_reference n d :
  In n (seqZ 0 120) -> In d (seqZ 1 60) ->
  (ratePercent n d == referenceRate n d)%Q.
Proof.
  intros Hn Hd.
  assert (forallb
            (fun n => forallb
                        (fun d => Qeq_bool (ratePercent n d)
                                    (referenceRate n d))
                        (seqZ 1 60))
            (seqZ 0 120) = true) as Hgrid by (vm_compute; reflexivity).
  rewrite forallb_forall in Hgrid. specialize (Hgrid n Hn).
  rewrite forallb_forall in Hgrid. specialize (Hgrid d Hd).
  apply Qeq_bool_iff. exact Hgrid.
Qed.

(** 23 completions over 40 possible: the quotient is a little less than
    0.575 and the percentage a little less than 57.5. *)
Example rate_23_of_40 :
  (ratePercent 23 40 < 575 # 10)%Q /\ Math_round (ratePercent 23 40) = 57.
Proof. split; vm_compute; reflexivity. Qed.

(** The days that CategoryChart and ProgressSummary count, with the
    quotient taken in binary64 as the code takes it. *)
Lemma daysSinceCreation_binary64 now habit :
  0 <= now - created_at habit < 2 ^ 52 ->
  CategoryChart.daysSinceCreation now habit
  = Qfloor (Number_div (inject_Z (now - created_at habit))
              (inject_Z MS_PER_DAY)) + 1.
Proof.
  intros Hspan. unfold CategoryChart.daysSinceCreation.
  rewrite floor_day_quotient by exact Hspan. reflexivity.
Qed.

Lemma daysSinceOldestHabit_binary64 first rest now :
  0 <= now - ProgressSummary.minCreated first rest < 2 ^ 52 ->
  ProgressSummary.daysSinceOldestHabit (first :: rest) now
  = Z.max 1
      (Qfloor
         (Number_div (inject_Z (now - ProgressSummary.minCreated first rest))
            (inject_Z MS_PER_DAY))).
Proof.
  intros Hspan. unfold ProgressSummary.daysSinceOldestHabit.
  rewrite floor_day_quotient by exact Hspan. reflexivity.
Qed.

(** The tenths of an average streak: rounding the exact quotient and
    rounding the binary64 quotient select the same integer on every pair
    of a streak total and a habit count of a grid. *)
Lemma roundTenth_reference total count :
  In total (seqZ 0 120) -> In count (seqZ 1 60) ->
  Math_round (inject_Z total / inject_Z count * 10)%Q
  = Math_round
      (Number_mul (Number_div (inject_Z total) (inject_Z count)) 10).
Proof.
  intros Ht Hc.
  assert (forallb
            (fun t => forallb
                        (fun c =>
                           Math_round (inject_Z t / inject_Z c * 10)%Q
                           =? Math_round
                                (Number_mul
                                   (Number_div (inject_Z t) (inject_Z c))
                                   10))
                        (seqZ 1 60))
            (seqZ 0 120) = true) as Hgrid by (vm_compute; reflexivity).
  rewrite forallb_forall in Hgrid. specialize (Hgrid total Ht).
  rewrite forallb_forall in Hgrid. specialize (Hgrid count Hc).
  apply Z.eqb_eq. exact Hgrid.
Qed.

(** ** Counting completions in a bucket *)

Section Counting.

Context (tz : Z) (habits : list HabitResponse)
        (completions_ : gmap Z (list CompletionResponse)).

Lemma countDay_filter acc dayStr :
  CompletionChart.countDay habits completions_ acc dayStr
  = acc + Z.of_nat (length (habitsDoneOn completions_ dayStr habits)).
Proof.
  unfold CompletionChart.countDay, habitsDoneOn. revert acc.
  induction habits as [|h hs IH]; intros acc; simpl; [lia|].
  rewrite IH.
  destruct (hasCompletion (completionsOf completions_ h) dayStr); simpl; lia.
Qed.

Lemma countDay_bounds dayStr :
  0 <= CompletionChart.countDay habits completions_ 0 dayStr
    <= Z.of_nat (length habits).
Proof.
  rewrite countDay_filter. unfold habitsDoneOn.
  pose proof (filter_length_le
                (fun h => hasCompletion (completionsOf completions_ h) dayStr)
                habits).
  lia.
Qed.

Lemma countWeek_sum weekDays :
  CompletionChart.countWeek tz habits completions_ weekDays
  = sumZ (fun day =>
            CompletionChart.countDay habits completions_ 0 (format_day tz day))
      weekDays.
Proof.
  unfold CompletionChart.countWeek.
  assert (forall acc,
    fold_left
      (fun acc day =>
         CompletionChart.countDay habits completions_ acc (format_day tz day))
      weekDays acc
    = acc + sumZ (fun day =>
                    CompletionChart.countDay habits completions_ 0
                      (format_day tz day)) weekDays) as H.
  { induction weekDays as [|day days IH]; intros acc; simpl; [lia|].
    rewrite IH, (countDay_filter acc), (countDay_filter 0). lia. }
  rewrite H. lia.
Qed.

Lemma countWeek_bounds weekDays :
  0 <= CompletionChart.countWeek tz habits completions_ weekDays
    <= Z.of_nat (length weekDays) * Z.of_nat (length habits).
Proof.
  rewrite countWeek_sum.
  induction weekDays as [|day days IH]; simpl; [lia|].
  pose proof (countDay_bounds (format_day tz day)). lia.
Qed.

End Counting.

(** Summing over the days and then the habits, or over the habits and then
    the days, counts the same pairs. *)
Lemma countWeek_by_habit tz habits completions_ weekDays :
  CompletionChart.countWeek tz habits completions_ weekDays
  = sumZ (completedDays tz completions_ weekDays) habits.
Proof.
  rewrite countWeek_sum.
  induction habits as [|h hs IH]; simpl.
  - induction weekDays as [|day days IHd]; simpl; [reflexivity|].
    rewrite IHd. reflexivity.
  - rewrite <- IH. clear IH. unfold completedDays.
    induction weekDays as [|day days IHd]; simpl; [reflexivity|].
    rewrite !countDay_filter in *. simpl.
    destruct (hasCompletion (completionsOf completions_ h) (format_day tz day));
      simpl length; lia.
Qed.

(** ** The trend series *)

Lemma weekOf_dayStart tz wsd :
  weekOf (dayStart tz wsd) = map (dayStart tz) (seqZ wsd 7).
Proof.
  unfold weekOf, seqZ. simpl. rewrite !addDays_dayStart.
  repeat (f_equal; try lia).
Qed.

(** The days that a weekly bucket iterates over. *)
Lemma weekDays_of_bucket tz date :
  eachDayOfInterval tz (startOfWeek tz date) (endOfWeek tz date)
  = Some (weekOf (startOfWeek tz date)).
Proof.
  pose proof (startOfWeek_le tz date). pose proof (endOfWeek_ge tz date).
  rewrite eachDayOfInterval_seq by lia.
  rewrite format_day_endOfWeek.
  rewrite startOfWeek_dayStart at 1 2. rewrite format_day_dayStart.
  rewrite startOfWeek_dayStart, weekOf_dayStart.
  do 3 f_equal. lia.
Qed.

Lemma periodCompletionsOf_total tz habits completions_ p date :
  CompletionChart.periodCompletionsOf tz habits completions_ p date
  = Some (bucketCompletions tz habits completions_ p date).
Proof.
  destruct p; simpl; [reflexivity|].
  rewrite weekDays_of_bucket. reflexivity.
Qed.

Lemma chartPoint_total tz habits completions_ p date :
  CompletionChart.chartPoint tz habits completions_ p date
  = Some {| CompletionChart.period := format_day tz date;
            CompletionChart.completions :=
              bucketCompletions tz habits completions_ p date;
            CompletionChart.totalHabits := Z.of_nat (length habits);
            CompletionChart.completionRate :=
              Math_round
                (ratePercent (bucketCompletions tz habits completions_ p date)
                   (Z.of_nat (length habits))) |}.
Proof.
  unfold CompletionChart.chartPoint.
  rewrite periodCompletionsOf_total. reflexivity.
Qed.

Lemma mapM_total {A B} (f : A -> option B) (g : A -> B) (l : list A) :
  (forall x, f x = Some (g x)) -> mapM f l = Some (map g l).
Proof.
  intros Hf. induction l as [|x l IH]; simpl; [reflexivity|].
  rewrite Hf. simpl. rewrite IH. reflexivity.
Qed.

(** The window of a chart: the days or the weeks of its buckets. *)
Lemma chartIntervals_seq tz p days endDate :
  1 <= days ->
  let lastDay := format_day tz endDate in
  let firstDay := lastDay - (days - 1) in
  CompletionChart.chartIntervals tz p days endDate
  = Some (match p with
          | CompletionChart.daily => map (dayStart tz) (seqZ firstDay days)
          | CompletionChart.weekly =>
              map (fun w => dayStart tz (weekStartDay w))
                (seqZ (weekIndex firstDay)
                   (weekIndex lastDay - weekIndex firstDay + 1))
          end).
Proof.
  intros Hdays lastDay firstDay. unfold CompletionChart.chartIntervals.
  pose proof MS_PER_DAY_pos as Hpos.
  assert (subDays endDate (days - 1) <= endDate) as Hle
    by (unfold subDays; nia).
  destruct p.
  - rewrite eachDayOfInterval_seq by exact Hle.
    rewrite format_day_subDays. fold lastDay firstDay.
    do 3 f_equal. lia.
  - pose proof (startOfWeek_le tz (subDays endDate (days - 1))).
    pose proof (endOfWeek_ge tz endDate).
    rewrite eachWeekOfInterval_seq by lia.
    rewrite format_day_endOfWeek, startOfWeek_dayStart, format_day_dayStart.
    rewrite format_day_subDays. fold lastDay firstDay.
    rewrite weekIndex_weekStartDay.
    rewrite weekIndex_saturday. reflexivity.
Qed.

(** The number of weeks a window of [days] days touches. *)
Lemma weeks_touched lastDay days :
  1 <= days ->
  let n := weekIndex lastDay - weekIndex (lastDay - (days - 1)) + 1 in
  Spec.bucketCount days 7 <= n <= Spec.bucketCount days 7 + 1.
Proof.
  intros Hdays n. subst n. unfold weekIndex, Spec.bucketCount.
  pose proof (Z.div_mod (lastDay + 4) 7).
  pose proof (Z.mod_pos_bound (lastDay + 4) 7).
  pose proof (Z.div_mod (lastDay - (days - 1) + 4) 7).
  pose proof (Z.mod_pos_bound (lastDay - (days - 1) + 4) 7).
  pose proof (Z.div_mod (days + 7 - 1) 7).
  pose proof (Z.mod_pos_bound (days + 7 - 1) 7).
  lia.
Qed.

Lemma seqZ_sorted m n : StronglySorted Z.lt (seqZ m n).
Proof.
  destruct (Z.le_gt_cases n 0) as [Hn|Hn];
    [rewrite seqZ_nil by lia; constructor|].
  rewrite <- (Z2Nat.id n) by lia. generalize (Z.to_nat n) as k. clear.
  intros k. revert m. induction k as [|k IH]; intros m.
  - rewrite seqZ_nil by lia. constructor.
  - rewrite seqZ_cons by lia.
    replace (Z.pred (Z.of_nat (S k))) with (Z.of_nat k) by lia.
    constructor; [apply IH|].
    apply Forall_seqZ. intros. lia.
Qed.

Lemma StronglySorted_map_weekStartDay l :
  StronglySorted Z.lt l -> StronglySorted Z.lt (map weekStartDay l).
Proof.
  induction 1 as [|w l Hs IH Hall]; simpl; constructor; [exact IH|].
  rewrite List.Forall_forall in *. intros d Hd.
  apply in_map_iff in Hd as [w' [<- Hw']]. specialize (Hall w' Hw').
  unfold weekStartDay. lia.
Qed.

Lemma mapM_In {A B} (f : A -> option B) (l : list A) (k : list B) (y : B) :
  mapM f l = Some k -> In y k -> exists x, In x l /\ f x = Some y.
Proof.
  intros HM Hy. apply mapM_Some in HM.
  induction HM as [|x y' l k Hxy HF IH]; simpl in *; [contradiction|].
  destruct Hy as [->|Hy].
  - exists x. auto.
  - destruct (IH Hy) as [x' [Hin Hx']]. exists x'. auto.
Qed.

(** C3 (amended). For a window of at least one day the series exists, its
    labels are the days of the window (daily) or the Sundays of the weeks
    the window touches (weekly), oldest first; the daily series has
    [windowDays] buckets and the weekly series has [ceil(windowDays / 7)] or
    one more, whatever the completions are. *)
Theorem C3_trend_bucket_count tz habits completions_ p days endDate :
  1 <= days ->
  let lastDay := format_day tz endDate in
  let firstDay := lastDay - (days - 1) in
  let weeks := weekIndex lastDay - weekIndex firstDay + 1 in
  exists data,
    CompletionChart.chartData tz habits completions_ p days endDate = Some data
    /\ map CompletionChart.period data
       = match p with
         | CompletionChart.daily => seqZ firstDay days
         | CompletionChart.weekly =>
             map weekStartDay (seqZ (weekIndex firstDay) weeks)
         end
    /\ StronglySorted Z.lt (map CompletionChart.period data)
    /\ Z.of_nat (length data)
       = match p with
         | CompletionChart.daily => days
         | CompletionChart.weekly => weeks
         end
    /\ Spec.bucketCount days (Spec.bucketSize p)
       <= Z.of_nat (length data)
       <= Spec.bucketCount days (Spec.bucketSize p)
          + match p with
            | CompletionChart.daily => 0
            | CompletionChart.weekly => 1
            end.
Proof.
  intros Hdays lastDay firstDay weeks.
  pose proof (chartIntervals_seq tz p days endDate Hdays) as Hint.
  cbv zeta in Hint. fold lastDay firstDay weeks in Hint.
  unfold CompletionChart.chartData. rewrite Hint. simpl.
  rewrite (mapM_total _ _ _ (chartPoint_total tz habits completions_ p)).
  eexists. split; [reflexivity|].
  rewrite map_map. simpl.
  assert (weekIndex firstDay <= weekIndex lastDay) as Hw
    by (apply weekIndex_mono; lia).
  pose proof (weeks_touched lastDay days Hdays) as Hweeks.
  cbv zeta in Hweeks. fold firstDay weeks in Hweeks.
  destruct p; rewrite !map_map; simpl.
  - assert (map (fun x => format_day tz (dayStart tz x)) (seqZ firstDay days)
            = seqZ firstDay days) as ->.
    { rewrite <- (map_id (seqZ firstDay days)) at 2.
      apply map_ext. intros. apply format_day_dayStart. }
    split; [reflexivity|]. split; [apply seqZ_sorted|].
    rewrite length_map, length_seqZ.
    unfold Spec.bucketCount. rewrite Z.div_1_r. lia.
  - assert (map (fun x => format_day tz (dayStart tz (weekStartDay x)))
              (seqZ (weekIndex firstDay) weeks)
            = map weekStartDay (seqZ (weekIndex firstDay) weeks)) as ->.
    { apply map_ext. intros. apply format_day_dayStart. }
    split; [reflexivity|].
    split; [apply StronglySorted_map_weekStartDay, seqZ_sorted|].
    rewrite length_map, length_seqZ. lia.
Qed.

Lemma C3_trend_bucket_count_witness :
  exists data,
    CompletionChart.chartData 0 [Examples.run] Examples.runCompletions
      CompletionChart.weekly 7 Examples.wednesdayNoon = Some data
    /\ Z.of_nat (length data) = 2.
Proof.
  destruct (C3_trend_bucket_count 0 [Examples.run] Examples.runCompletions
              CompletionChart.weekly 7 Examples.wednesdayNoon)
    as [data [Hdata [_ [_ [Hlen _]]]]]; [lia|].
  exists data. split; [exact Hdata|]. rewrite Hlen. reflexivity.
Defined.

(** C3, as stated, fails for weekly buckets: a window of 7 days that ends on
    a Wednesday touches two calendar weeks and yields 2 buckets, where
    [ceil(7 / 7)] is 1. *)
Lemma C3_weekly_bucket_count_counterexample :
  exists data,
    CompletionChart.chartData 0 [Examples.run] Examples.runCompletions
      CompletionChart.weekly 7 Examples.wednesdayNoon = Some data
    /\ Z.of_nat (length data)
       <> Spec.bucketCount 7 (Spec.bucketSize CompletionChart.weekly).
Proof.
  eexists. split; [vm_compute; reflexivity|]. vm_compute. discriminate.
Qed.

(** Every interval of a weekly chart is the midnight that starts a week. *)
Lemma weekly_intervals_aligned tz days endDate intervals date :
  CompletionChart.chartIntervals tz CompletionChart.weekly days endDate
  = Some intervals ->
  In date intervals ->
  exists w, date = dayStart tz (weekStartDay w).
Proof.
  unfold CompletionChart.chartIntervals. intros Hint Hdate.
  destruct (Z.le_gt_cases (startOfWeek tz (subDays endDate (days - 1)))
              (endOfWeek tz endDate)) as [Hle|Hgt].
  - rewrite eachWeekOfInterval_seq in Hint by exact Hle.
    injection Hint as <-. apply in_map_iff in Hdate as [w [<- _]].
    exists w. reflexivity.
  - unfold eachWeekOfInterval in Hint.
    destruct (Z.leb_spec (startOfWeek tz (subDays endDate (days - 1)))
                (endOfWeek tz endDate)); [lia|discriminate].
Qed.

Lemma startOfWeek_aligned tz w :
  startOfWeek tz (dayStart tz (weekStartDay w)) = dayStart tz (weekStartDay w).
Proof.
  rewrite startOfWeek_dayStart, format_day_dayStart, weekIndex_weekStartDay.
  reflexivity.
Qed.

(** A point of the chart comes from one of its intervals. *)
Lemma chartData_In tz habits completions_ p days endDate data pt :
  CompletionChart.chartData tz habits completions_ p days endDate = Some data ->
  In pt data ->
  exists intervals date,
    CompletionChart.chartIntervals tz p days endDate = Some intervals
    /\ In date intervals
    /\ CompletionChart.chartPoint tz habits completions_ p date = Some pt.
Proof.
  unfold CompletionChart.chartData. intros Hdata Hpt.
  destruct (CompletionChart.chartIntervals tz p days endDate)
    as [intervals|]; [|discriminate].
  simpl in Hdata.
  destruct (mapM_In _ _ _ _ Hdata Hpt) as [date [Hdate Hpoint]].
  exists intervals, date. auto.
Qed.

(** A habit completed in the week is completed on at least one of its
    days. *)
Lemma distinct_le_habit_days tz habits completions_ weekDays :
  Spec.distinctHabitsCompleted tz habits completions_ weekDays
  <= sumZ (completedDays tz completions_ weekDays) habits.
Proof.
  unfold Spec.distinctHabitsCompleted.
  induction habits as [|h hs IH]; simpl; [lia|].
  assert (0 <= completedDays tz completions_ weekDays h) as Hpos
    by (unfold completedDays; lia).
  destruct (Spec.completedInWeek tz completions_ weekDays h) eqn:Hin; [|lia].
  assert (1 <= completedDays tz completions_ weekDays h);
    [|simpl length; lia].
  unfold Spec.completedInWeek in Hin. unfold completedDays.
  apply existsb_exists in Hin as [day [Hday Hdone]].
  assert (In day
            (List.filter
               (fun day => hasCompletion (completionsOf completions_ h)
                             (format_day tz day)) weekDays)) as Hf
    by (apply filter_In; auto).
  destruct (List.filter _ weekDays); [contradiction|simpl; lia].
Qed.

(** C4 (amended). The count of a weekly bucket is the number of pairs of a
    habit and a day of that week (Sunday to Saturday) on which the habit has
    a completion: a habit completed on [k] days of the week counts [k]
    times, and at least the distinct habits completed are counted. *)
Theorem C4_weekly_count_is_habit_days
    tz habits completions_ days endDate data pt :
  CompletionChart.chartData tz habits completions_ CompletionChart.weekly
    days endDate = Some data ->
  In pt data ->
  let weekDays := weekOf (dayStart tz (CompletionChart.period pt)) in
  getDay tz (dayStart tz (CompletionChart.period pt)) = 0
  /\ CompletionChart.completions pt
     = sumZ (completedDays tz completions_ weekDays) habits
  /\ Spec.distinctHabitsCompleted tz habits completions_ weekDays
     <= CompletionChart.completions pt.
Proof.
  intros Hdata Hpt weekDays.
  destruct (chartData_In _ _ _ _ _ _ _ _ Hdata Hpt)
    as [intervals [date [Hint [Hdate Hpoint]]]].
  destruct (weekly_intervals_aligned _ _ _ _ _ Hint Hdate) as [w ->].
  rewrite chartPoint_total in Hpoint. injection Hpoint as <-.
  simpl in *. subst weekDays.
  rewrite format_day_dayStart, startOfWeek_aligned.
  split; [|split].
  - unfold getDay. rewrite format_day_dayStart. unfold weekStartDay.
    replace (7 * w - 4 + 4) with (w * 7) by lia. apply Z.mod_mul. lia.
  - apply countWeek_by_habit.
  - rewrite countWeek_by_habit. apply distinct_le_habit_days.
Qed.

Lemma C4_weekly_count_is_habit_days_witness :
  exists pt,
    CompletionChart.chartData 0 [Examples.run] Examples.runCompletions
      CompletionChart.weekly 7 Examples.saturdayNoon = Some [pt]
    /\ CompletionChart.completions pt
       = sumZ (completedDays 0 Examples.runCompletions
                 (weekOf (dayStart 0 (CompletionChart.period pt))))
           [Examples.run].
Proof.
  eexists. split; [vm_compute; reflexivity|].
  eapply (C4_weekly_count_is_habit_days 0 [Examples.run]
            Examples.runCompletions 7 Examples.saturdayNoon).
  - vm_compute. reflexivity.
  - left. reflexivity.
Defined.

(** C4, as stated, fails: a single habit completed on three days of one
    week gives the bucket a count of 3, where one distinct habit was
    completed. *)
Lemma C4_distinct_habits_counterexample :
  exists pt,
    CompletionChart.chartData 0 [Examples.run] Examples.runCompletions
      CompletionChart.weekly 7 Examples.saturdayNoon = Some [pt]
    /\ CompletionChart.completions pt = 3
    /\ Spec.distinctHabitsCompleted 0 [Examples.run] Examples.runCompletions
         (weekOf (dayStart 0 (CompletionChart.period pt))) = 1.
Proof.
  eexists. split; [vm_compute; reflexivity|].
  split; vm_compute; reflexivity.
Qed.

(** ** Grouping by category *)

Section MapLemmas.

Context {V : Type}.

Lemma Map_has_keys (g : string -> V) ks c :
  Map_has (map (fun k => (k, g k)) ks) c = bool_decide (c ∈ ks).
Proof.
  induction ks as [|k ks IH]; simpl; [reflexivity|].
  destruct (String.eqb_spec c k) as [->|Hne].
  - symmetry. apply bool_decide_eq_true. left.
  - rewrite IH. apply bool_decide_ext. rewrite elem_of_cons. tauto.
Qed.

Lemma Map_set_fresh (g : string -> V) ks c v :
  c ∉ ks ->
  Map_set (map (fun k => (k, g k)) ks) c v
  = map (fun k => (k, g k)) ks ++ [(c, v)].
Proof.
  induction ks as [|k ks IH]; simpl; intros Hc; [reflexivity|].
  rewrite not_elem_of_cons in Hc. destruct Hc as [Hne Hc].
  destruct (String.eqb_spec c k); [contradiction|].
  rewrite IH by exact Hc. reflexivity.
Qed.

End MapLemmas.

Lemma Map_push_fresh {V} (g : string -> list V) ks c vs x :
  c ∉ ks ->
  Map_push (map (fun k => (k, g k)) ks ++ [(c, vs)]) c x
  = map (fun k => (k, g k)) ks ++ [(c, vs ++ [x])].
Proof.
  induction ks as [|k ks IH]; simpl; intros Hc.
  - rewrite String.eqb_refl. reflexivity.
  - rewrite not_elem_of_cons in Hc. destruct Hc as [Hne Hc].
    destruct (String.eqb_spec c k); [contradiction|].
    rewrite IH by exact Hc. reflexivity.
Qed.

Lemma Map_push_keys {V} (g : string -> list V) ks c x :
  NoDup ks ->
  Map_push (map (fun k => (k, g k)) ks) c x
  = map (fun k => (k, g k ++ if String.eqb c k then [x] else [])) ks.
Proof.
  induction 1 as [|k ks Hk Hnd IH]; simpl; [reflexivity|].
  destruct (String.eqb_spec c k) as [->|Hne].
  - f_equal. apply map_ext_in. intros k' Hk'.
    destruct (String.eqb_spec k k') as [->|_];
      [|rewrite app_nil_r; reflexivity].
    exfalso. apply Hk. apply list_elem_of_In. exact Hk'.
  - rewrite app_nil_r, IH. reflexivity.
Qed.

Lemma firstSeen_snoc l c :
  firstSeen (l ++ [c])
  = if bool_decide (c ∈ l) then firstSeen l else firstSeen l ++ [c].
Proof.
  unfold firstSeen. rewrite reverse_snoc. simpl.
  destruct (decide_rel elem_of c (reverse l)) as [Hin|Hnin].
  - rewrite bool_decide_eq_true_2; [reflexivity|].
    rewrite elem_of_reverse in Hin. exact Hin.
  - rewrite bool_decide_eq_false_2; [rewrite reverse_cons; reflexivity|].
    intros Hin. apply Hnin. rewrite elem_of_reverse. exact Hin.
Qed.

Lemma elem_of_firstSeen l c : c ∈ firstSeen l <-> c ∈ l.
Proof.
  unfold firstSeen.
  rewrite elem_of_reverse, elem_of_remove_dups, elem_of_reverse. reflexivity.
Qed.

Lemma In_firstSeen l c : In c (firstSeen l) <-> In c l.
Proof. rewrite <- !list_elem_of_In. apply elem_of_firstSeen. Qed.

Lemma NoDup_firstSeen l : NoDup (firstSeen l).
Proof.
  unfold firstSeen. rewrite reverse_Permutation. apply NoDup_remove_dups.
Qed.

Lemma habitsIn_snoc c l h :
  habitsIn c (l ++ [h])
  = habitsIn c l ++ if String.eqb (categoryOf h) c then [h] else [].
Proof. unfold habitsIn. rewrite List.filter_app. reflexivity. Qed.

Lemma habitsIn_nil c l : c ∉ map categoryOf l -> habitsIn c l = [].
Proof.
  intros Hc. unfold habitsIn. induction l as [|h l IH]; simpl; [reflexivity|].
  simpl in Hc. rewrite not_elem_of_cons in Hc. destruct Hc as [Hne Hc].
  destruct (String.eqb_spec (categoryOf h) c); [congruence|]. auto.
Qed.

(** The categories appear in the order in which the habits first mention
    them, and each one holds its habits in the order of [habits]. *)
Lemma groupByCategory_spec habits :
  CategoryChart.groupByCategory habits
  = map (fun c => (c, habitsIn c habits)) (firstSeen (map categoryOf habits)).
Proof.
  unfold CategoryChart.groupByCategory.
  induction habits as [|h l IH] using rev_ind; [reflexivity|].
  rewrite fold_left_app. simpl. rewrite IH. clear IH.
  unfold CategoryChart.groupStep.
  rewrite Map_has_keys, List.map_app.
  change (map categoryOf [h]) with [categoryOf h].
  rewrite firstSeen_snoc.
  pose proof (NoDup_firstSeen (map categoryOf l)) as Hnd.
  destruct (bool_decide_reflect
              (categoryOf h ∈ firstSeen (map categoryOf l))) as [Hin|Hnin].
  - rewrite bool_decide_eq_true_2 by (apply elem_of_firstSeen; exact Hin).
    simpl. rewrite Map_push_keys by exact Hnd.
    apply map_ext. intros c. rewrite habitsIn_snoc. reflexivity.
  - rewrite bool_decide_eq_false_2
      by (intros Hc; apply Hnin, elem_of_firstSeen; exact Hc).
    simpl. rewrite Map_set_fresh, Map_push_fresh by exact Hnin.
    rewrite map_app. simpl. f_equal.
    + apply map_ext_in. intros c Hc. rewrite habitsIn_snoc.
      destruct (String.eqb_spec (categoryOf h) c) as [<-|_];
        [|rewrite app_nil_r; reflexivity].
      exfalso. apply Hnin, list_elem_of_In. exact Hc.
    + rewrite habitsIn_snoc, String.eqb_refl.
      rewrite habitsIn_nil; [reflexivity|].
      intros Hc. apply Hnin, elem_of_firstSeen. exact Hc.
Qed.

(** ** Sorting *)

Lemma sortInsert_perm {A} (compareFn : A -> A -> Q) a l :
  Permutation (sortInsert compareFn a l) (a :: l).
Proof.
  induction l as [|b l IH]; simpl; [reflexivity|].
  destruct (Qle_bool (compareFn a b) 0); [reflexivity|].
  rewrite IH. apply perm_swap.
Qed.

Lemma Array_sort_perm {A} (compareFn : A -> A -> Q) l :
  Permutation (Array_sort compareFn l) l.
Proof.
  induction l as [|a l IH]; simpl; [reflexivity|].
  rewrite sortInsert_perm. apply perm_skip. exact IH.
Qed.

Lemma byValueDesc_le a b :
  Qle_bool (CategoryChart.byValueDesc a b) 0 = true <-> descending a b.
Proof.
  unfold CategoryChart.byValueDesc, descending.
  rewrite Qle_bool_iff. split; intros H; lra.
Qed.

Lemma sortInsert_sorted a l :
  StronglySorted descending l ->
  StronglySorted descending (sortInsert CategoryChart.byValueDesc a l).
Proof.
  induction 1 as [|b l Hs IH Hall]; simpl.
  - constructor; constructor.
  - destruct (Qle_bool (CategoryChart.byValueDesc a b) 0) eqn:Hcmp.
    + apply byValueDesc_le in Hcmp.
      constructor; [constructor; assumption|].
      constructor; [exact Hcmp|].
      eapply List.Forall_impl; [|exact Hall].
      unfold descending in *. intros c Hc. lra.
    + constructor; [exact IH|].
      eapply Permutation_Forall; [symmetry; apply sortInsert_perm|].
      constructor; [|exact Hall].
      assert (~ descending a b) as Hn
        by (intros Hd; apply byValueDesc_le in Hd; congruence).
      unfold descending in *. lra.
Qed.

Lemma Array_sort_sorted l :
  StronglySorted descending (Array_sort CategoryChart.byValueDesc l).
Proof.
  induction l as [|a l IH]; simpl; [constructor|].
  apply sortInsert_sorted. exact IH.
Qed.

(** The sort is stable: an entry never moves past an entry of equal
    value. *)
Lemma sortInsert_stable v a l :
  withValue v (sortInsert CategoryChart.byValueDesc a l)
  = withValue v (a :: l).
Proof.
  induction l as [|b l IH]; [reflexivity|].
  cbn [sortInsert].
  destruct (Qle_bool (CategoryChart.byValueDesc a b) 0) eqn:Hcmp;
    [reflexivity|].
  assert (~ descending a b) as Hn
    by (intros Hd; apply byValueDesc_le in Hd; congruence).
  unfold withValue in *. cbn [List.filter] in *. rewrite IH.
  destruct (Qeq_bool (CategoryChart.value a) v) eqn:Ha;
    destruct (Qeq_bool (CategoryChart.value b) v) eqn:Hb; try reflexivity.
  apply Qeq_bool_iff in Ha, Hb. unfold descending in Hn. lra.
Qed.

Lemma Array_sort_stable v l :
  withValue v (Array_sort CategoryChart.byValueDesc l) = withValue v l.
Proof.
  induction l as [|a l IH]; [reflexivity|].
  cbn [Array_sort foldr]. rewrite sortInsert_stable.
  unfold withValue in *. cbn [List.filter].
  fold (Array_sort CategoryChart.byValueDesc l).
  rewrite IH. reflexivity.
Qed.

(** ** Category statistics *)

Lemma rateTotals_sum completions_ now hs :
  CategoryChart.rateTotals completions_ now hs
  = (sumZ (fun h => Z.of_nat (length (completionsOf completions_ h))) hs,
     sumZ (CategoryChart.daysSinceCreation now) hs).
Proof.
  unfold CategoryChart.rateTotals.
  assert (forall acc,
    fold_left (CategoryChart.rateStep completions_ now) hs acc
    = (fst acc
       + sumZ (fun h => Z.of_nat (length (completionsOf completions_ h))) hs,
       snd acc + sumZ (CategoryChart.daysSinceCreation now) hs)) as H.
  { induction hs as [|h hs IH]; intros [a b]; simpl.
    - f_equal; lia.
    - rewrite IH. simpl. f_equal; lia. }
  rewrite H. reflexivity.
Qed.

(** The entries of the chart before sorting: one per category, in the order
    of first appearance. *)
Lemma category_entries completions_ streaks metric habits now :
  map (CategoryChart.categoryEntry completions_ streaks metric now)
    (CategoryChart.groupByCategory habits)
  = map (fun c =>
           CategoryChart.categoryEntry completions_ streaks metric now
             (c, habitsIn c habits))
      (firstSeen (map categoryOf habits)).
Proof. rewrite groupByCategory_spec, map_map. reflexivity. Qed.

Lemma categoryEntry_fields completions_ streaks metric now c hs :
  let e :=
    CategoryChart.categoryEntry completions_ streaks metric now (c, hs) in
  CategoryChart.category e = c
  /\ CategoryChart.count_ e = Z.of_nat (length hs)
  /\ CategoryChart.completionRate e
     = Math_round
         (ratePercent
            (sumZ (fun h => Z.of_nat (length (completionsOf completions_ h))) hs)
            (sumZ (CategoryChart.daysSinceCreation now) hs))
  /\ CategoryChart.value e = metricOf metric e.
Proof.
  unfold CategoryChart.categoryEntry, CategoryChart.categoryEntryFrom.
  cbn [snd]. rewrite rateTotals_sum.
  repeat split; reflexivity.
Qed.

Lemma categoryData_In completions_ streaks metric habits now e :
  In e (CategoryChart.categoryData completions_ streaks metric habits now) <->
  exists c,
    In c (map categoryOf habits)
    /\ e = CategoryChart.categoryEntry completions_ streaks metric now
             (c, habitsIn c habits).
Proof.
  unfold CategoryChart.categoryData. rewrite category_entries.
  split.
  - intros He. apply (Permutation_in _ (Array_sort_perm _ _)) in He.
    apply in_map_iff in He as [c [<- Hc]].
    exists c. split; [|reflexivity].
    apply (proj1 (In_firstSeen _ _)). exact Hc.
  - intros [c [Hc ->]].
    apply (Permutation_in _ (Permutation_sym (Array_sort_perm _ _))).
    apply in_map_iff. exists c. split; [reflexivity|].
    apply (proj2 (In_firstSeen _ _)). exact Hc.
Qed.

Lemma habitsIn_In c habits h :
  In h (habitsIn c habits) <-> In h habits /\ categoryOf h = c.
Proof.
  unfold habitsIn. rewrite filter_In, String.eqb_eq. reflexivity.
Qed.

(** C8 (amended). The output is a rearrangement of the entries, sorted
    descending by the value the metric selects; entries of equal value keep
    the order in which their categories first appear among the habits (the
    sort is stable and compares nothing but the value). *)
Theorem C8_sorted_descending_stable completions_ streaks metric habits now :
  let entries :=
    map (CategoryChart.categoryEntry completions_ streaks metric now)
      (CategoryChart.groupByCategory habits) in
  let data :=
    CategoryChart.categoryData completions_ streaks metric habits now in
  StronglySorted descending data
  /\ Permutation data entries
  /\ (forall e, In e data -> CategoryChart.value e = metricOf metric e)
  /\ map CategoryChart.category entries = firstSeen (map categoryOf habits)
  /\ (forall v, withValue v data = withValue v entries).
Proof.
  intros entries data. subst data. unfold CategoryChart.categoryData.
  fold entries.
  split; [apply Array_sort_sorted|].
  split; [apply Array_sort_perm|].
  split; [|split].
  - intros e He. apply (Permutation_in _ (Array_sort_perm _ _)) in He.
    subst entries. apply in_map_iff in He as [[c hs] [<- _]].
    apply categoryEntry_fields.
  - subst entries. rewrite category_entries, map_map.
    rewrite <- (map_id (firstSeen (map categoryOf habits))) at 2.
    apply map_ext. intros c. apply categoryEntry_fields.
  - intros v. apply Array_sort_stable.
Qed.

Lemma C8_sorted_descending_stable_witness :
  exists e,
    In e (CategoryChart.categoryData ∅ ∅ CategoryChart.count
            [Examples.meditate; Examples.walk] Examples.oneAM)
    /\ CategoryChart.value e = metricOf CategoryChart.count e.
Proof.
  eexists. split; [left; reflexivity|].
  apply (proj1 (proj2 (proj2
           (C8_sorted_descending_stable ∅ ∅ CategoryChart.count
              [Examples.meditate; Examples.walk] Examples.oneAM)))).
  left. reflexivity.
Defined.

(** C8, as stated, fails on ties: two categories with one habit each have
    the same count and stay in the order Mind, Body of their first
    appearance, which is not ascending by name. *)
Lemma C8_ties_by_name_counterexample :
  ~ Spec.tiesByName
      (CategoryChart.categoryData ∅ ∅ CategoryChart.count
         [Examples.meditate; Examples.walk] Examples.oneAM).
Proof.
  intros H. specialize (H 0%nat 1%nat). vm_compute in H.
  specialize (H _ _ eq_refl eq_refl (le_n 1) eq_refl).
  discriminate H.
Qed.

(** ** Reading the clock

    While the clock does not move between the readings of one rendering,
    each component computes the function of the single reading [now] that
    the properties stated for a clock at [now] are about. *)

Section Frozen.

Variable now : Z.

Lemma FrozenAt_ret {A} (a : A) : FrozenAt now (mret a) a.
Proof. intros clock Hclock k. exists k. reflexivity. Qed.

Lemma FrozenAt_bind {A B} (m : Clocked.Run A) (f : A -> Clocked.Run B) a b :
  FrozenAt now m a -> FrozenAt now (f a) b -> FrozenAt now (m ≫= f) b.
Proof.
  intros Hm Hf clock Hclock k.
  destruct (Hm clock Hclock k) as [k1 Hk1].
  destruct (Hf clock Hclock k1) as [k2 Hk2].
  exists k2. unfold mbind, Clocked.Run_bind. rewrite Hk1. exact Hk2.
Qed.

Lemma FrozenAt_now : FrozenAt now Clocked.Date_now now.
Proof.
  intros clock Hclock k. exists (S k).
  unfold Clocked.Date_now. rewrite Hclock. reflexivity.
Qed.

Lemma FrozenAt_forEach {A B} (body : A -> B -> Clocked.Run A)
    (f : A -> B -> A) l :
  (forall a x, FrozenAt now (body a x) (f a x)) ->
  forall a, FrozenAt now (Clocked.forEach body l a) (fold_left f l a).
Proof.
  intros Hbody. induction l as [|x l IH]; intros a; simpl.
  - apply FrozenAt_ret.
  - eapply FrozenAt_bind; [apply Hbody | apply IH].
Qed.

Lemma FrozenAt_arrayMap {A B} (f : A -> Clocked.Run B) (g : A -> B) l :
  (forall x, FrozenAt now (f x) (g x)) ->
  FrozenAt now (Clocked.arrayMap f l) (map g l).
Proof.
  intros Hf. induction l as [|x l IH]; simpl.
  - apply FrozenAt_ret.
  - eapply FrozenAt_bind; [apply Hf|].
    eapply FrozenAt_bind; [apply IH | apply FrozenAt_ret].
Qed.

(** Under a frozen clock a body that reads the clock once is the body that
    is handed the reading. *)
Lemma FrozenAt_read {A} (f : Z -> A) :
  FrozenAt now (n ← Clocked.Date_now; mret (f n)) (f now).
Proof. eapply FrozenAt_bind; [apply FrozenAt_now | apply FrozenAt_ret]. Qed.

Context (tz : Z) (habits : list HabitResponse)
        (completions_ : gmap Z (list CompletionResponse))
        (streaks : gmap Z StreakResponse).

Lemma FrozenAt_completionChartData p days :
  FrozenAt now (Clocked.completionChartData tz habits completions_ p days)
    (CompletionChart.chartData tz habits completions_ p days now).
Proof.
  apply (FrozenAt_read
           (CompletionChart.chartData tz habits completions_ p days)).
Qed.

Lemma FrozenAt_streakChartData selectedHabitIds days :
  FrozenAt now
    (Clocked.streakChartData tz habits completions_ selectedHabitIds days)
    (StreakChart.chartData tz habits completions_ selectedHabitIds days now).
Proof.
  apply (FrozenAt_read
           (StreakChart.chartData tz habits completions_ selectedHabitIds
              days)).
Qed.

Lemma FrozenAt_categoryData metric :
  FrozenAt now (Clocked.categoryData habits completions_ streaks metric)
    (CategoryChart.categoryData completions_ streaks metric habits now).
Proof.
  unfold Clocked.categoryData, CategoryChart.categoryData.
  eapply FrozenAt_bind; [|apply FrozenAt_ret].
  apply FrozenAt_arrayMap. intros entry.
  unfold Clocked.categoryEntry, CategoryChart.categoryEntry.
  eapply FrozenAt_bind; [|apply FrozenAt_ret].
  unfold CategoryChart.rateTotals.
  apply (FrozenAt_forEach _ (CategoryChart.rateStep completions_ now)).
  intros acc habit.
  apply (FrozenAt_read
           (fun n => CategoryChart.rateStep completions_ n acc habit)).
Qed.

Lemma FrozenAt_stats :
  FrozenAt now (Clocked.stats tz habits completions_ streaks)
    (ProgressSummary.stats tz completions_ streaks habits now).
Proof.
  unfold Clocked.stats, ProgressSummary.stats.
  eapply FrozenAt_bind; [apply FrozenAt_now|].
  eapply FrozenAt_bind.
  - apply (FrozenAt_forEach _
             (ProgressSummary.habitStep tz completions_ (subDays now 7) now)).
    intros c habit. unfold Clocked.habitStep, ProgressSummary.habitStep.
    apply (FrozenAt_forEach _
             (ProgressSummary.completionStep tz (subDays now 7) now)).
    intros c' completion.
    apply (FrozenAt_read
             (fun n => ProgressSummary.completionStep tz (subDays now 7) n
                         c' completion)).
  - eapply FrozenAt_bind; [|apply FrozenAt_ret].
    destruct habits as [|first rest]; [apply FrozenAt_ret|].
    apply (FrozenAt_read
             (ProgressSummary.daysSinceOldestHabit (first :: rest))).
Qed.

Lemma FrozenAt_analytics selectedHabitIds days p metric :
  FrozenAt now
    (Clocked.analytics tz habits completions_ streaks selectedHabitIds days
       p metric)
    (analyticsAt tz habits completions_ streaks selectedHabitIds days
       p metric now).
Proof.
  unfold Clocked.analytics, analyticsAt.
  eapply FrozenAt_bind; [apply FrozenAt_stats|].
  eapply FrozenAt_bind; [apply FrozenAt_streakChartData|].
  eapply FrozenAt_bind; [apply FrozenAt_completionChartData|].
  eapply FrozenAt_bind; [apply FrozenAt_categoryData|].
  apply FrozenAt_ret.
Qed.

End Frozen.

Lemma FrozenAt_run {A} now (m : Clocked.Run A) v clock :
  FrozenAt now m v -> (forall k, clock k = now) -> Clocked.run m clock = v.
Proof.
  intros Hm Hclock. unfold Clocked.run.
  destruct (Hm clock Hclock 0%nat) as [k' ->]. reflexivity.
Qed.

(** ** Loop invariants under any clock *)

Lemma forEach_invariant {A B} (P : A -> Prop) (body : A -> B -> Clocked.Run A)
    (l : list B) :
  (forall a x clock k, P a -> P (fst (body a x clock k))) ->
  forall a clock k, P a -> P (fst (Clocked.forEach body l a clock k)).
Proof.
  intros Hbody. induction l as [|x l IH]; intros a clock k Ha; simpl.
  - exact Ha.
  - unfold mbind, Clocked.Run_bind.
    specialize (Hbody a x clock k Ha).
    destruct (body a x clock k) as [a' k']. apply IH. exact Hbody.
Qed.

(** The summary is assembled from the counters that the loop leaves. *)
Lemma stats_shape tz habits completions_ streaks clock :
  exists c daysSinceOldest,
    Clocked.run (Clocked.stats tz habits completions_ streaks) clock
    = ProgressSummary.statsOf streaks habits c daysSinceOldest
    /\ c = fst (Clocked.forEach
                  (Clocked.habitStep tz completions_
                     (subDays (clock 0%nat) 7))
                  habits (ProgressSummary.mkCounters 0 0 0 0) clock 1%nat).
Proof.
  unfold Clocked.run, Clocked.stats, mbind, Clocked.Run_bind, Clocked.Date_now.
  destruct (Clocked.forEach _ habits _ clock 1%nat) as [c k2].
  destruct habits as [|first rest]; simpl; eexists _, _; split; reflexivity.
Qed.

Lemma completionStep_yesterday tz weekAgo n c completion :
  ProgressSummary.c_yesterday
    (ProgressSummary.completionStep tz weekAgo n c completion)
  = ProgressSummary.c_yesterday c.
Proof.
  unfold ProgressSummary.completionStep.
  destruct (isToday tz n _); destruct (weekAgo <=? _); reflexivity.
Qed.

Lemma completionStep_nonneg tz weekAgo n c completion :
  0 <= ProgressSummary.c_week c /\ 0 <= ProgressSummary.c_total c ->
  0 <= ProgressSummary.c_week
         (ProgressSummary.completionStep tz weekAgo n c completion)
  /\ 0 <= ProgressSummary.c_total
            (ProgressSummary.completionStep tz weekAgo n c completion).
Proof.
  unfold ProgressSummary.completionStep.
  destruct (isToday tz n _); destruct (weekAgo <=? _); simpl; lia.
Qed.

(** The loop of ProgressSummary never touches [yesterdayCompletions], and
    keeps its other counters from falling below zero. *)
Lemma stats_loop_invariant tz completions_ weekAgo habits clock k :
  let c := fst (Clocked.forEach (Clocked.habitStep tz completions_ weekAgo)
                  habits (ProgressSummary.mkCounters 0 0 0 0) clock k) in
  ProgressSummary.c_yesterday c = 0
  /\ 0 <= ProgressSummary.c_week c /\ 0 <= ProgressSummary.c_total c.
Proof.
  apply (forEach_invariant
           (fun c => ProgressSummary.c_yesterday c = 0
                     /\ 0 <= ProgressSummary.c_week c
                     /\ 0 <= ProgressSummary.c_total c));
    [|simpl; lia].
  intros c habit clock' k' Hc. unfold Clocked.habitStep.
  apply (forEach_invariant
           (fun c => ProgressSummary.c_yesterday c = 0
                     /\ 0 <= ProgressSummary.c_week c
                     /\ 0 <= ProgressSummary.c_total c));
    [|unfold ProgressSummary.addTotal; simpl; lia].
  intros c' completion clock'' k'' [Hy Hpos].
  unfold mbind, Clocked.Run_bind, Clocked.Date_now, mret, Clocked.Run_ret.
  cbn [fst]. rewrite completionStep_yesterday.
  split; [exact Hy | apply completionStep_nonneg; exact Hpos].
Qed.

(** C10. Under every clock and for every input the summary reports 0
    completions for yesterday, so the text above "vs Yesterday" is today's
    count, with a plus sign when that count is positive. *)
Theorem C10_yesterday_is_never_counted tz habits completions_ streaks clock :
  let s := Clocked.run (Clocked.stats tz habits completions_ streaks) clock in
  ProgressSummary.yesterdayCompletions s = 0
  /\ ProgressSummary.vsYesterday s
     = (if 0 <? ProgressSummary.todayCompletions s then "+" else "",
        ProgressSummary.todayCompletions s).
Proof.
  intros s.
  destruct (stats_shape tz habits completions_ streaks clock)
    as [c [d [Hs Hc]]].
  assert (ProgressSummary.yesterdayCompletions s = 0) as Hy.
  { subst s. rewrite Hs, Hc. apply stats_loop_invariant. }
  split; [exact Hy|].
  unfold ProgressSummary.vsYesterday. rewrite Hy. f_equal. lia.
Qed.

(** ** The category rate under any clock *)









(** Two habits of one category, thirty days old when the clock passes
    midnight between the two readings: the first counts 30 possible days,
    the second 31, and 30 completions make a rate of 49; a clock standing
    at either reading gives 50 or 48. *)
Example category_rate_between_readings :
  map CategoryChart.completionRate
    (Clocked.run
       (Clocked.categoryData [Examples.swim; Examples.yoga] Cases.thirtyDays
          ∅ CategoryChart.completion_rate)
       Cases.overMidnight) = [49]
  /\ map CategoryChart.completionRate
       (Clocked.run
          (Clocked.categoryData [Examples.swim; Examples.yoga]
             Cases.thirtyDays ∅ CategoryChart.completion_rate)
          (Examples.stoppedClock (Cases.overMidnight 0))) = [50]
  /\ map CategoryChart.completionRate
       (Clocked.run
          (Clocked.categoryData [Examples.swim; Examples.yoga]
             Cases.thirtyDays ∅ CategoryChart.completion_rate)
          (Examples.stoppedClock (Cases.overMidnight 1))) = [48].
Proof. repeat split; vm_compute; reflexivity. Qed.


(** ** Rates above 100 *)

(** C5. The rates leave the interval from 0 to 100.  A habit completed on
    three days of one week gives that week's bucket of the trend a rate of
    300: the bucket counts habit-days and divides them by the number of
    habits.  A habit completed on each of the last eight local days, seen
    half an hour after local midnight east of UTC, has a weekly rate of 114
    in the summary: eight dates fall within the last seven times 24 hours.  A
    habit two hours old with completions on both of its calendar days has an
    overall rate and a category rate of 200: one possible completion is
    counted for it. *)
Theorem C5_rates_above_100 :
  (exists pt,
     Clocked.run
       (Clocked.completionChartData 0 [Examples.run]
          Examples.runCompletions CompletionChart.weekly 7)
       (Examples.stoppedClock Examples.saturdayNoon) = Some [pt]
     /\ CompletionChart.completions pt = 3
     /\ CompletionChart.totalHabits pt = 1
     /\ CompletionChart.completionRate pt = 300)
  /\ (let s :=
        Clocked.run
          (Clocked.stats Examples.eastOffset [Examples.swim]
             Examples.eightDays ∅)
          (Examples.stoppedClock Examples.halfPastMidnight) in
      ProgressSummary.weekCompletions s = 8
      /\ ProgressSummary.weeklyCompletionRate s = 114)
  /\ (let s :=
        Clocked.run
          (Clocked.stats 0 [Examples.lateHabit] Examples.lateTwo ∅)
          (Examples.stoppedClock Examples.oneAM) in
      ProgressSummary.totalCompletions s = 2
      /\ ProgressSummary.completionRate s = 200)
  /\ (exists e,
        Clocked.run
          (Clocked.categoryData [Examples.lateHabit] Examples.lateTwo ∅
             CategoryChart.completion_rate)
          (Examples.stoppedClock Examples.oneAM) = [e]
        /\ CategoryChart.completionRate e = 200).
Proof.
  split; [|split; [|split]].
  - eexists. repeat split; vm_compute; reflexivity.
  - split; vm_compute; reflexivity.
  - split; vm_compute; reflexivity.
  - eexists. split; vm_compute; reflexivity.
Qed.

(** ** The streak series *)

Section StreakSeries.

Context (tz : Z) (completions_ : gmap Z (list CompletionResponse)) (date : Z).

Lemma dataPoint_untouched shown key :
  forall dataPoint,
    ~ In key (map name shown) ->
    fold_left (StreakChart.writeStreak tz completions_ date) shown dataPoint
      !! key
    = dataPoint !! key.
Proof.
  induction shown as [|h hs IH]; intros dataPoint Hkey; simpl; [reflexivity|].
  simpl in Hkey. rewrite IH by tauto.
  unfold StreakChart.writeStreak.
  destruct (String.eqb (name h) "__proto__"); [reflexivity|].
  apply lookup_insert_ne. tauto.
Qed.

(** No habit writes under the key [__proto__]. *)
Lemma dataPoint_proto shown :
  forall dataPoint,
    fold_left (StreakChart.writeStreak tz completions_ date) shown dataPoint
      !! "__proto__"
    = dataPoint !! "__proto__".
Proof.
  induction shown as [|h hs IH]; intros dataPoint; simpl; [reflexivity|].
  rewrite IH. unfold StreakChart.writeStreak.
  destruct (String.eqb_spec (name h) "__proto__") as [Heq|Hne];
    [reflexivity|].
  apply lookup_insert_ne. exact Hne.
Qed.

Lemma dataPoint_written shown habit :
  forall dataPoint,
    In habit shown ->
    List.NoDup (map name shown) ->
    fold_left (StreakChart.writeStreak tz completions_ date) shown dataPoint
      !! name habit
    = if String.eqb (name habit) "__proto__" then dataPoint !! "__proto__"
      else Some (StreakChart.StreakValue
                   (streakUpTo tz habit (completionsOf completions_ habit)
                      date)).
Proof.
  intros dataPoint Hin Hnd.
  destruct (String.eqb_spec (name habit) "__proto__") as [Heq|Hne];
    [rewrite Heq; apply dataPoint_proto|].
  revert dataPoint Hin Hnd.
  induction shown as [|h hs IH]; intros dataPoint Hin Hnd; simpl;
    [contradiction|].
  simpl in Hnd. apply NoDup_cons_iff in Hnd. destruct Hnd as [Hh Hnd].
  destruct Hin as [->|Hin].
  - rewrite dataPoint_untouched by exact Hh.
    unfold StreakChart.writeStreak.
    destruct (String.eqb_spec (name habit) "__proto__"); [contradiction|].
    apply lookup_insert_eq.
  - apply IH; assumption.
Qed.

End StreakSeries.

(** Each point of the streak series holds, under the name of every habit
    shown, the streak the walk finds for the point's date, provided the
    names shown are distinct; a habit named [__proto__] leaves nothing in
    the point. *)
Lemma streakChart_point tz habits completions_ selectedHabitIds date habit :
  In habit (habitsToShow habits selectedHabitIds) ->
  List.NoDup (map name (habitsToShow habits selectedHabitIds)) ->
  StreakChart.dataPoint tz habits completions_ selectedHabitIds date
    !! name habit
  = if String.eqb (name habit) "__proto__" then None
    else Some (StreakChart.StreakValue
                 (streakUpTo tz habit (completionsOf completions_ habit)
                    date)).
Proof.
  intros Hin Hnd. unfold StreakChart.dataPoint.
  rewrite (dataPoint_written tz completions_ date _ habit _ Hin Hnd).
  destruct (String.eqb (name habit) "__proto__"); reflexivity.
Qed.

(** The streak series has one point for each day of the window. *)
Lemma streakChart_length tz habits completions_ selectedHabitIds days endDate :
  1 <= days ->
  exists data,
    StreakChart.chartData tz habits completions_ selectedHabitIds days endDate
    = Some data
    /\ Z.of_nat (length data) = days.
Proof.
  intros Hdays. unfold StreakChart.chartData.
  pose proof MS_PER_DAY_pos.
  rewrite eachDayOfInterval_seq by (unfold subDays; nia).
  simpl. eexists. split; [reflexivity|].
  rewrite !length_map, length_seqZ, format_day_subDays. lia.
Qed.

(** ** The scenarios of the specification *)

(** Completions on 01-01, 01-02, 01-03, a gap, 01-05 and 01-06: on 01-06
    the walk counts 2 days and the longest run has 3. *)
Example scenario_gap :
  streakUpTo 0 Examples.run Examples.gapCompletions
    (dayStart 0 (Examples.jan01 + 5)) = 2
  /\ Spec.longestStreak Examples.gapCompletions = 3.
Proof. split; vm_compute; reflexivity. Qed.

(** Seven daily buckets, one habit, completions on the first and the last
    day of the window. *)
Example scenario_daily_trend :
  exists data,
    CompletionChart.chartData 0 [Examples.run] Examples.firstAndLast
      CompletionChart.daily 7 Examples.wednesdayNoon = Some data
    /\ map CompletionChart.completions data = [1; 0; 0; 0; 0; 0; 1]
    /\ map CompletionChart.completionRate data = [100; 0; 0; 0; 0; 0; 100].
Proof. eexists. repeat split; vm_compute; reflexivity. Qed.

(** Two habits in Health with streaks 5 and 3: the average is 4.0. *)
Example scenario_average_streak :
  exists e,
    CategoryChart.categoryData ∅ Examples.healthStreaks
      CategoryChart.average_streak [Examples.swim; Examples.yoga]
      Examples.oneAM = [e]
    /\ CategoryChart.category e = "Health"
    /\ (CategoryChart.averageStreak e == 4)%Q.
Proof. eexists. repeat split; vm_compute; reflexivity. Qed.

(** * Further properties of the code *)

(** ** The streak walk, day by day *)

Lemma streakLoop_bounds tz habit cs fuel : forall streak date,
  streak <= streakLoop tz fuel habit cs streak date <= streak + Z.of_nat fuel.
Proof.
  induction fuel as [|fuel IH]; intros streak date; simpl; [lia|].
  destruct (created_at habit <=? date); [|lia].
  destruct (hasCompletion cs (format_day tz date)); [|lia].
  specialize (IH (streak + 1) (subDays date 1)). lia.
Qed.

(** One turn of the loop, free of fuel. *)
Lemma streakUpTo_unfold tz habit cs date :
  streakUpTo tz habit cs date
  = if created_at habit <=? date then
      if hasCompletion cs (format_day tz date)
      then 1 + streakUpTo tz habit cs (subDays date 1)
      else 0
    else 0.
Proof.
  set (n := (streakFuel habit date + streakFuel habit (subDays date 1))%nat).
  rewrite (streakUpTo_any_fuel tz habit cs date (S n)) by lia.
  rewrite (streakUpTo_any_fuel tz habit cs (subDays date 1) n) by lia.
  simpl. rewrite (streakLoop_acc tz habit cs n (0 + 1)). reflexivity.
Qed.

(** X1. From one chart day to the next the streak of a habit either grows
    by exactly one (the next day has a completion and its midnight is not
    before the creation time) or falls to zero. *)
Theorem X1_streak_steps_or_resets tz habit cs d :
  streakUpTo tz habit cs (dayStart tz (d + 1))
  = if (created_at habit <=? dayStart tz (d + 1)) && hasCompletion cs (d + 1)
    then streakUpTo tz habit cs (dayStart tz d) + 1
    else 0.
Proof.
  rewrite streakUpTo_unfold, format_day_dayStart, subDays_dayStart.
  replace (d + 1 - 1) with d by lia.
  destruct (created_at habit <=? dayStart tz (d + 1)); simpl; [|reflexivity].
  destruct (hasCompletion cs (d + 1)); [lia|reflexivity].
Qed.

(** The walk from [date] down to its end, by the distance to the creation
    time. *)
Lemma streak_run_by_distance tz habit cs (n : nat) : forall date,
  date - Z.of_nat n * MS_PER_DAY < created_at habit ->
  let k := streakUpTo tz habit cs date in
  0 <= k
  /\ (forall i, 0 <= i < k ->
        hasCompletion cs (format_day tz date - i) = true
        /\ created_at habit <= subDays date i)
  /\ (created_at habit <= subDays date k ->
      hasCompletion cs (format_day tz date - k) = false).
Proof.
  pose proof MS_PER_DAY_pos as Hpos.
  induction n as [|n IH]; intros date Hn; cbv zeta;
    rewrite streakUpTo_unfold.
  - destruct (Z.leb_spec (created_at habit) date); [lia|].
    split; [lia|]. split; [lia|]. unfold subDays. lia.
  - destruct (Z.leb_spec (created_at habit) date) as [Hle|Hgt].
    + destruct (hasCompletion cs (format_day tz date)) eqn:Hhas.
      * destruct (IH (subDays date 1)) as [H0 [Hrun Hstop]];
          [unfold subDays; lia|].
        split; [lia|]. split.
        -- intros i Hi. destruct (Z.eq_dec i 0) as [->|Hne].
           ++ rewrite Z.sub_0_r. unfold subDays.
              split; [exact Hhas | lia].
           ++ destruct (Hrun (i - 1)) as [Hc Hcreated]; [lia|].
              rewrite format_day_subDays in Hc.
              replace (format_day tz date - 1 - (i - 1))
                with (format_day tz date - i) in Hc by lia.
              split; [exact Hc|]. unfold subDays in *. lia.
        -- intros Hcreated.
           rewrite format_day_subDays in Hstop.
           replace (format_day tz date
                    - (1 + streakUpTo tz habit cs (subDays date 1)))
             with (format_day tz date - 1
                   - streakUpTo tz habit cs (subDays date 1)) by lia.
           apply Hstop. unfold subDays in *. lia.
      * split; [lia|]. split; [lia|].
        intros _. rewrite Z.sub_0_r. exact Hhas.
    + split; [lia|]. split; [lia|]. unfold subDays. lia.
Qed.

(** X2. The streak the walk returns for a date is a run: each of that many
    days ending on the date has a completion and starts no earlier than
    the creation time, and the day before the run either has no completion
    or would start before the creation time. *)
Theorem X2_streak_is_a_maximal_run tz habit cs date :
  let k := streakUpTo tz habit cs date in
  0 <= k
  /\ (forall i, 0 <= i < k ->
        hasCompletion cs (format_day tz date - i) = true
        /\ created_at habit <= subDays date i)
  /\ (created_at habit <= subDays date k ->
      hasCompletion cs (format_day tz date - k) = false).
Proof.
  apply (streak_run_by_distance tz habit cs (streakFuel habit date)).
  apply streakFuel_enough.
Qed.

Lemma X2_streak_is_a_maximal_run_witness :
  hasCompletion Examples.gapCompletions
    (format_day 0 (dayStart 0 (Examples.jan01 + 5))
     - streakUpTo 0 Examples.run Examples.gapCompletions
         (dayStart 0 (Examples.jan01 + 5))) = false.
Proof.
  apply (X2_streak_is_a_maximal_run 0 Examples.run Examples.gapCompletions
           (dayStart 0 (Examples.jan01 + 5))).
  vm_compute. discriminate.
Defined.

(** X3. The streak is never negative and never larger than the number of
    calendar days from the day of the creation time to the day of the date,
    both counted; for a date before the creation time it is 0. *)
Theorem X3_streak_bounded_by_calendar_days tz habit cs date :
  0 <= streakUpTo tz habit cs date
    <= Z.max 0 (format_day tz date - format_day tz (created_at habit) + 1)
  /\ (date < created_at habit -> streakUpTo tz habit cs date = 0).
Proof.
  destruct (streak_run_by_distance tz habit cs (streakFuel habit date) date
              (streakFuel_enough habit date)) as [Hpos [Hrun _]].
  split; [split; [exact Hpos|]|].
  - destruct (Z.eq_dec (streakUpTo tz habit cs date) 0) as [->|Hne]; [lia|].
    destruct (Hrun (streakUpTo tz habit cs date - 1)) as [_ Hcreated];
      [lia|].
    apply (format_day_mono tz) in Hcreated.
    rewrite format_day_subDays in Hcreated. lia.
  - intros Hlt. rewrite streakUpTo_unfold.
    destruct (Z.leb_spec (created_at habit) date); [lia|reflexivity].
Qed.

Lemma X3_streak_bounded_by_calendar_days_witness :
  streakUpTo 0 Examples.run Examples.threeDays (dayStart 0 Examples.jan01) = 0.
Proof.
  apply (X3_streak_bounded_by_calendar_days 0 Examples.run
           Examples.threeDays (dayStart 0 Examples.jan01)).
  vm_compute. reflexivity.
Defined.

(** ** The points of the streak series *)

Lemma dataPoint_overwritten tz completions_ date shown key :
  key <> "__proto__" ->
  In key (map name shown) ->
  forall dataPoint, exists streak,
    fold_left (StreakChart.writeStreak tz completions_ date) shown dataPoint
      !! key
    = Some (StreakChart.StreakValue streak).
Proof.
  intros Hproto.
  induction shown as [|h hs IH]; intros Hkey dataPoint; simpl in *;
    [contradiction|].
  destruct (in_dec String.string_dec key (map name hs)) as [Hin|Hnin].
  - apply IH. exact Hin.
  - destruct Hkey as [<-|Hin]; [|contradiction].
    rewrite dataPoint_untouched by exact Hnin.
    unfold StreakChart.writeStreak.
    destruct (String.eqb_spec (name h) "__proto__"); [contradiction|].
    rewrite lookup_insert_eq. eauto.
Qed.

(** X4. A point of the streak series keeps the display date under the key
    [date] as long as no habit shown is named like that key; a habit shown
    that is named [date] replaces the display date by a streak. *)
Theorem X4_date_key_of_point tz habits completions_ selectedHabitIds date :
  let shown := habitsToShow habits selectedHabitIds in
  let point :=
    StreakChart.dataPoint tz habits completions_ selectedHabitIds date in
  ((forall h, In h shown -> name h <> "date") ->
   point !! "date" = Some (StreakChart.DisplayDate (format_day tz date)))
  /\ ((exists h, In h shown /\ name h = "date") ->
      exists streak, point !! "date" = Some (StreakChart.StreakValue streak)).
Proof.
  intros shown point. subst point. unfold StreakChart.dataPoint.
  fold shown. split.
  - intros Hnames. rewrite dataPoint_untouched.
    + apply lookup_singleton_eq.
    + intros Hin. apply in_map_iff in Hin as [h [Hname Hh]].
      exact (Hnames h Hh Hname).
  - intros [h [Hh Hname]]. apply dataPoint_overwritten; [discriminate|].
    rewrite <- Hname. apply in_map. exact Hh.
Qed.

Lemma X4_date_key_of_point_witness :
  exists streak,
    StreakChart.dataPoint 0 [Cases.dateHabit] ∅ None
      (dayStart 0 Examples.jan01) !! "date"
    = Some (StreakChart.StreakValue streak).
Proof.
  apply (proj2 (X4_date_key_of_point 0 [Cases.dateHabit] ∅ None
                  (dayStart 0 Examples.jan01))).
  exists Cases.dateHabit. split; [left|]; reflexivity.
Defined.

(** X5. When the habits shown have distinct names, a point of the streak
    series holds under the name of each of them the streak that the walk
    finds for that habit on the point's date; except for a habit named
    [__proto__], which leaves no entry in the point. *)
Theorem X5_point_holds_each_streak
    tz habits completions_ selectedHabitIds date habit :
  In habit (habitsToShow habits selectedHabitIds) ->
  List.NoDup (map name (habitsToShow habits selectedHabitIds)) ->
  StreakChart.dataPoint tz habits completions_ selectedHabitIds date
    !! name habit
  = if String.eqb (name habit) "__proto__" then None
    else Some (StreakChart.StreakValue
                 (streakUpTo tz habit (completionsOf completions_ habit)
                    date)).
Proof. apply streakChart_point. Qed.

Lemma X5_point_holds_each_streak_witness :
  StreakChart.dataPoint 0 [Examples.run; Cases.protoHabit]
    Examples.runCompletions None (dayStart 0 (Examples.jan01 + 2))
    !! "Run"
  = Some (StreakChart.StreakValue 2)
  /\ StreakChart.dataPoint 0 [Examples.run; Cases.protoHabit]
       Examples.runCompletions None (dayStart 0 (Examples.jan01 + 2))
       !! "__proto__"
     = None.
Proof.
  assert (List.NoDup
            (map name (habitsToShow [Examples.run; Cases.protoHabit] None)))
    as Hnames
    by (simpl; repeat constructor; simpl; intuition discriminate).
  split.
  - apply (X5_point_holds_each_streak 0 [Examples.run; Cases.protoHabit]
             Examples.runCompletions None (dayStart 0 (Examples.jan01 + 2))
             Examples.run); [left; reflexivity | exact Hnames].
  - apply (X5_point_holds_each_streak 0 [Examples.run; Cases.protoHabit]
             Examples.runCompletions None (dayStart 0 (Examples.jan01 + 2))
             Cases.protoHabit); [right; left; reflexivity | exact Hnames].
Defined.



(** ** Buckets of the trend *)

Lemma sumZ_map {A B} (f : B -> Z) (g : A -> B) l :
  sumZ f (map g l) = sumZ (fun x => f (g x)) l.
Proof. induction l as [|x l IH]; simpl; [reflexivity|]. rewrite IH. lia. Qed.

Lemma sumZ_ext {A} (f g : A -> Z) l :
  (forall x, In x l -> f x = g x) -> sumZ f l = sumZ g l.
Proof.
  induction l as [|x l IH]; intros H; simpl; [reflexivity|].
  rewrite (H x) by (left; reflexivity). rewrite IH; [reflexivity|].
  intros y Hy. apply H. right. exact Hy.
Qed.

(** X7. The count of a weekly bucket is the sum of the counts that the
    daily view gives to the seven days of that week. *)
Theorem X7_weekly_bucket_sums_daily tz habits completions_ date week days :
  CompletionChart.chartPoint tz habits completions_ CompletionChart.weekly
    date = Some week ->
  mapM (CompletionChart.chartPoint tz habits completions_
          CompletionChart.daily)
    (weekOf (startOfWeek tz date)) = Some days ->
  length days = 7%nat
  /\ CompletionChart.completions week
     = sumZ CompletionChart.completions days.
Proof.
  intros Hweek Hdays.
  rewrite chartPoint_total in Hweek. injection Hweek as <-.
  rewrite (mapM_total _ _ _
             (chartPoint_total tz habits completions_ CompletionChart.daily))
    in Hdays.
  match type of Hdays with
  | Some ?l = _ => assert (days = l) as -> by congruence
  end.
  split; [reflexivity|].
  rewrite sumZ_map. cbn [CompletionChart.completions bucketCompletions].
  apply countWeek_sum.
Qed.

Lemma X7_weekly_bucket_sums_daily_witness :
  exists week days,
    CompletionChart.chartPoint 0 [Examples.run] Examples.runCompletions
      CompletionChart.weekly Examples.saturdayNoon = Some week
    /\ CompletionChart.completions week
       = sumZ CompletionChart.completions days
    /\ CompletionChart.completions week = 3.
Proof.
  eexists _, _. split; [vm_compute; reflexivity|].
  split; [|reflexivity].
  eapply (X7_weekly_bucket_sums_daily 0 [Examples.run]
            Examples.runCompletions Examples.saturdayNoon);
    vm_compute; reflexivity.
Defined.

Lemma countDay_snoc habits completions_ h acc dayStr :
  CompletionChart.countDay (habits ++ [h]) completions_ acc dayStr
  = CompletionChart.countDay habits completions_ acc dayStr
    + if hasCompletion (completionsOf completions_ h) dayStr then 1 else 0.
Proof.
  unfold CompletionChart.countDay. rewrite fold_left_app. simpl.
  destruct (hasCompletion (completionsOf completions_ h) dayStr); lia.
Qed.

(** X8. A habit that has no entry in the completions (or an empty one) adds
    nothing to the count of any bucket, daily or weekly; it only raises
    the number of habits the count is divided by. *)
Theorem X8_habit_without_completions
    tz habits completions_ h p date before after :
  completionsOf completions_ h = [] ->
  CompletionChart.chartPoint tz habits completions_ p date = Some before ->
  CompletionChart.chartPoint tz (habits ++ [h]) completions_ p date
  = Some after ->
  CompletionChart.completions after = CompletionChart.completions before
  /\ CompletionChart.totalHabits after
     = CompletionChart.totalHabits before + 1
  /\ CompletionChart.period after = CompletionChart.period before.
Proof.
  intros Hnone Hbefore Hafter.
  rewrite chartPoint_total in Hbefore, Hafter.
  injection Hbefore as <-. injection Hafter as <-. simpl.
  split; [|split; [rewrite length_app; simpl; lia | reflexivity]].
  assert (forall acc dayStr,
            CompletionChart.countDay (habits ++ [h]) completions_ acc dayStr
            = CompletionChart.countDay habits completions_ acc dayStr)
    as Hday.
  { intros acc dayStr. rewrite countDay_snoc, Hnone. simpl. lia. }
  destruct p; simpl; [apply Hday|].
  unfold CompletionChart.countWeek.
  generalize (weekOf (startOfWeek tz date)) as weekDays.
  generalize 0 as acc. intros acc weekDays. revert acc.
  induction weekDays as [|day weekDays IH]; intros acc; simpl;
    [reflexivity|].
  rewrite Hday. apply IH.
Qed.

Lemma X8_habit_without_completions_witness :
  exists before after,
    CompletionChart.chartPoint 0 ([Examples.run] ++ [Examples.read])
      Examples.runCompletions CompletionChart.weekly Examples.saturdayNoon
    = Some after
    /\ CompletionChart.chartPoint 0 [Examples.run] Examples.runCompletions
         CompletionChart.weekly Examples.saturdayNoon = Some before
    /\ CompletionChart.completions after = CompletionChart.completions before.
Proof.
  eexists _, _. split; [vm_compute; reflexivity|].
  split; [vm_compute; reflexivity|].
  eapply (X8_habit_without_completions 0 [Examples.run]
            Examples.runCompletions Examples.read CompletionChart.weekly
            Examples.saturdayNoon);
    vm_compute; reflexivity.
Defined.

(** ** Categories *)

Lemma sumZ_perm {A} (f : A -> Z) l l' :
  Permutation l l' -> sumZ f l = sumZ f l'.
Proof. induction 1; simpl; lia. Qed.

Lemma sumZ_add {A} (f g : A -> Z) l :
  sumZ (fun x => f x + g x) l = sumZ f l + sumZ g l.
Proof. induction l as [|x l IH]; simpl; lia. Qed.

Lemma sumZ_zero {A} (l : list A) : sumZ (fun _ => 0) l = 0.
Proof. induction l as [|x l IH]; simpl; lia. Qed.

(** A key that occurs once is hit once. *)
Lemma sumZ_indicator c ks :
  List.NoDup ks ->
  In c ks ->
  sumZ (fun k => if String.eqb c k then 1 else 0) ks = 1.
Proof.
  induction 1 as [|k ks Hk Hnd IH]; simpl; [contradiction|].
  intros [->|Hin].
  - rewrite String.eqb_refl.
    rewrite (sumZ_ext _ (fun _ => 0)).
    + rewrite sumZ_zero. reflexivity.
    + intros k' Hk'. destruct (String.eqb_spec c k'); congruence.
  - rewrite IH by exact Hin.
    destruct (String.eqb_spec c k); [congruence|lia].
Qed.

(** The categories split the habits: every habit is in one group. *)
Lemma habitsIn_partition habits ks :
  List.NoDup ks ->
  (forall h, In h habits -> In (categoryOf h) ks) ->
  sumZ (fun c => Z.of_nat (length (habitsIn c habits))) ks
  = Z.of_nat (length habits).
Proof.
  intros Hnd. induction habits as [|h hs IH]; intros Hall.
  - simpl. apply sumZ_zero.
  - rewrite (sumZ_ext _
               (fun c => (if String.eqb (categoryOf h) c then 1 else 0)
                         + Z.of_nat (length (habitsIn c hs)))).
    + rewrite sumZ_add, IH by (intros h' Hh'; apply Hall; right; exact Hh').
      rewrite sumZ_indicator
        by (try exact Hnd; apply Hall; left; reflexivity).
      simpl length. lia.
    + intros c _. unfold habitsIn. simpl.
      destruct (String.eqb (categoryOf h) c); simpl length; lia.
Qed.

(** X9. The entries of the category chart split the habits: their names
    are distinct and their habit counts add up to the number of habits. *)
Theorem X9_categories_partition_habits
    completions_ streaks metric habits now :
  let data :=
    CategoryChart.categoryData completions_ streaks metric habits now in
  List.NoDup (map CategoryChart.category data)
  /\ sumZ CategoryChart.count_ data = Z.of_nat (length habits).
Proof.
  intros data. subst data. unfold CategoryChart.categoryData.
  pose proof (Array_sort_perm CategoryChart.byValueDesc
                (map (CategoryChart.categoryEntry completions_ streaks metric
                        now)
                   (CategoryChart.groupByCategory habits))) as Hperm.
  rewrite category_entries in *.
  set (keys := firstSeen (map categoryOf habits)) in *.
  assert (List.NoDup keys) as Hkeys
    by apply NoDup_ListNoDup, NoDup_firstSeen.
  assert (map CategoryChart.category
            (map (fun c =>
                    CategoryChart.categoryEntry completions_ streaks metric
                      now (c, habitsIn c habits)) keys) = keys) as Hcat.
  { rewrite map_map. rewrite <- (map_id keys) at 2.
    apply map_ext. intros c. apply categoryEntry_fields. }
  split.
  - eapply Permutation_NoDup;
      [symmetry; apply Permutation_map; exact Hperm|].
    rewrite Hcat. exact Hkeys.
  - rewrite (sumZ_perm _ _ _ Hperm), sumZ_map.
    rewrite (sumZ_ext _
               (fun c => Z.of_nat (length (habitsIn c habits))))
      by (intros c _; apply categoryEntry_fields).
    apply habitsIn_partition; [exact Hkeys|].
    intros h Hh. apply In_firstSeen, in_map. exact Hh.
Qed.

Lemma totalStreakOf_sum streaks hs :
  CategoryChart.totalStreakOf streaks hs
  = sumZ (CategoryChart.currentStreakOf streaks) hs.
Proof.
  unfold CategoryChart.totalStreakOf.
  assert (forall acc,
            fold_left
              (fun sum habit =>
                 sum + CategoryChart.currentStreakOf streaks habit) hs acc
            = acc + sumZ (CategoryChart.currentStreakOf streaks) hs) as H.
  { induction hs as [|h hs IH]; intros acc; simpl; [lia|].
    rewrite IH. lia. }
  rewrite H. lia.
Qed.

(** X10. The average streak of an entry is the sum of the current streaks
    of the habits of its category, a habit without a streak record
    counting 0, divided by the number of those habits and rounded to one
    decimal. *)
Theorem X10_category_average_streak
    completions_ streaks metric habits now e :
  In e (CategoryChart.categoryData completions_ streaks metric habits now) ->
  let hs := habitsIn (CategoryChart.category e) habits in
  CategoryChart.averageStreak e
  = CategoryChart.roundTenth
      (inject_Z
         (sumZ (fun h => match streaks !! id h with
                         | Some s => current_streak s
                         | None => 0%Z
                         end) hs)
       / inject_Z (Z.of_nat (length hs)))%Q.
Proof.
  intros He hs. apply categoryData_In in He as [c [Hc ->]].
  destruct (categoryEntry_fields completions_ streaks metric now c
              (habitsIn c habits)) as [Hcat _].
  subst hs. rewrite Hcat.
  unfold CategoryChart.categoryEntry, CategoryChart.categoryEntryFrom.
  cbn [snd]. rewrite rateTotals_sum. cbn [CategoryChart.averageStreak].
  rewrite totalStreakOf_sum.
  apply in_map_iff in Hc as [h [Hcat' Hh]].
  assert (In h (habitsIn c habits)) as Hin by (apply habitsIn_In; auto).
  destruct (Z.ltb_spec 0 (Z.of_nat (length (habitsIn c habits))))
    as [_|Hzero]; [reflexivity|].
  destruct (habitsIn c habits); [contradiction|simpl in Hzero; lia].
Qed.

Lemma X10_category_average_streak_witness :
  exists e,
    In e (CategoryChart.categoryData ∅ Examples.healthStreaks
            CategoryChart.average_streak [Examples.swim; Examples.yoga]
            Examples.oneAM)
    /\ (CategoryChart.averageStreak e == 4)%Q.
Proof.
  eexists. split; [left; reflexivity|].
  rewrite (X10_category_average_streak ∅ Examples.healthStreaks
             CategoryChart.average_streak [Examples.swim; Examples.yoga]
             Examples.oneAM _ (or_introl eq_refl)).
  vm_compute. reflexivity.
Defined.

(** ** Today, as the components see it *)

(** A date-only string is parsed as UTC midnight and then looked at in local
    time: the local day it falls on is shifted by the zone. *)
Lemma isToday_parseDateOnly tz now d :
  isToday tz now (parseDateOnly d)
  = (d + tz / MS_PER_DAY =? format_day tz now).
Proof.
  unfold isToday. rewrite !startOfDay_dayStart.
  assert (format_day tz (parseDateOnly d) = d + tz / MS_PER_DAY) as ->.
  { unfold format_day, parseDateOnly.
    apply Z.div_add_l. pose proof MS_PER_DAY_pos. lia. }
  pose proof MS_PER_DAY_pos.
  destruct (Z.eqb_spec (d + tz / MS_PER_DAY) (format_day tz now)) as [->|Hne].
  - apply Z.eqb_refl.
  - apply Z.eqb_neq. unfold dayStart. nia.
Qed.

(** The two regimes of the zone. *)
Lemma isToday_by_zone tz now d :
  (0 <= tz < MS_PER_DAY ->
   (isToday tz now (parseDateOnly d) = true <-> d = format_day tz now))
  /\ (- MS_PER_DAY <= tz < 0 ->
      (isToday tz now (parseDateOnly d) = true <-> d = format_day tz now + 1)).
Proof.
  rewrite isToday_parseDateOnly, Z.eqb_eq.
  split; intros Htz.
  - rewrite Z.div_small by lia. lia.
  - assert (tz / MS_PER_DAY = -1) as ->; [|lia].
    symmetry. apply (Z.div_unique tz MS_PER_DAY (-1) (tz + MS_PER_DAY)); lia.
Qed.

(** X13. [isToday(new Date(completion_date))] holds for the completion
    dated with the local day of the clock when the zone is at or east of
    UTC; in a zone west of UTC it holds for the completion dated with the
    next day instead, and not for the one dated today. *)
Theorem X13_today_depends_on_zone tz now d :
  (0 <= tz < MS_PER_DAY ->
   (isToday tz now (parseDateOnly d) = true <-> d = format_day tz now))
  /\ (- MS_PER_DAY <= tz < 0 ->
      (isToday tz now (parseDateOnly d) = true <-> d = format_day tz now + 1)).
Proof. apply isToday_by_zone. Qed.

Lemma X13_today_depends_on_zone_witness :
  isToday Cases.westOffset Cases.westNoon
    (parseDateOnly (format_day Cases.westOffset Cases.westNoon)) <> true.
Proof.
  intros H.
  apply (proj2 (X13_today_depends_on_zone Cases.westOffset Cases.westNoon
                  (format_day Cases.westOffset Cases.westNoon))) in H.
  - vm_compute in H. discriminate H.
  - vm_compute. split; [discriminate|reflexivity].
Defined.

(** ** The counters of the summary *)

Section SummaryCounters.

Context (tz : Z) (completions_ : gmap Z (list CompletionResponse))
        (weekAgo now : Z).

Lemma completionStep_counts cs : forall c,
  fold_left (ProgressSummary.completionStep tz weekAgo now) cs c
  = ProgressSummary.mkCounters
      (ProgressSummary.c_today c
       + countIf (fun x => isToday tz now (parseDateOnly (completion_date x)))
           cs)
      (ProgressSummary.c_yesterday c)
      (ProgressSummary.c_week c
       + countIf (fun x => weekAgo <=? parseDateOnly (completion_date x)) cs)
      (ProgressSummary.c_total c).
Proof.
  unfold countIf.
  induction cs as [|x cs IH]; intros [t y w n]; simpl.
  - f_equal; lia.
  - rewrite IH. unfold ProgressSummary.completionStep.
    destruct (isToday tz now (parseDateOnly (completion_date x)));
      destruct (weekAgo <=? parseDateOnly (completion_date x));
      simpl; f_equal; lia.
Qed.

Lemma habitStep_counts habits : forall c,
  fold_left (ProgressSummary.habitStep tz completions_ weekAgo now) habits c
  = ProgressSummary.mkCounters
      (ProgressSummary.c_today c
       + sumZ (fun h =>
                 countIf (fun x =>
                            isToday tz now (parseDateOnly (completion_date x)))
                   (completionsOf completions_ h)) habits)
      (ProgressSummary.c_yesterday c)
      (ProgressSummary.c_week c
       + sumZ (fun h =>
                 countIf (fun x =>
                            weekAgo <=? parseDateOnly (completion_date x))
                   (completionsOf completions_ h)) habits)
      (ProgressSummary.c_total c
       + sumZ (fun h => Z.of_nat (length (completionsOf completions_ h)))
           habits).
Proof.
  induction habits as [|h hs IH]; intros [t y w n]; simpl.
  - f_equal; lia.
  - rewrite IH. unfold ProgressSummary.habitStep.
    rewrite completionStep_counts. simpl. f_equal; lia.
Qed.

End SummaryCounters.

Lemma countIf_le {A} (f g : A -> bool) l :
  (forall x, f x = true -> g x = true) -> countIf f l <= countIf g l.
Proof.
  intros Hfg. unfold countIf.
  induction l as [|x l IH]; simpl; [lia|].
  destruct (f x) eqn:Hf.
  - rewrite (Hfg x Hf). simpl. lia.
  - destruct (g x); simpl; lia.
Qed.

Lemma countIf_bounds {A} (f : A -> bool) l :
  0 <= countIf f l <= Z.of_nat (length l).
Proof.
  unfold countIf. pose proof (filter_length_le f l). lia.
Qed.

Lemma sumZ_le {A} (f g : A -> Z) l :
  (forall x, f x <= g x) -> sumZ f l <= sumZ g l.
Proof.
  intros Hfg. induction l as [|x l IH]; simpl; [lia|].
  specialize (Hfg x). lia.
Qed.

(** A completion that counts for today lies within the last seven days. *)
Lemma isToday_within_week tz now d :
  isToday tz now (parseDateOnly d) = true ->
  (subDays now 7 <=? parseDateOnly d) = true.
Proof.
  rewrite isToday_parseDateOnly, Z.eqb_eq, Z.leb_le.
  unfold format_day, subDays, parseDateOnly.
  change MS_PER_DAY with 86400000. intros Hd.
  Z.div_mod_to_equations. lia.
Qed.

(** The counters of the summary as sums over the habits. *)
Lemma stats_counters tz completions_ streaks habits now :
  let s := ProgressSummary.stats tz completions_ streaks habits now in
  let records h := completionsOf completions_ h in
  ProgressSummary.todayCompletions s
  = sumZ (fun h =>
            countIf (fun c => isToday tz now (parseDateOnly (completion_date c)))
              (records h)) habits
  /\ ProgressSummary.weekCompletions s
     = sumZ (fun h =>
               countIf (fun c =>
                          subDays now 7 <=? parseDateOnly (completion_date c))
                 (records h)) habits
  /\ ProgressSummary.totalCompletions s
     = sumZ (fun h => Z.of_nat (length (records h))) habits
  /\ 0 <= ProgressSummary.todayCompletions s
       <= ProgressSummary.weekCompletions s
  /\ ProgressSummary.weekCompletions s <= ProgressSummary.totalCompletions s.
Proof.
  intros s records. subst s records. unfold ProgressSummary.stats.
  rewrite habitStep_counts. simpl.
  split; [reflexivity|]. split; [reflexivity|]. split; [reflexivity|].
  split; [split|].
  - assert (0 <= sumZ (fun h =>
                         countIf (fun c =>
                                    isToday tz now
                                      (parseDateOnly (completion_date c)))
                           (completionsOf completions_ h)) habits);
      [|lia].
    rewrite <- (sumZ_zero habits). apply sumZ_le.
    intros h. apply countIf_bounds.
  - apply sumZ_le. intros h. apply countIf_le.
    intros c. apply isToday_within_week.
  - apply sumZ_le. intros h. apply countIf_bounds.
Qed.

(** X11. With the clock at [now], the summary counts for today the
    completion records that [isToday] accepts, for the week those dated no
    earlier than seven days before [now], and in total all records, each
    summed over the habits of the list; so today's count never exceeds the
    week's count, which never exceeds the total. *)
Theorem X11_summary_counters tz completions_ streaks habits now :
  let s := ProgressSummary.stats tz completions_ streaks habits now in
  let records h := completionsOf completions_ h in
  ProgressSummary.todayCompletions s
  = sumZ (fun h =>
            countIf (fun c => isToday tz now (parseDateOnly (completion_date c)))
              (records h)) habits
  /\ ProgressSummary.weekCompletions s
     = sumZ (fun h =>
               countIf (fun c =>
                          subDays now 7 <=? parseDateOnly (completion_date c))
                 (records h)) habits
  /\ ProgressSummary.totalCompletions s
     = sumZ (fun h => Z.of_nat (length (records h))) habits
  /\ 0 <= ProgressSummary.todayCompletions s
       <= ProgressSummary.weekCompletions s
  /\ ProgressSummary.weekCompletions s <= ProgressSummary.totalCompletions s.
Proof. apply stats_counters. Qed.

(** ** Streak figures of the summary *)

Lemma fold_max_upper {A} (f : A -> Z) l : forall a,
  a <= fold_left (fun m x => Z.max m (f x)) l a
  /\ (forall x, In x l -> f x <= fold_left (fun m x => Z.max m (f x)) l a).
Proof.
  induction l as [|y l IH]; intros a; simpl.
  - split; [lia|]. intros x [].
  - destruct (IH (Z.max a (f y))) as [Hge Hall]. split; [lia|].
    intros x [->|Hx]; [lia|]. apply Hall. exact Hx.
Qed.

Lemma fold_max_attained {A} (f : A -> Z) l : forall a,
  fold_left (fun m x => Z.max m (f x)) l a = a
  \/ exists x, In x l /\ f x = fold_left (fun m x => Z.max m (f x)) l a.
Proof.
  induction l as [|y l IH]; intros a; simpl; [left; reflexivity|].
  destruct (IH (Z.max a (f y))) as [Heq|[x [Hx Hfx]]].
  - rewrite Heq. destruct (Z.max_spec a (f y)) as [[_ ->]|[_ ->]].
    + right. exists y. auto.
    + left. reflexivity.
  - right. exists x. auto.
Qed.

Lemma streakValues_In streaks s :
  In s (ProgressSummary.streakValues streaks)
  <-> exists k, streaks !! k = Some s.
Proof.
  unfold ProgressSummary.streakValues.
  rewrite <- list_elem_of_In, list_elem_of_fmap. split.
  - intros [[k s'] [-> Hin]]. apply elem_of_map_to_list in Hin.
    exists k. exact Hin.
  - intros [k Hk]. exists (k, s). split; [reflexivity|].
    apply elem_of_map_to_list. exact Hk.
Qed.

(** X12. Under every clock the longest streak of the summary is the largest
    [longest_streak] among all streak records of the store, whether or not
    their habit is in the list, and 0 when there is none (or none above
    0). *)
Theorem X12_longest_streak_is_maximum tz habits completions_ streaks clock :
  let s := Clocked.run (Clocked.stats tz habits completions_ streaks) clock in
  (forall k record, streaks !! k = Some record ->
     longest_streak record <= ProgressSummary.longestStreak s)
  /\ (ProgressSummary.longestStreak s = 0
      \/ exists k record,
           streaks !! k = Some record
           /\ longest_streak record = ProgressSummary.longestStreak s).
Proof.
  intros s.
  destruct (stats_shape tz habits completions_ streaks clock)
    as [c [d [Hs _]]].
  subst s. rewrite Hs. cbn [ProgressSummary.statsOf
                              ProgressSummary.longestStreak].
  split.
  - intros k record Hk.
    apply (fold_max_upper longest_streak
             (ProgressSummary.streakValues streaks) 0).
    apply streakValues_In. exists k. exact Hk.
  - destruct (fold_max_attained longest_streak
                (ProgressSummary.streakValues streaks) 0)
      as [Heq|[record [Hin Hmax]]].
    + left. exact Heq.
    + right. apply streakValues_In in Hin as [k Hk].
      exists k, record. auto.
Qed.

Lemma X12_longest_streak_is_maximum_witness :
  5 <= ProgressSummary.longestStreak
         (Clocked.run
            (Clocked.stats 0 [] ∅
               {[ 9 := {| current_streak := 0; longest_streak := 5 |} ]})
            (Examples.stoppedClock Examples.oneAM)).
Proof.
  apply (proj1 (X12_longest_streak_is_maximum 0 [] ∅
                  {[ 9 := {| current_streak := 0; longest_streak := 5 |} ]}
                  (Examples.stoppedClock Examples.oneAM))
           9 {| current_streak := 0; longest_streak := 5 |}).
  reflexivity.
Defined.

(** ** Today's progress *)

Lemma countIf_date_NoDup cs d :
  List.NoDup (map completion_date cs) ->
  countIf (fun c => completion_date c =? d) cs <= 1.
Proof.
  unfold countIf. induction cs as [|c cs IH]; simpl; intros Hnd; [lia|].
  apply NoDup_cons_iff in Hnd as [Hc Hnd].
  destruct (Z.eqb_spec (completion_date c) d) as [Heq|Hne]; [|auto].
  assert (List.filter (fun c => completion_date c =? d) cs = []) as ->;
    [|simpl; lia].
  destruct (List.filter _ cs) as [|c' l] eqn:Hf; [reflexivity|].
  exfalso. apply Hc.
  assert (In c' (List.filter (fun c => completion_date c =? d) cs)) as Hin
    by (rewrite Hf; left; reflexivity).
  apply filter_In in Hin as [Hin Hd]. apply Z.eqb_eq in Hd.
  apply in_map_iff. exists c'. split; [lia|exact Hin].
Qed.

Lemma countIf_ext {A} (f g : A -> bool) l :
  (forall x, f x = g x) -> countIf f l = countIf g l.
Proof.
  intros Hfg. unfold countIf. f_equal. f_equal.
  induction l as [|x l IH]; simpl; [reflexivity|].
  rewrite Hfg, IH. reflexivity.
Qed.

(** X14. With the clock at [now], today's progress is 0 when there is no
    habit, and lies between 0 and 100 when no habit has two completion
    records of one date. *)
Theorem X14_today_progress_bounds tz completions_ streaks habits now :
  let s := ProgressSummary.stats tz completions_ streaks habits now in
  (habits = [] -> ProgressSummary.getTodayProgress s = 0)
  /\ ((forall h, In h habits ->
         List.NoDup (map completion_date (completionsOf completions_ h))) ->
      0 <= ProgressSummary.getTodayProgress s <= 100).
Proof.
  intros s. split.
  - intros ->. reflexivity.
  - intros Hdates.
    pose proof (stats_counters tz completions_ streaks habits now)
      as [Htoday [_ [_ [[Hpos _] _]]]].
    cbv zeta in Htoday, Hpos. fold s in Htoday, Hpos.
    assert (ProgressSummary.todayCompletions s
            <= ProgressSummary.totalHabits s) as Hle.
    { rewrite Htoday. change (ProgressSummary.totalHabits s)
        with (Z.of_nat (length habits)).
      clear Htoday Hpos s. induction habits as [|h hs IH]; simpl; [lia|].
      assert (countIf
                (fun c => isToday tz now (parseDateOnly (completion_date c)))
                (completionsOf completions_ h) <= 1) as H1.
      { rewrite (countIf_ext _
                   (fun c => completion_date c
                             =? format_day tz now - tz / MS_PER_DAY)).
        - apply countIf_date_NoDup, Hdates. left. reflexivity.
        - intros c. rewrite isToday_parseDateOnly.
          destruct (Z.eqb_spec (completion_date c + tz / MS_PER_DAY)
                      (format_day tz now));
            destruct (Z.eqb_spec (completion_date c)
                        (format_day tz now - tz / MS_PER_DAY)); lia. }
      specialize (IH ltac:(intros h' Hh'; apply Hdates; right; exact Hh')).
      lia. }
    unfold ProgressSummary.getTodayProgress.
    destruct (Z.eqb_spec (ProgressSummary.totalHabits s) 0) as [|Hne];
      [lia|].
    assert (0 < ProgressSummary.totalHabits s) as Hhabits
      by (change (ProgressSummary.totalHabits s)
            with (Z.of_nat (length habits)) in *; lia).
    assert (Math_round
              (Number_mul
                 (Number_div (inject_Z (ProgressSummary.todayCompletions s))
                    (inject_Z (ProgressSummary.totalHabits s)))
                 100)
            = Math_round
                (ratePercent (ProgressSummary.todayCompletions s)
                   (ProgressSummary.totalHabits s))) as ->.
    { unfold ratePercent.
      destruct (Z.ltb_spec 0 (ProgressSummary.totalHabits s)); [|lia].
      reflexivity. }
    split; [apply rate_nonneg; exact Hpos|].
    apply rate_le_100. lia.
Qed.

Lemma X14_today_progress_bounds_witness :
  0 <= ProgressSummary.getTodayProgress
         (ProgressSummary.stats 0 Examples.runCompletions ∅ [Examples.run]
            Examples.wednesdayNoon) <= 100.
Proof.
  apply (proj2 (X14_today_progress_bounds 0 Examples.runCompletions ∅
                  [Examples.run] Examples.wednesdayNoon)).
  intros h [<-|[]]. vm_compute.
  repeat constructor; simpl; intuition discriminate.
Defined.

(** ** Selecting habits on the Analytics page *)

(** X15. Clicking a habit button flips the membership of that habit in the
    selection and of no other habit, and a selection without repeated ids
    stays without repeated ids. *)
Theorem X15_selection_toggle prev habitId :
  let next := Analytics.handleHabitSelection prev habitId in
  (In habitId next <-> ~ In habitId prev)
  /\ (forall other, other <> habitId -> (In other next <-> In other prev))
  /\ (List.NoDup prev -> List.NoDup next).
Proof.
  intros next. subst next. unfold Analytics.handleHabitSelection.
  destruct (bool_decide_reflect (habitId ∈ prev)) as [Hin|Hnin];
    rewrite list_elem_of_In in *.
  - split; [|split].
    + rewrite filter_In, Z.eqb_refl. simpl. split; [intros [_ H]|]; tauto
        || discriminate.
    + intros other Hne. rewrite filter_In.
      destruct (Z.eqb_spec other habitId); simpl; [contradiction|tauto].
    + apply List.NoDup_filter.
  - split; [|split].
    + rewrite in_app_iff. simpl. tauto.
    + intros other Hne. rewrite in_app_iff. simpl.
      split; [intros [H|[H|[]]]; [exact H|congruence] | tauto].
    + intros Hnd. apply NoDup_ListNoDup, NoDup_app.
      split; [apply NoDup_ListNoDup; exact Hnd|].
      split; [|apply NoDup_singleton].
      intros x Hx Hx'. apply list_elem_of_In in Hx.
      apply list_elem_of_singleton in Hx'. subst x. contradiction.
Qed.

Lemma X15_selection_toggle_witness :
  List.NoDup (Analytics.handleHabitSelection [1; 2] 3).
Proof.
  apply (X15_selection_toggle [1; 2] 3).
  repeat constructor; simpl; intuition discriminate.
Defined.

(** ** Sorting by a key *)

Section SortByKey.

Context {A : Type} (compareFn : A -> A -> Q) (before : A -> A -> Prop).
Hypothesis compare_before :
  forall a b, Qle_bool (compareFn a b) 0 = true <-> before a b.
Hypothesis before_trans :
  forall a b c, before a b -> before b c -> before a c.
Hypothesis before_total : forall a b, before a b \/ before b a.

Lemma sortInsert_sorted_by a l :
  StronglySorted before l -> StronglySorted before (sortInsert compareFn a l).
Proof.
  induction 1 as [|b l Hs IH Hall]; simpl.
  - constructor; constructor.
  - destruct (Qle_bool (compareFn a b) 0) eqn:Hcmp.
    + apply compare_before in Hcmp.
      constructor; [constructor; assumption|].
      constructor; [exact Hcmp|].
      eapply List.Forall_impl; [|exact Hall].
      intros c Hc. exact (before_trans _ _ _ Hcmp Hc).
    + constructor; [exact IH|].
      eapply Permutation_Forall; [symmetry; apply sortInsert_perm|].
      constructor; [|exact Hall].
      destruct (before_total a b) as [Hab|Hba]; [|exact Hba].
      apply compare_before in Hab. congruence.
Qed.

Lemma Array_sort_sorted_by l : StronglySorted before (Array_sort compareFn l).
Proof.
  induction l as [|a l IH]; simpl; [constructor|].
  apply sortInsert_sorted_by. exact IH.
Qed.

(** A list that is already in order is left as it is. *)
Lemma Array_sort_of_sorted l :
  StronglySorted before l -> Array_sort compareFn l = l.
Proof.
  induction 1 as [|a l Hs IH Hall]; simpl; [reflexivity|].
  fold (Array_sort compareFn l). rewrite IH.
  destruct l as [|b l]; simpl; [reflexivity|].
  apply Forall_inv in Hall. apply compare_before in Hall.
  rewrite Hall. reflexivity.
Qed.

End SortByKey.

(** ** The Dashboard *)

Lemma newestFirst_le a b :
  Qle_bool (Dashboard.newestFirst a b) 0 = true
  <-> created_at b <= created_at a.
Proof.
  unfold Dashboard.newestFirst. rewrite Qle_bool_iff.
  change 0%Q with (inject_Z 0). rewrite <- Zle_Qle. lia.
Qed.

(** X17. Rendering the Dashboard leaves the habit list of the store
    reordered, newest first, with the same habits; it shows the first six
    of that order, so no habit left out is newer than a habit shown; and
    rendering again changes nothing more. *)
Theorem X17_dashboard_shows_six_newest s :
  let s' := fst (Dashboard.render s) in
  let recent := Dashboard.recentHabits s in
  Permutation (HabitStore.habits s') (HabitStore.habits s)
  /\ StronglySorted (fun a b => created_at b <= created_at a)
       (HabitStore.habits s')
  /\ recent = take 6 (HabitStore.habits s')
  /\ length recent = Nat.min 6 (length (HabitStore.habits s))
  /\ (forall shown other,
        In shown recent -> In other (drop 6 (HabitStore.habits s')) ->
        created_at other <= created_at shown)
  /\ Dashboard.render s' = Dashboard.render s.
Proof.
  intros s' recent. subst s' recent.
  unfold Dashboard.recentHabits, Dashboard.render. cbn [fst snd].
  cbn [HabitStore.habits HabitStore.completions HabitStore.streaks
       HabitStore.loading HabitStore.error].
  set (sorted := Array_sort Dashboard.newestFirst (HabitStore.habits s)).
  assert (StronglySorted (fun a b => created_at b <= created_at a) sorted)
    as Hsorted.
  { apply (Array_sort_sorted_by Dashboard.newestFirst
             (fun a b => created_at b <= created_at a) newestFirst_le);
      intros; lia. }
  assert (Permutation sorted (HabitStore.habits s)) as Hperm
    by apply Array_sort_perm.
  split; [exact Hperm|]. split; [exact Hsorted|]. split; [reflexivity|].
  split; [rewrite length_take, (Permutation_length Hperm); reflexivity|].
  split.
  - intros shown other Hshown Hother.
    rewrite <- (take_drop 6 sorted) in Hsorted.
    apply (StronglySorted_app_1_elem_of _ _ _ shown other Hsorted);
      apply list_elem_of_In; assumption.
  - rewrite (Array_sort_of_sorted Dashboard.newestFirst
               (fun a b => created_at b <= created_at a) newestFirst_le
               sorted Hsorted).
    reflexivity.
Qed.

Lemma X17_dashboard_shows_six_newest_witness :
  StronglySorted (fun a b => created_at b <= created_at a)
    (HabitStore.habits (fst (Dashboard.render StoreCases.twoHabits)))
  /\ length (Dashboard.recentHabits StoreCases.twoHabits) = 2%nat.
Proof.
  split.
  - exact (proj1 (proj2
             (X17_dashboard_shows_six_newest StoreCases.twoHabits))).
  - exact (proj1 (proj2 (proj2 (proj2
             (X17_dashboard_shows_six_newest StoreCases.twoHabits))))).
Defined.

(** ** The store *)

(** X18. When the backend accepts the deletion of a habit, the store keeps
    no habit with that id and no completions or streak under that id, and
    leaves every other habit, completion list and streak as it was. *)
Theorem X18_deleteHabit_removes_all api habitId s :
  HabitStore.api_deleteHabit api habitId = inr tt ->
  let s' := fst (HabitStore.deleteHabit api habitId s) in
  (forall h, In h (HabitStore.habits s') <->
             In h (HabitStore.habits s) /\ id h <> habitId)
  /\ HabitStore.completions s' !! habitId = None
  /\ HabitStore.streaks s' !! habitId = None
  /\ (forall other, other <> habitId ->
        HabitStore.completions s' !! other
        = HabitStore.completions s !! other
        /\ HabitStore.streaks s' !! other = HabitStore.streaks s !! other)
  /\ HabitStore.error s' = None.
Proof.
  intros Hapi s'. subst s'. unfold HabitStore.deleteHabit. rewrite Hapi.
  cbn [fst HabitStore.habits HabitStore.completions HabitStore.streaks
       HabitStore.error].
  split; [|split; [|split; [|split]]].
  - intros h. rewrite filter_In.
    destruct (Z.eqb_spec (id h) habitId); simpl; intuition congruence.
  - apply lookup_delete_eq.
  - apply lookup_delete_eq.
  - intros other Hne. rewrite !lookup_delete_ne by congruence. auto.
  - reflexivity.
Qed.

Lemma X18_deleteHabit_removes_all_witness :
  HabitStore.completions
    (fst (HabitStore.deleteHabit (StoreCases.accepting 100) 1
            StoreCases.twoHabits)) !! 1 = None.
Proof.
  apply (X18_deleteHabit_removes_all (StoreCases.accepting 100) 1
           StoreCases.twoHabits).
  reflexivity.
Defined.

(** Closes the three parts of the outcome of a store action once its
    backend answers are known. *)
Ltac store_outcome :=
  repeat split; intros; congruence.

(** X19. After [deleteHabit], [createCompletion] or [deleteCompletion] the
    store is no longer loading, and its [error] is exactly the message the
    action throws: none when the call went through, even if the fetch of
    the streak that follows it failed.  An action that throws leaves the
    habits, the completions and the streaks untouched. *)
Theorem X19_failed_action_keeps_data api s r :
  (exists habitId, r = HabitStore.deleteHabit api habitId s)
  \/ (exists data, r = HabitStore.createCompletion api data s)
  \/ (exists completionId habitId,
        r = HabitStore.deleteCompletion api completionId habitId s) ->
  HabitStore.error (fst r) = snd r
  /\ HabitStore.loading (fst r) = false
  /\ (snd r <> None ->
      HabitStore.habits (fst r) = HabitStore.habits s
      /\ HabitStore.completions (fst r) = HabitStore.completions s
      /\ HabitStore.streaks (fst r) = HabitStore.streaks s).
Proof.
  intros [[habitId ->]|[[data ->]|[completionId [habitId ->]]]].
  - unfold HabitStore.deleteHabit.
    destruct (HabitStore.api_deleteHabit api habitId) as [message|[]];
      cbn [fst snd HabitStore.failed HabitStore.error HabitStore.loading
           HabitStore.habits HabitStore.completions HabitStore.streaks];
      store_outcome.
  - unfold HabitStore.createCompletion, HabitStore.fetchStreak.
    destruct (HabitStore.api_createCompletion api data) as [message|new];
      [|destruct (HabitStore.api_getStreak api (HabitStore.cc_habit_id data))];
      cbn [fst snd HabitStore.failed HabitStore.error HabitStore.loading
           HabitStore.habits HabitStore.completions HabitStore.streaks];
      store_outcome.
  - unfold HabitStore.deleteCompletion, HabitStore.fetchStreak.
    destruct (HabitStore.api_deleteCompletion api completionId)
      as [message|[]];
      [|destruct (HabitStore.api_getStreak api habitId)];
      cbn [fst snd HabitStore.failed HabitStore.error HabitStore.loading
           HabitStore.habits HabitStore.completions HabitStore.streaks];
      store_outcome.
Qed.

Lemma X19_failed_action_keeps_data_witness :
  HabitStore.error
    (fst (HabitStore.deleteHabit StoreCases.refusing 1 StoreCases.twoHabits))
  = Some "Network Error"
  /\ HabitStore.completions
       (fst (HabitStore.deleteHabit StoreCases.refusing 1
               StoreCases.twoHabits))
     = HabitStore.completions StoreCases.twoHabits.
Proof.
  pose proof (X19_failed_action_keeps_data StoreCases.refusing
                StoreCases.twoHabits
                (HabitStore.deleteHabit StoreCases.refusing 1
                   StoreCases.twoHabits)
                (or_introl (ex_intro _ 1 eq_refl))) as [Herror [_ Hkept]].
  split; [exact Herror|].
  apply Hkept. discriminate.
Defined.

Lemma fetchStreak_completions api habitId s :
  HabitStore.completions (HabitStore.fetchStreak api habitId s)
  = HabitStore.completions s
  /\ HabitStore.habits (HabitStore.fetchStreak api habitId s)
     = HabitStore.habits s.
Proof.
  unfold HabitStore.fetchStreak.
  destruct (HabitStore.api_getStreak api habitId); split; reflexivity.
Qed.

Lemma filter_fresh_id cs newCompletion :
  ~ In (completion_id newCompletion) (map completion_id cs) ->
  List.filter
    (fun c => negb (completion_id c =? completion_id newCompletion))
    (cs ++ [newCompletion]) = cs.
Proof.
  intros Hfresh. rewrite List.filter_app. simpl.
  rewrite Z.eqb_refl. simpl. rewrite app_nil_r.
  induction cs as [|c cs IH]; simpl in *; [reflexivity|].
  destruct (Z.eqb_spec (completion_id c) (completion_id newCompletion));
    simpl; [tauto|].
  rewrite IH by tauto. reflexivity.
Qed.

(** X20. Creating a completion and then deleting it by the id the backend
    gave it returns the completions of that habit to the list they were,
    provided no completion of the habit already had that id; the
    completions of the other habits are never touched. *)
Theorem X20_create_then_delete_completion api api' data newCompletion s :
  HabitStore.api_createCompletion api data = inr newCompletion ->
  HabitStore.api_deleteCompletion api' (completion_id newCompletion)
  = inr tt ->
  let habitId := HabitStore.cc_habit_id data in
  let before := default [] (HabitStore.completions s !! habitId) in
  ~ In (completion_id newCompletion) (map completion_id before) ->
  let s1 := fst (HabitStore.createCompletion api data s) in
  let s2 :=
    fst (HabitStore.deleteCompletion api' (completion_id newCompletion)
           habitId s1) in
  HabitStore.completions s1 !! habitId = Some (before ++ [newCompletion])
  /\ HabitStore.completions s2 !! habitId = Some before
  /\ (forall other, other <> habitId ->
        HabitStore.completions s2 !! other
        = HabitStore.completions s !! other).
Proof.
  intros Hcreate Hdelete habitId before Hfresh s1 s2.
  assert (HabitStore.completions s1
          = <[habitId := before ++ [newCompletion]]>
              (HabitStore.completions s)) as H1.
  { subst s1. unfold HabitStore.createCompletion. rewrite Hcreate.
    cbn [fst]. rewrite (proj1 (fetchStreak_completions _ _ _)).
    reflexivity. }
  assert (HabitStore.completions s2
          = <[habitId := before]> (HabitStore.completions s1)) as H2.
  { subst s2. unfold HabitStore.deleteCompletion. rewrite Hdelete.
    cbn [fst]. rewrite (proj1 (fetchStreak_completions _ _ _)).
    cbn [HabitStore.completions]. f_equal.
    rewrite H1, lookup_insert_eq. simpl.
    apply filter_fresh_id. exact Hfresh. }
  split; [rewrite H1; apply lookup_insert_eq|].
  split; [rewrite H2; apply lookup_insert_eq|].
  intros other Hne. rewrite H2, H1, !lookup_insert_ne by congruence.
  reflexivity.
Qed.

Lemma X20_create_then_delete_completion_witness :
  let data :=
    {| HabitStore.cc_habit_id := 1;
       HabitStore.cc_completion_date := Examples.jan01 + 3;
       HabitStore.cc_value := 1 |} in
  HabitStore.completions
    (fst (HabitStore.deleteCompletion (StoreCases.accepting 100) 100 1
            (fst (HabitStore.createCompletion (StoreCases.accepting 100)
                    data StoreCases.twoHabits)))) !! 1
  = Some Examples.threeDays.
Proof.
  intros data.
  refine (proj1 (proj2
    (X20_create_then_delete_completion (StoreCases.accepting 100)
       (StoreCases.accepting 100) data
       {| completion_id := 100; habit_id := 1;
          completion_date := Examples.jan01 + 3; value := 1 |}
       StoreCases.twoHabits _ _ _))).
  - reflexivity.
  - reflexivity.
  - vm_compute. intuition discriminate.
Defined.

(** ** Toggling today's completion on a card *)

Lemma isToday_format_day tz now date :
  isToday tz now date = (format_day tz date =? format_day tz now).
Proof.
  unfold isToday. rewrite !startOfDay_dayStart.
  pose proof MS_PER_DAY_pos.
  destruct (Z.eqb_spec (format_day tz date) (format_day tz now)) as [->|Hne].
  - apply Z.eqb_refl.
  - apply Z.eqb_neq. unfold dayStart. nia.
Qed.

(** X23. The Dashboard, which compares [toDateString()] of the two dates,
    and the habit list, which asks [isToday], agree on whether a habit is
    completed today. *)
Theorem X23_dashboard_and_list_agree tz now completions_ habit :
  Dashboard.todayCompleted tz now completions_ habit
  = HabitList.isHabitCompletedToday tz now completions_ (id habit).
Proof.
  unfold Dashboard.todayCompleted, HabitList.isHabitCompletedToday,
    completionsOf.
  induction (default [] (completions_ !! id habit)) as [|c cs IH]; simpl;
    [reflexivity|].
  rewrite IH, isToday_format_day. reflexivity.
Qed.

Lemma find_snoc_none {A} (f : A -> bool) l x :
  existsb f l = false ->
  List.find f (l ++ [x]) = if f x then Some x else None.
Proof.
  induction l as [|y l IH]; simpl; intros Hnone; [reflexivity|].
  apply orb_false_iff in Hnone as [Hy Hl]. rewrite Hy. apply IH. exact Hl.
Qed.

Section Toggle.

Context (tz now : Z) (habit : HabitResponse) (targetValue : Z)
        (s : HabitStore.State).

Lemma toggle_on_completions api newCompletion :
  HabitStore.api_createCompletion api
    {| HabitStore.cc_habit_id := id habit;
       HabitStore.cc_completion_date := format_day tz now;
       HabitStore.cc_value := targetValue |} = inr newCompletion ->
  HabitStore.completions
    (HabitCard.handleToggleCompletion tz now api habit targetValue false s)
  = <[id habit :=
        default [] (HabitStore.completions s !! id habit)
        ++ [newCompletion]]> (HabitStore.completions s).
Proof.
  intros Hcreate. unfold HabitCard.handleToggleCompletion.
  unfold HabitStore.createCompletion. rewrite Hcreate.
  cbn [fst]. rewrite (proj1 (fetchStreak_completions _ _ _)). reflexivity.
Qed.

Lemma toggle_on_seen api newCompletion :
  HabitStore.api_createCompletion api
    {| HabitStore.cc_habit_id := id habit;
       HabitStore.cc_completion_date := format_day tz now;
       HabitStore.cc_value := targetValue |} = inr newCompletion ->
  HabitList.isHabitCompletedToday tz now
    (HabitStore.completions
       (HabitCard.handleToggleCompletion tz now api habit targetValue false
          s))
    (id habit)
  = HabitList.isHabitCompletedToday tz now (HabitStore.completions s)
      (id habit)
    || isToday tz now (parseDateOnly (completion_date newCompletion)).
Proof.
  intros Hcreate. rewrite (toggle_on_completions api newCompletion Hcreate).
  unfold HabitList.isHabitCompletedToday.
  rewrite lookup_insert_eq. simpl. rewrite existsb_app. simpl.
  rewrite orb_false_r. reflexivity.
Qed.

End Toggle.

(** X21. At or east of UTC: toggling a card that is not completed today
    creates a completion dated today which the habit list then sees as
    today's, and toggling the card again deletes exactly that completion,
    so that the completions of the habit are back to what they were.  The
    backend is assumed to answer with the date it was asked for and with an
    id that no completion of the habit has yet. *)
Theorem X21_toggle_on_then_off
    tz now habit targetValue s api api' newCompletion :
  0 <= tz < MS_PER_DAY ->
  let before := default [] (HabitStore.completions s !! id habit) in
  HabitList.isHabitCompletedToday tz now (HabitStore.completions s)
    (id habit) = false ->
  HabitStore.api_createCompletion api
    {| HabitStore.cc_habit_id := id habit;
       HabitStore.cc_completion_date := format_day tz now;
       HabitStore.cc_value := targetValue |} = inr newCompletion ->
  completion_date newCompletion = format_day tz now ->
  ~ In (completion_id newCompletion) (map completion_id before) ->
  HabitStore.api_deleteCompletion api' (completion_id newCompletion)
  = inr tt ->
  let s1 :=
    HabitCard.handleToggleCompletion tz now api habit targetValue false s in
  let s2 :=
    HabitCard.handleToggleCompletion tz now api' habit targetValue true s1 in
  HabitList.isHabitCompletedToday tz now (HabitStore.completions s1)
    (id habit) = true
  /\ HabitStore.completions s2 !! id habit = Some before
  /\ HabitList.isHabitCompletedToday tz now (HabitStore.completions s2)
       (id habit) = false.
Proof.
  intros Htz before Hnot Hcreate Hdate Hfresh Hdelete s1 s2.
  assert (isToday tz now (parseDateOnly (completion_date newCompletion))
          = true) as Htoday.
  { apply (proj1 (isToday_by_zone tz now (completion_date newCompletion))
             Htz).
    exact Hdate. }
  assert (HabitStore.completions s1
          = <[id habit := before ++ [newCompletion]]>
              (HabitStore.completions s)) as H1
    by (apply toggle_on_completions; exact Hcreate).
  assert (HabitStore.completions s2 !! id habit = Some before) as H2.
  { subst s2. unfold HabitCard.handleToggleCompletion.
    rewrite H1, lookup_insert_eq. simpl default.
    rewrite (find_snoc_none _ before newCompletion) by exact Hnot.
    rewrite Htoday. unfold HabitStore.deleteCompletion. rewrite Hdelete.
    cbn [fst]. rewrite (proj1 (fetchStreak_completions _ _ _)).
    cbn [HabitStore.completions]. rewrite lookup_insert_eq. f_equal.
    rewrite H1, lookup_insert_eq. simpl default.
    apply filter_fresh_id. exact Hfresh. }
  split; [|split; [exact H2|]].
  - subst s1. rewrite (toggle_on_seen _ _ _ _ _ _ _ Hcreate), Htoday.
    apply orb_true_r.
  - unfold HabitList.isHabitCompletedToday in *. rewrite H2. exact Hnot.
Qed.

Lemma X21_toggle_on_then_off_witness :
  HabitStore.completions
    (HabitCard.handleToggleCompletion 0 Examples.saturdayNoon
       (StoreCases.accepting 100) Examples.run 1 true
       (HabitCard.handleToggleCompletion 0 Examples.saturdayNoon
          (StoreCases.accepting 100) Examples.run 1 false
          StoreCases.twoHabits)) !! id Examples.run
  = Some Examples.threeDays.
Proof.
  refine (proj1 (proj2
    (X21_toggle_on_then_off 0 Examples.saturdayNoon Examples.run 1
       StoreCases.twoHabits (StoreCases.accepting 100)
       (StoreCases.accepting 100)
       {| completion_id := 100; habit_id := 1;
          completion_date := Examples.jan01 + 3; value := 1 |}
       _ _ _ _ _ _))).
  - vm_compute. split; [discriminate|reflexivity].
  - vm_compute. reflexivity.
  - reflexivity.
  - reflexivity.
  - vm_compute. intuition discriminate.
  - reflexivity.
Defined.

(** X22. West of UTC: the completion that a card creates for today is not
    seen as today's by the habit list (nor by the summary), so after the
    toggle the card is shown completed today exactly if it was before. *)
Theorem X22_toggle_unseen_west_of_utc
    tz now habit targetValue s api newCompletion :
  - MS_PER_DAY <= tz < 0 ->
  HabitStore.api_createCompletion api
    {| HabitStore.cc_habit_id := id habit;
       HabitStore.cc_completion_date := format_day tz now;
       HabitStore.cc_value := targetValue |} = inr newCompletion ->
  completion_date newCompletion = format_day tz now ->
  let s1 :=
    HabitCard.handleToggleCompletion tz now api habit targetValue false s in
  HabitStore.completions s1 !! id habit
  = Some (default [] (HabitStore.completions s !! id habit)
          ++ [newCompletion])
  /\ HabitList.isHabitCompletedToday tz now (HabitStore.completions s1)
       (id habit)
     = HabitList.isHabitCompletedToday tz now (HabitStore.completions s)
         (id habit).
Proof.
  intros Htz Hcreate Hdate s1. subst s1. split.
  - rewrite (toggle_on_completions _ _ _ _ _ _ _ Hcreate).
    apply lookup_insert_eq.
  - rewrite (toggle_on_seen _ _ _ _ _ _ _ Hcreate).
    destruct (isToday tz now (parseDateOnly (completion_date newCompletion)))
      eqn:Htoday; [|apply orb_false_r].
    apply (proj2 (isToday_by_zone tz now (completion_date newCompletion))
             Htz) in Htoday.
    lia.
Qed.

Lemma X22_toggle_unseen_west_of_utc_witness :
  HabitList.isHabitCompletedToday Cases.westOffset Cases.westNoon
    (HabitStore.completions
       (HabitCard.handleToggleCompletion Cases.westOffset Cases.westNoon
          (StoreCases.accepting 100) Examples.read 1 false
          StoreCases.twoHabits))
    (id Examples.read)
  = false.
Proof.
  refine (eq_trans (proj2
    (X22_toggle_unseen_west_of_utc Cases.westOffset Cases.westNoon
       Examples.read 1 StoreCases.twoHabits (StoreCases.accepting 100)
       {| completion_id := 100; habit_id := 2;
          completion_date := Examples.jan01; value := 1 |}
       _ _ _)) _).
  - vm_compute. split; [discriminate|reflexivity].
  - reflexivity.
  - reflexivity.
  - reflexivity.
Defined.

(** ** Active streaks, counted twice *)

Lemma filter_length_perm {A} (f : A -> bool) l l' :
  Permutation l l' ->
  length (List.filter f l) = length (List.filter f l').
Proof.
  induction 1 as [|x l l' _ IH|x y l|l l' l'' _ IH1 _ IH2]; simpl.
  - reflexivity.
  - destruct (f x); simpl; rewrite IH; reflexivity.
  - destruct (f x), (f y); reflexivity.
  - rewrite IH1. exact IH2.
Qed.

Lemma activeStreaks_delete streaks k record :
  streaks !! k = Some record ->
  Analytics.activeStreaks streaks
  = (if 0 <? current_streak record then 1 else 0)
    + Analytics.activeStreaks (delete k streaks).
Proof.
  intros Hk. unfold Analytics.activeStreaks, ProgressSummary.streakValues.
  pose proof (map_to_list_delete streaks k record Hk) as Hperm.
  rewrite <- (filter_length_perm _ _ _
                (fmap_Permutation snd _ _ Hperm)).
  rewrite fmap_cons. cbn [snd List.filter].
  destruct (0 <? current_streak record); cbn [length]; lia.
Qed.

Lemma isActive_delete streaks k hs :
  ~ In k (map id hs) ->
  List.filter (ProgressSummary.isActive (delete k streaks)) hs
  = List.filter (ProgressSummary.isActive streaks) hs.
Proof.
  induction hs as [|h hs IH]; simpl; intros Hk; [reflexivity|].
  assert (ProgressSummary.isActive (delete k streaks) h
          = ProgressSummary.isActive streaks h) as ->.
  { unfold ProgressSummary.isActive.
    rewrite lookup_delete_ne by (intros Heq; apply Hk; left; congruence).
    reflexivity. }
  rewrite IH by tauto. reflexivity.
Qed.

Lemma active_counts_agree habits : forall streaks,
  List.NoDup (map id habits) ->
  (forall k, is_Some (streaks !! k) -> In k (map id habits)) ->
  Z.of_nat (length (List.filter (ProgressSummary.isActive streaks) habits))
  = Analytics.activeStreaks streaks.
Proof.
  induction habits as [|h hs IH]; intros streaks Hnd Hdom.
  - assert (streaks = ∅) as ->.
    { apply map_eq. intros k. rewrite lookup_empty.
      destruct (streaks !! k) eqn:Hk; [|reflexivity].
      exfalso. apply (Hdom k). rewrite Hk. eauto. }
    reflexivity.
  - simpl in Hnd. apply NoDup_cons_iff in Hnd as [Hh Hnd].
    specialize (IH (delete (id h) streaks) Hnd).
    rewrite isActive_delete in IH by exact Hh.
    assert (forall k, is_Some (delete (id h) streaks !! k) ->
                      In k (map id hs)) as Hdom'.
    { intros k Hk. destruct (Z.eq_dec k (id h)) as [->|Hne].
      - rewrite lookup_delete_eq in Hk. destruct Hk as [? [=]].
      - rewrite lookup_delete_ne in Hk by congruence.
        destruct (Hdom k Hk) as [Heq|Hin]; [congruence|exact Hin]. }
    specialize (IH Hdom'). simpl.
    unfold ProgressSummary.isActive at 1.
    destruct (streaks !! id h) as [record|] eqn:Hrecord.
    + rewrite (activeStreaks_delete streaks (id h) record Hrecord).
      destruct (0 <? current_streak record); simpl length; lia.
    + rewrite IH. f_equal. rewrite delete_id by exact Hrecord. reflexivity.
Qed.

(** X16. The number of active habits in the summary and the number of
    active streaks in the Insights panel agree when the habits have
    distinct ids and every streak record of the store belongs to a habit of
    the list. *)
Theorem X16_active_counts_agree tz habits completions_ streaks now :
  List.NoDup (map id habits) ->
  (forall k, is_Some (streaks !! k) -> In k (map id habits)) ->
  ProgressSummary.activeHabits
    (ProgressSummary.stats tz completions_ streaks habits now)
  = Analytics.activeStreaks streaks.
Proof. intros Hnd Hdom. apply active_counts_agree; assumption. Qed.

Lemma X16_active_counts_agree_witness :
  ProgressSummary.activeHabits
    (ProgressSummary.stats 0 ∅ Examples.healthStreaks
       [Examples.swim; Examples.yoga] Examples.oneAM)
  = Analytics.activeStreaks Examples.healthStreaks.
Proof.
  apply (X16_active_counts_agree 0 [Examples.swim; Examples.yoga] ∅
           Examples.healthStreaks Examples.oneAM).
  - simpl. repeat constructor; simpl; intuition discriminate.
  - intros k [record Hk]. simpl.
    destruct (Z.eq_dec k 6) as [->|H6]; [left; reflexivity|].
    destruct (Z.eq_dec k 7) as [->|H7]; [right; left; reflexivity|].
    unfold Examples.healthStreaks in Hk.
    rewrite lookup_insert_ne in Hk by congruence.
    rewrite lookup_singleton_ne in Hk by congruence. discriminate Hk.
Defined.

(** ** The empty state of the category chart *)

Lemma firstSeen_length l : (length (firstSeen l) <= length l)%nat.
Proof.
  apply NoDup_incl_length.
  - apply NoDup_ListNoDup, NoDup_firstSeen.
  - intros c Hc. apply In_firstSeen. exact Hc.
Qed.

(** X24. The category chart has at most as many entries as there are
    habits, and it has none, which is when it shows "No category data",
    exactly when there is no habit: habits without a category still make
    an entry. *)
Theorem X24_category_chart_empty_state
    completions_ streaks metric habits now :
  let data :=
    CategoryChart.categoryData completions_ streaks metric habits now in
  (length data <= length habits)%nat
  /\ (data = [] <-> habits = []).
Proof.
  intros data. split.
  - subst data. unfold CategoryChart.categoryData.
    rewrite (Permutation_length (Array_sort_perm _ _)).
    rewrite category_entries, length_map.
    etransitivity; [apply firstSeen_length|].
    rewrite length_map. reflexivity.
  - split.
    + intros Hdata. destruct habits as [|h hs]; [reflexivity|].
      exfalso.
      assert (In (CategoryChart.categoryEntry completions_ streaks metric now
                    (categoryOf h, habitsIn (categoryOf h) (h :: hs)))
                data) as Hin.
      { apply categoryData_In. exists (categoryOf h).
        split; [left; reflexivity | reflexivity]. }
      rewrite Hdata in Hin. contradiction.
    + intros ->. reflexivity.
Qed.

Lemma X24_category_chart_empty_state_witness :
  CategoryChart.categoryData Examples.lateCompletions ∅ CategoryChart.count
    [Examples.lateHabit] Examples.oneAM <> [].
Proof.
  intros H.
  apply (proj2 (X24_category_chart_empty_state Examples.lateCompletions ∅
                  CategoryChart.count [Examples.lateHabit] Examples.oneAM))
    in H.
  discriminate H.
Defined.

(** ** The age of the oldest habit *)

Lemma fold_min_lower l : forall a,
  fold_left Z.min l a <= a
  /\ (forall x, In x l -> fold_left Z.min l a <= x)
  /\ (fold_left Z.min l a = a \/ In (fold_left Z.min l a) l).
Proof.
  induction l as [|y l IH]; intros a; simpl.
  - split; [lia|]. split; [intros x []|left; reflexivity].
  - destruct (IH (Z.min a y)) as [Hle [Hall Hatt]].
    split; [lia|]. split.
    + intros x [->|Hx]; [lia|]. apply Hall. exact Hx.
    + destruct Hatt as [Heq|Hin]; [|right; right; exact Hin].
      rewrite Heq. destruct (Z.min_spec a y) as [[_ ->]|[_ ->]];
        [left; reflexivity | right; left; reflexivity].
Qed.

(** X25. The number of days the overall rate divides by is at least 1 and
    at least the age in whole days of every habit, and it is 1 or the age
    of one of the habits; so with at least one habit the possible
    completions are never 0. *)
Theorem X25_days_since_oldest habits now :
  let d := ProgressSummary.daysSinceOldestHabit habits now in
  1 <= d
  /\ (forall h, In h habits -> (now - created_at h) / MS_PER_DAY <= d)
  /\ (d = 1
      \/ exists h, In h habits /\ d = (now - created_at h) / MS_PER_DAY)
  /\ (habits <> [] -> 0 < Z.of_nat (length habits) * d).
Proof.
  intros d. subst d. unfold ProgressSummary.daysSinceOldestHabit.
  destruct habits as [|first rest].
  - split; [lia|]. split; [intros h []|]. split; [left; reflexivity|].
    intros H. contradiction.
  - unfold ProgressSummary.minCreated.
    destruct (fold_min_lower (map created_at rest) (created_at first))
      as [Hfirst [Hall Hatt]].
    set (oldest := fold_left Z.min (map created_at rest) (created_at first))
      in *.
    pose proof MS_PER_DAY_pos as Hpos.
    split; [lia|]. split; [|split].
    + intros h Hh.
      assert (oldest <= created_at h) as Hle.
      { destruct Hh as [<-|Hh]; [exact Hfirst|].
        apply Hall, in_map. exact Hh. }
      assert ((now - created_at h) / MS_PER_DAY
              <= (now - oldest) / MS_PER_DAY)
        by (apply Z.div_le_mono; lia).
      lia.
    + destruct (Z.max_spec 1 ((now - oldest) / MS_PER_DAY))
        as [[_ ->]|[_ ->]]; [|left; reflexivity].
      right. destruct Hatt as [Heq|Hin].
      * exists first. split; [left; reflexivity|]. rewrite Heq. reflexivity.
      * apply in_map_iff in Hin as [h [Hh Hin]].
        exists h. split; [right; exact Hin|]. rewrite Hh. reflexivity.
    + intros _. simpl length. lia.
Qed.

Lemma X25_days_since_oldest_witness :
  0 < Z.of_nat (length [Examples.lateHabit])
      * ProgressSummary.daysSinceOldestHabit [Examples.lateHabit]
          Examples.oneAM.
Proof.
  apply (X25_days_since_oldest [Examples.lateHabit] Examples.oneAM).
  discriminate.
Defined.

(** ** The streak series *)

(** X26. For a window of at least one day the streak series has one point
    for each day of the window, oldest first and ending with the day of
    the clock reading: the point of each day is computed for the midnight
    of that day. *)
Theorem X26_streak_series_days
    tz habits completions_ selectedHabitIds days endDate :
  1 <= days ->
  let firstDay := format_day tz endDate - (days - 1) in
  StreakChart.chartData tz habits completions_ selectedHabitIds days endDate
  = Some (map (fun d =>
                 StreakChart.dataPoint tz habits completions_
                   selectedHabitIds (dayStart tz d))
            (seqZ firstDay days)).
Proof.
  intros Hdays firstDay. unfold StreakChart.chartData.
  pose proof MS_PER_DAY_pos.
  rewrite eachDayOfInterval_seq by (unfold subDays; nia).
  simpl. rewrite map_map, format_day_subDays. fold firstDay.
  do 3 f_equal. lia.
Qed.

Lemma X26_streak_series_days_witness :
  exists data,
    StreakChart.chartData 0 [Examples.run] Examples.runCompletions None 7
      Examples.wednesdayNoon = Some data
    /\ length data = 7%nat.
Proof.
  eexists. split.
  - apply (X26_streak_series_days 0 [Examples.run] Examples.runCompletions
             None 7 Examples.wednesdayNoon).
    lia.
  - reflexivity.
Defined.
